(** * StoryboardAI: a shallow embedding of the storyboard application

    The development follows the repository's layout.  The Python snippets of
    the implementation guide ([extract_key_frames], [get_image_generator],
    [generate_character_variants], [refine_frame]) live in [Module Guide];
    the React pages and the shared API helpers live in one module per source
    file.  Handlers that talk to the backend are written in state-passing
    style: they take the component state and the outcome of the HTTP call
    and return the new state together with the log of requests they sent.

    Strings are [string]s whose characters are read as code points below
    256 (Latin-1); the character classes used by [str.strip],
    [str.splitlines], [str.isdigit] and [String.prototype.trim] are the
    exact tables for that range. *)

From Stdlib Require Import ZArith QArith Qround List String Ascii Sorting Permutation Lia.
From stdpp Require Import base list strings gmap pretty.
Import ListNotations.

Local Open Scope string_scope.
Local Open Scope Z_scope.
Local Open Scope list_scope.

(** ** JavaScript string and value helpers *)

Module Js.

(** A value that is either [null], [undefined] or a string. *)
Inductive value :=
| Null
| Undefined
| Str (s : string).

(** The outcome of an awaited request: the promise resolves with data or
    rejects. *)
Inductive outcome (A E : Type) :=
| Resolved (data : A)
| Rejected (err : E).
Arguments Resolved {A E} data.
Arguments Rejected {A E} err.

Definition code (c : ascii) : nat := nat_of_ascii c.

(** WhiteSpace and LineTerminator code points below 256, the ones
    [trim] strips: TAB, LF, VT, FF, CR, SP and NBSP. *)
Definition is_white (c : ascii) : bool :=
  bool_decide (code c ∈ [9; 10; 11; 12; 13; 32; 160]%nat).

Fixpoint trimStart (s : string) : string :=
  match s with
  | EmptyString => EmptyString
  | String c s' => if is_white c then trimStart s' else s
  end.

Fixpoint trimEnd (s : string) : string :=
  match s with
  | EmptyString => EmptyString
  | String c s' =>
      match trimEnd s' with
      | EmptyString => if is_white c then EmptyString else String c EmptyString
      | r => String c r
      end
  end.

Definition trim (s : string) : string := trimEnd (trimStart s).

(** Truthiness of a string: only the empty string is falsy. *)
Definition truthy (s : string) : bool :=
  match s with EmptyString => false | _ => true end.

Definition startsWith (s p : string) : bool := String.prefix p s.

Fixpoint includes (s sub : string) : bool :=
  String.prefix sub s ||
  match s with
  | EmptyString => false
  | String _ s' => includes s' sub
  end.

(** [s.split(sep)] for a non-empty separator: [skip] counts the characters
    of a separator occurrence still to be dropped, [cur] is the piece being
    accumulated. *)
Fixpoint split_go (sep : string) (skip : nat) (cur s : string) : list string :=
  match s with
  | EmptyString => [cur]
  | String c s' =>
      match skip with
      | S k => split_go sep k cur s'
      | O =>
          if String.prefix sep s
          then cur :: split_go sep (String.length sep - 1) EmptyString s'
          else split_go sep 0 (cur +:+ String c EmptyString) s'
      end
  end.

Definition split (s sep : string) : list string := split_go sep 0 EmptyString s.

(** Indexing an array inside a template literal: a missing element prints
    as the text undefined. *)
Definition template_nth (l : list string) (i : nat) : string :=
  nth i l "undefined".

(** [arr.includes(x)] on an array of strings. *)
Definition array_includes (arr : list string) (x : string) : bool :=
  bool_decide (x ∈ arr).

(** [Math.round]: the nearest integer, ties towards plus infinity. *)
Definition Math_round (q : Q) : Z := Qfloor (q + (1 # 2))%Q.

End Js.

(** ** The feedback modal component (FeedbackModal) *)

Module FeedbackModal.

(** [handleActorSelection]: the updater passed to [setSelectedActors]. *)
Definition handleActorSelection (actorName : string) (prev : list string)
  : list string :=
  if Js.array_includes prev actorName
  then filter (λ name, name ≠ actorName) prev
  else prev ++ [actorName].

End FeedbackModal.

(** ** The storyboard page (StoryboardView) *)

Module StoryboardView.

Record FeedbackEntry := {
  text : string;
  timestamp : string
}.

(** A frame object as the page uses it.  Fields the backend may leave out
    are options ([undefined] when absent). *)
Record Frame := {
  frame_id : string;
  description : string;
  page : option Z;
  frame_on_page : option Z;
  is_placeholder : bool;
  image_url : option string;
  actors : option (list string);
  feedback_history : option (list FeedbackEntry)
}.

Record FeedbackBody := {
  fb_frame_id : string;
  feedback_text : string;
  actor_names : option (list string)
}.

Record GenerateBody := {
  gen_description : string;
  gen_actor_names : list string
}.

(** What a handler does to the outside world. *)
Inductive Effect :=
| GetProjectFrames (projectId : string) (page : Z)
| SubmitFrameFeedback (frameId : string) (body : FeedbackBody)
| GenerateFrameImage (projectId frameId : string) (body : GenerateBody)
| Alert (msg : string).

(** [response.data] of the feedback endpoint and of the generate endpoint. *)
Record FeedbackData := { new_image_url : option string }.
Record GenerateData := { gen_image_url : option string }.

Record State := {
  frames : list Frame;
  loading : bool;
  error : option string;
  selectedFrame : option Frame;
  showFeedbackModal : bool;
  feedbackText : string;
  selectedActors : list string;
  submittingFeedback : bool;
  generatingImage : gmap string bool
}.

Definition setFrames (v : list Frame) (s : State) : State :=
  {| frames := v; loading := loading s; error := error s;
     selectedFrame := selectedFrame s; showFeedbackModal := showFeedbackModal s;
     feedbackText := feedbackText s; selectedActors := selectedActors s;
     submittingFeedback := submittingFeedback s;
     generatingImage := generatingImage s |}.

Definition setLoading (v : bool) (s : State) : State :=
  {| frames := frames s; loading := v; error := error s;
     selectedFrame := selectedFrame s; showFeedbackModal := showFeedbackModal s;
     feedbackText := feedbackText s; selectedActors := selectedActors s;
     submittingFeedback := submittingFeedback s;
     generatingImage := generatingImage s |}.

Definition setError (v : option string) (s : State) : State :=
  {| frames := frames s; loading := loading s; error := v;
     selectedFrame := selectedFrame s; showFeedbackModal := showFeedbackModal s;
     feedbackText := feedbackText s; selectedActors := selectedActors s;
     submittingFeedback := submittingFeedback s;
     generatingImage := generatingImage s |}.

Definition setSelectedFrame (v : option Frame) (s : State) : State :=
  {| frames := frames s; loading := loading s; error := error s;
     selectedFrame := v; showFeedbackModal := showFeedbackModal s;
     feedbackText := feedbackText s; selectedActors := selectedActors s;
     submittingFeedback := submittingFeedback s;
     generatingImage := generatingImage s |}.

Definition setShowFeedbackModal (v : bool) (s : State) : State :=
  {| frames := frames s; loading := loading s; error := error s;
     selectedFrame := selectedFrame s; showFeedbackModal := v;
     feedbackText := feedbackText s; selectedActors := selectedActors s;
     submittingFeedback := submittingFeedback s;
     generatingImage := generatingImage s |}.

Definition setFeedbackText (v : string) (s : State) : State :=
  {| frames := frames s; loading := loading s; error := error s;
     selectedFrame := selectedFrame s; showFeedbackModal := showFeedbackModal s;
     feedbackText := v; selectedActors := selectedActors s;
     submittingFeedback := submittingFeedback s;
     generatingImage := generatingImage s |}.

Definition setSelectedActors (f : list string → list string) (s : State) : State :=
  {| frames := frames s; loading := loading s; error := error s;
     selectedFrame := selectedFrame s; showFeedbackModal := showFeedbackModal s;
     feedbackText := feedbackText s; selectedActors := f (selectedActors s);
     submittingFeedback := submittingFeedback s;
     generatingImage := generatingImage s |}.

Definition setSubmittingFeedback (v : bool) (s : State) : State :=
  {| frames := frames s; loading := loading s; error := error s;
     selectedFrame := selectedFrame s; showFeedbackModal := showFeedbackModal s;
     feedbackText := feedbackText s; selectedActors := selectedActors s;
     submittingFeedback := v;
     generatingImage := generatingImage s |}.

Definition setGeneratingImage (f : gmap string bool → gmap string bool)
    (s : State) : State :=
  {| frames := frames s; loading := loading s; error := error s;
     selectedFrame := selectedFrame s; showFeedbackModal := showFeedbackModal s;
     feedbackText := feedbackText s; selectedActors := selectedActors s;
     submittingFeedback := submittingFeedback s;
     generatingImage := f (generatingImage s) |}.

(** [useState(6)]: the setter is never used. *)
Definition framesPerPage : nat := 6.

(** One element of
    [Array(framesPerPage - framesData.length).fill().map((_, i) => ...)]. *)
Definition placeholder (pg : Z) (fetched : nat) (i : nat) : Frame :=
  {| frame_id := "placeholder-" +:+ pretty pg +:+ "-" +:+ pretty (Z.of_nat i);
     description := "Empty frame slot";
     page := Some pg;
     frame_on_page := Some (Z.of_nat fetched + Z.of_nat i + 1);
     is_placeholder := true;
     image_url := None;
     actors := None;
     feedback_history := None |}.

Definition fill_page (pg : Z) (framesData : list Frame) : list Frame :=
  if bool_decide (length framesData < framesPerPage)%nat
  then
    let placeholders :=
      imap (λ i _, placeholder pg (length framesData) i)
           (replicate (framesPerPage - length framesData) ()) in
    framesData ++ placeholders
  else framesData.

Definition fetchFramesForPage (projectId : string) (pg : Z)
    (framesResponse : Js.outcome (list Frame) unit) (s : State)
  : State * list Effect :=
  let s1 := setLoading true s in
  let sent := [GetProjectFrames projectId pg] in
  match framesResponse with
  | Js.Resolved data =>
      (setLoading false (setFrames (fill_page pg data) s1), sent)
  | Js.Rejected _ =>
      (setLoading false
         (setError (Some ("Failed to load frames for page " +:+ pretty pg)) s1),
       sent)
  end.

(** The frame written back by [handleFeedbackSubmit] for the selected
    frame. *)
Definition with_feedback (data : FeedbackData) (txt now : string) (frame : Frame)
  : Frame :=
  {| frame_id := frame_id frame;
     description := description frame;
     page := page frame;
     frame_on_page := frame_on_page frame;
     is_placeholder := is_placeholder frame;
     image_url := new_image_url data;
     actors := actors frame;
     feedback_history :=
       Some (default [] (feedback_history frame)
             ++ [{| text := txt; timestamp := now |}])%list |}.

Definition handleFeedbackSubmit (response : Js.outcome FeedbackData unit)
    (now : string) (s : State) : State * list Effect :=
  match selectedFrame s with
  | None => (s, [])
  | Some sel =>
      if negb (Js.truthy (Js.trim (feedbackText s))) then (s, [])
      else
        let s1 := setSubmittingFeedback true s in
        let body :=
          {| fb_frame_id := frame_id sel;
             feedback_text := feedbackText s;
             actor_names :=
               if bool_decide (0 < length (selectedActors s))%nat
               then Some (selectedActors s) else None |} in
        let sent := SubmitFrameFeedback (frame_id sel) body in
        match response with
        | Js.Resolved data =>
            let updatedFrames :=
              map (λ frame,
                     if bool_decide (frame_id frame = frame_id sel)
                     then with_feedback data (feedbackText s) now frame
                     else frame)
                  (frames s) in
            (setSubmittingFeedback false
               (setSelectedActors (λ _, [])
                  (setFeedbackText ""
                     (setShowFeedbackModal false (setFrames updatedFrames s1)))),
             [sent])
        | Js.Rejected _ =>
            (setSubmittingFeedback false s1,
             [sent; Alert "Failed to submit feedback"])
        end
  end.

Definition handleActorSelection (actorName : string) (s : State) : State :=
  setSelectedActors
    (λ prev,
       if Js.array_includes prev actorName
       then filter (λ name, name ≠ actorName) prev
       else (prev ++ [actorName])%list)
    s.

Definition openFeedbackModal (frame : Frame) (s : State) : State :=
  if is_placeholder frame then s
  else setShowFeedbackModal true (setSelectedFrame (Some frame) s).

Definition with_image (url : option string) (f : Frame) : Frame :=
  {| frame_id := frame_id f;
     description := description f;
     page := page f;
     frame_on_page := frame_on_page f;
     is_placeholder := is_placeholder f;
     image_url := url;
     actors := actors f;
     feedback_history := feedback_history f |}.

Definition handleGenerateImage (projectId : string) (frame : Frame)
    (response : Js.outcome (option GenerateData) unit) (s : State)
  : State * list Effect :=
  let finally := setGeneratingImage (insert (frame_id frame) false) in
  (* the early return sits inside the [try], so [finally] still runs *)
  if is_placeholder frame then (finally s, [])
  else
    let s1 := setGeneratingImage (insert (frame_id frame) true) s in
    let sent :=
      GenerateFrameImage projectId (frame_id frame)
        {| gen_description := description frame;
           gen_actor_names := default [] (actors frame) |} in
    match response with
    | Js.Resolved data =>
        match data with
        | Some d =>
            match gen_image_url d with
            | Some url =>
                if Js.truthy url then
                  let updatedFrames :=
                    map (λ f,
                           if bool_decide (frame_id f = frame_id frame)
                           then with_image (Some url) f else f)
                        (frames s) in
                  (finally (setFrames updatedFrames s1), [sent])
                else (finally s1, [sent])
            | None => (finally s1, [sent])
            end
        | None => (finally s1, [sent])
        end
    | Js.Rejected _ =>
        (finally
           (setError (Some "Failed to generate image. Please try again.") s1),
         [sent])
    end.

End StoryboardView.

(** ** Python string and list helpers *)

Module Py.

Inductive Exception :=
| ValueError (msg : string)
| IndexError
| LookupError
| AttributeError
| RuntimeError (msg : string).

Definition code (c : ascii) : nat := nat_of_ascii c.

(** [str.isspace] on a character below 256. *)
Definition isspace (c : ascii) : bool :=
  bool_decide (code c ∈ [9; 10; 11; 12; 13; 28; 29; 30; 31; 32; 133; 160]%nat).

(** [str.isdigit] on a character below 256: the ten decimal digits and
    the superscript digits two, three and one (U+00B2, U+00B3, U+00B9). *)
Definition isdigit (c : ascii) : bool :=
  bool_decide (48 ≤ code c ≤ 57)%nat || bool_decide (code c ∈ [178; 179; 185]%nat).

(** The line boundaries of [str.splitlines] below 256. *)
Definition is_linebreak (c : ascii) : bool :=
  bool_decide (code c ∈ [10; 11; 12; 13; 28; 29; 30; 133]%nat).

Fixpoint lstrip (s : string) : string :=
  match s with
  | EmptyString => EmptyString
  | String c s' => if isspace c then lstrip s' else s
  end.

Fixpoint rstrip (s : string) : string :=
  match s with
  | EmptyString => EmptyString
  | String c s' =>
      match rstrip s' with
      | EmptyString => if isspace c then EmptyString else String c EmptyString
      | r => String c r
      end
  end.

Definition strip (s : string) : string := rstrip (lstrip s).

(** Truth value of a string in a condition. *)
Definition truthy (s : string) : bool :=
  match s with EmptyString => false | _ => true end.

(** [s.splitlines()]: a carriage return followed by a line feed is one
    boundary; no empty last line is produced after a final boundary. *)
Fixpoint splitlines_go (cur s : string) : list string :=
  match s with
  | EmptyString => if truthy cur then [cur] else []
  | String c s' =>
      if is_linebreak c then
        match s' with
        | String c2 s'' =>
            if bool_decide (code c = 13%nat) && bool_decide (code c2 = 10%nat)
            then cur :: splitlines_go EmptyString s''
            else cur :: splitlines_go EmptyString s'
        | EmptyString => cur :: splitlines_go EmptyString s'
        end
      else splitlines_go (cur +:+ String c EmptyString) s'
  end.

Definition splitlines (s : string) : list string := splitlines_go EmptyString s.

Definition drop (n : nat) (s : string) : string :=
  String.substring n (String.length s - n) s.

(** [s.partition(sep)]: the part before the first occurrence of [sep],
    [sep] itself and the part after it; the whole string and two empty
    strings when [sep] does not occur. *)
Fixpoint partition_go (sep before s : string) : string * string * string :=
  match s with
  | EmptyString => (before, EmptyString, EmptyString)
  | String c s' =>
      if String.prefix sep s
      then (before, sep, drop (String.length sep) s)
      else partition_go sep (before +:+ String c EmptyString) s'
  end.

Definition partition (s sep : string) : string * string * string :=
  partition_go sep EmptyString s.

(** [sub in s] on strings. *)
Fixpoint contains (s sub : string) : bool :=
  String.prefix sub s ||
  match s with
  | EmptyString => false
  | String _ s' => contains s' sub
  end.

(** [l[i]] with an integer index: negative indices count from the end,
    anything out of range raises IndexError (here [None]). *)
Definition getitem {A} (l : list A) (i : Z) : option A :=
  let n := Z.of_nat (length l) in
  if bool_decide (0 ≤ i < n) then l !! Z.to_nat i
  else if bool_decide (- n ≤ i < 0) then l !! Z.to_nat (n + i)
  else None.

(** [l[i] = x]. *)
Definition setitem {A} (l : list A) (i : Z) (x : A) : option (list A) :=
  let n := Z.of_nat (length l) in
  if bool_decide (0 ≤ i < n) then Some (<[Z.to_nat i := x]> l)
  else if bool_decide (- n ≤ i < 0) then Some (<[Z.to_nat (n + i) := x]> l)
  else None.

(** [range(n)]. *)
Definition range (n : Z) : list Z := Z.of_nat <$> seq 0 (Z.to_nat n).

End Py.

(** ** The implementation guide's backend functions *)

Module Guide.

(** Results of code that may raise. *)
Inductive result (A : Type) :=
| Ok (a : A)
| Raise (e : Py.Exception).
Arguments Ok {A} a.
Arguments Raise {A} e.

Global Instance result_ret : MRet result := λ A a, Ok a.

Global Instance result_bind : MBind result := λ A B k r,
  match r with
  | Ok a => k a
  | Raise e => Raise e
  end.

Definition of_option {A} (e : Py.Exception) (o : option A) : result A :=
  match o with
  | Some a => Ok a
  | None => Raise e
  end.

Definition nl : string := String (ascii_of_nat 10) EmptyString.

(** *** Phase 2: script analysis *)

Section ScriptAnalysis.

(** [openai.Completion.create(engine=..., prompt=prompt, ...)] followed by
    [response['choices'][0]['text']]: the text the service answers to a
    prompt. *)
Variable completion : string → string.

Definition frames_prompt (script_text : string) (frame_count : Z) : string :=
  "You are a film storyboard assistant. Read the script below and divide it into "
  +:+ pretty frame_count
  +:+ " key visual scenes. Provide a brief description for each of the "
  +:+ "frames, focusing on distinct important moments, with any key characters and actions."
  +:+ nl +:+ nl
  +:+ "Script:" +:+ nl +:+ script_text +:+ nl +:+ nl +:+ "Frames:" +:+ nl +:+ "1.".

(** The condition of the comprehension:
    [line.strip() and line[0].isdigit()].  The second operand is only
    evaluated on a line with a character. *)
Definition numbered (line : string) : bool :=
  Py.truthy (Py.strip line) &&
  match line with
  | String c _ => Py.isdigit c
  | EmptyString => false
  end.

Definition extract_key_frames (script_text : string) (frame_count : option Z)
  : list string :=
  let frame_count := default 6 frame_count in
  let prompt := frames_prompt script_text frame_count in
  let frames_text := Py.strip (completion prompt) in
  let frames :=
    List.map (λ line, Py.strip (snd (Py.partition line ".")))
             (List.filter numbered (Py.splitlines frames_text)) in
  frames.

End ScriptAnalysis.

(** *** Phase 3: image generation *)

Inductive Generator :=
| StableDiffusionGenerator (model_path : string)
| DalleGenerator (api_key : string)
| MidjourneyGenerator (auth_token : string).

Section Factory.

Variables OPENAI_API_KEY MJ_BOT_TOKEN : string.

Definition get_image_generator (model_name : string) : result Generator :=
  if bool_decide (model_name = "stable_diffusion") then
    Ok (StableDiffusionGenerator "stabilityai/stable-diffusion-XL-base-1.0")
  else if bool_decide (model_name = "dalle") then
    Ok (DalleGenerator OPENAI_API_KEY)
  else if bool_decide (model_name = "midjourney") then
    Ok (MidjourneyGenerator MJ_BOT_TOKEN)
  else Raise (Py.ValueError "Unsupported model").

End Factory.

(** *** Phase 4: the actor profile database *)

Record ActorProfile (Vec : Type) := {
  profile_name : string;
  profile_vec : Vec;
  prompt_hint : string
}.
Arguments profile_name {Vec} _.
Arguments profile_vec {Vec} _.
Arguments prompt_hint {Vec} _.

Record ActorProfileDB (Vec : Type) := {
  vectors : gmap string Vec;
  metadata : gmap string string
}.
Arguments vectors {Vec} _.
Arguments metadata {Vec} _.

Section ActorDB.

Context {Vec Image : Type}.

(** The image encoder and the weighted average
    [0.7 * old + 0.3 * new] on embedding vectors. *)
Variable encode_image_to_vector : Image → Vec.
Variable blend : Vec → Vec → Vec.

(** [None] is Python's None. *)
Definition get_profile (db : ActorProfileDB Vec) (name : string)
  : option (ActorProfile Vec) :=
  match vectors db !! name with
  | None => None
  | Some vec =>
      let desc := default "" (metadata db !! name) in
      let hint := if Py.truthy desc then desc else "" in
      Some {| profile_name := name; profile_vec := vec; prompt_hint := hint |}
  end.

Definition update_actor (db : ActorProfileDB Vec) (name : string)
    (new_image : option Image) (feedback_notes : string) : ActorProfileDB Vec :=
  match vectors db !! name with
  | None => db
  | Some old =>
      let vectors1 :=
        match new_image with
        | Some img => <[name := blend old (encode_image_to_vector img)]> (vectors db)
        | None => vectors db
        end in
      let metadata1 :=
        if Py.truthy feedback_notes
        then <[name := default "" (metadata db !! name) +:+ " " +:+ feedback_notes]>
               (metadata db)
        else metadata db in
      {| vectors := vectors1; metadata := metadata1 |}
  end.

End ActorDB.

(** *** Phase 3, continued: character variants *)

Record Variant (Image Score : Type) := {
  image : Image;
  prompt : string;
  quality_score : Score
}.
Arguments image {Image Score} _.
Arguments prompt {Image Score} _.
Arguments quality_score {Image Score} _.

Definition variant_aspects : list string :=
  [ "emotional state and facial expression";
    "body language and posture";
    "interaction with environment";
    "lighting and mood";
    "cinematography and framing" ].

Section Variants.

Context {Vec Image Score : Type}.

Variables OPENAI_API_KEY MJ_BOT_TOKEN : string.

(** [model.generate(prompt)] and [calculate_image_quality(image, profile)]
    are services of the environment; they are taken as functions, their
    own failures are not part of this model. *)
Variable generate : Generator → string → Image.
Variable calculate_image_quality : Image → ActorProfile Vec → Score.

(** The comparison [<] on quality scores, the only one [list.sort]
    uses. *)
Variable score_lt : Score → Score → bool.

Variable actor_db : ActorProfileDB Vec.
Variable current_model : string.

(** [list.sort(key=..., reverse=True)] is a stable sort: the list is
    reversed, sorted stably in ascending key order, and reversed again,
    so equal keys keep their original order.  The ascending sort is
    written as a stable insertion sort. *)
Fixpoint insert_asc (v : Variant Image Score) (l : list (Variant Image Score))
  : list (Variant Image Score) :=
  match l with
  | [] => [v]
  | y :: l' =>
      if score_lt (quality_score y) (quality_score v)
      then y :: insert_asc v l'
      else v :: l
  end.

Definition sort_asc (l : list (Variant Image Score)) : list (Variant Image Score) :=
  foldr insert_asc [] l.

Definition sort_reverse (l : list (Variant Image Score))
  : list (Variant Image Score) :=
  rev (sort_asc (rev l)).

(** Non-increasing order of quality score: [a] may stand before [b]
    when [a]'s score is not below [b]'s. *)
Definition not_below (a b : Variant Image Score) : Prop :=
  score_lt (quality_score a) (quality_score b) = false.

(** The order the ascending pass works with. *)
Definition not_above (a b : Variant Image Score) : Prop := not_below b a.

(** The variant made for an aspect: its prompt, the image generated
    from the prompt, and the image's quality score. *)
Definition variant_of (base_prompt : string) (actor_profile : ActorProfile Vec)
    (model : Generator) (aspect : string) : Variant Image Score :=
  let variant_prompt := base_prompt +:+ ", with emphasis on " +:+ aspect in
  let image := generate model variant_prompt in
  let quality_score := calculate_image_quality image actor_profile in
  {| image := image; prompt := variant_prompt; quality_score := quality_score |}.

(** One iteration of the loop body, for index [i]. *)
Definition variant_for (base_prompt : string) (actor_profile : ActorProfile Vec)
    (i : Z) : result (Variant Image Score) :=
  aspect ← of_option Py.IndexError
             (Py.getitem variant_aspects (i `mod` Z.of_nat (length variant_aspects)));
  let variant_prompt := base_prompt +:+ ", with emphasis on " +:+ aspect in
  model ← get_image_generator OPENAI_API_KEY MJ_BOT_TOKEN current_model;
  let image := generate model variant_prompt in
  let quality_score := calculate_image_quality image actor_profile in
  mret {| image := image; prompt := variant_prompt; quality_score := quality_score |}.


(** The [for i in range(num_variants)] loop, appending to [variants]. *)
Fixpoint variants_loop (base_prompt : string) (actor_profile : ActorProfile Vec)
    (indices : list Z) (variants : list (Variant Image Score))
  : result (list (Variant Image Score)) :=
  match indices with
  | [] => Ok variants
  | i :: rest =>
      v ← variant_for base_prompt actor_profile i;
      variants_loop base_prompt actor_profile rest (variants ++ [v])
  end.

Definition generate_character_variants (actor_name scene_desc : string)
    (num_variants : option Z) : result (list (Variant Image Score)) :=
  let num_variants := default 5 num_variants in
  (* [actor_profile.prompt_hint] on None raises AttributeError *)
  actor_profile ← of_option Py.AttributeError (get_profile actor_db actor_name);
  let base_prompt :=
    actor_name +:+ ", " +:+ prompt_hint actor_profile
    +:+ ", in a scene where " +:+ scene_desc in
  variants ← variants_loop base_prompt actor_profile (Py.range num_variants) [];
  mret (sort_reverse variants).

End Variants.

(** *** Phase 5: feedback *)

(** The module-level state [refine_frame] works on.  [storyboard_frames] and
    [storyboard_images] are lists ([storyboard_images] is filled with
    [append]); of [frames_to_actors] only the lookup by frame index is
    used, so it is kept as that lookup, [None] standing for the LookupError
    of a missing entry. *)
Record World (Vec Image : Type) := {
  storyboard_frames : list string;
  frames_to_actors : Z → option (list string);
  storyboard_images : list Image;
  actor_db : ActorProfileDB Vec;
  current_model : string
}.
Arguments storyboard_frames {Vec Image} _.
Arguments frames_to_actors {Vec Image} _.
Arguments storyboard_images {Vec Image} _.
Arguments actor_db {Vec Image} _.
Arguments current_model {Vec Image} _.

Section Feedback.

Context {Vec Image : Type}.

Variable encode_image_to_vector : Image → Vec.
Variable blend : Vec → Vec → Vec.

(** [generate_frame_image(desc, actors, model_name=...)]; it may consult
    the actor database, which is therefore passed along. *)
Variable generate_frame_image :
  string → list string → string → ActorProfileDB Vec → Image.

(** The loop over the frame's actors. *)
Definition note_feedback (feedback_text : string) (db : ActorProfileDB Vec)
    (actor : string) : ActorProfileDB Vec :=
  if Py.contains feedback_text actor then
    if Py.contains feedback_text "more" || Py.contains feedback_text "less"
    then update_actor encode_image_to_vector blend db actor None feedback_text
    else db
  else db.

Definition refine_frame (frame_index : Z) (feedback_text : string)
    (w : World Vec Image) : result (Image * World Vec Image) :=
  frame_desc ← of_option Py.IndexError (Py.getitem (storyboard_frames w) frame_index);
  let revised_desc := frame_desc +:+ ". Note: " +:+ feedback_text in
  actors ← of_option Py.LookupError (frames_to_actors w frame_index);
  let db := foldl (note_feedback feedback_text) (actor_db w) actors in
  let new_image := generate_frame_image revised_desc actors (current_model w) db in
  images ← of_option Py.IndexError
             (Py.setitem (storyboard_images w) frame_index new_image);
  mret (new_image,
        {| storyboard_frames := storyboard_frames w;
           frames_to_actors := frames_to_actors w;
           storyboard_images := images;
           actor_db := db;
           current_model := current_model w |}).

End Feedback.

End Guide.

(** ** The actor list page (ActorList) *)

Module ActorList.

Record Actor := {
  actor_name : string;
  actor_description : string;
  actor_images : option (list string);
  image_paths : option (list string)
}.

(** The create form; [images] holds the names of the chosen files. *)
Record CreateFormData := {
  name : string;
  description : string;
  images : option (list string);
  auto_generate_image : bool
}.

Inductive Effect :=
| CreateActor (form : CreateFormData)
| GetActors.

Record State := {
  actors : list Actor;
  loading : bool;
  error : option string;
  showCreateModal : bool;
  createFormData : CreateFormData;
  createLoading : bool;
  createError : option string
}.

Definition setActors (v : list Actor) (s : State) : State :=
  {| actors := v; loading := loading s; error := error s;
     showCreateModal := showCreateModal s; createFormData := createFormData s;
     createLoading := createLoading s; createError := createError s |}.

Definition setLoading (v : bool) (s : State) : State :=
  {| actors := actors s; loading := v; error := error s;
     showCreateModal := showCreateModal s; createFormData := createFormData s;
     createLoading := createLoading s; createError := createError s |}.

Definition setError (v : option string) (s : State) : State :=
  {| actors := actors s; loading := loading s; error := v;
     showCreateModal := showCreateModal s; createFormData := createFormData s;
     createLoading := createLoading s; createError := createError s |}.

Definition setShowCreateModal (v : bool) (s : State) : State :=
  {| actors := actors s; loading := loading s; error := error s;
     showCreateModal := v; createFormData := createFormData s;
     createLoading := createLoading s; createError := createError s |}.

Definition setCreateFormData (v : CreateFormData) (s : State) : State :=
  {| actors := actors s; loading := loading s; error := error s;
     showCreateModal := showCreateModal s; createFormData := v;
     createLoading := createLoading s; createError := createError s |}.

Definition setCreateLoading (v : bool) (s : State) : State :=
  {| actors := actors s; loading := loading s; error := error s;
     showCreateModal := showCreateModal s; createFormData := createFormData s;
     createLoading := v; createError := createError s |}.

Definition setCreateError (v : option string) (s : State) : State :=
  {| actors := actors s; loading := loading s; error := error s;
     showCreateModal := showCreateModal s; createFormData := createFormData s;
     createLoading := createLoading s; createError := v |}.

(** The normalisation [fetchActors] applies to every actor it receives. *)
Definition process_actor (actor : Actor) : Actor :=
  match actor_images actor with
  | Some _ => actor
  | None =>
      {| actor_name := actor_name actor;
         actor_description := actor_description actor;
         actor_images := Some (default [] (image_paths actor));
         image_paths := image_paths actor |}
  end.

Definition fetchActors (response : Js.outcome (list Actor) unit) (s : State)
  : State * list Effect :=
  let s1 := setError None (setLoading true s) in
  match response with
  | Js.Resolved data =>
      (setLoading false (setActors (List.map process_actor data) s1), [GetActors])
  | Js.Rejected _ =>
      (setLoading false
         (setError (Some "Failed to load actors. Please try again later.") s1),
       [GetActors])
  end.

Definition empty_form : CreateFormData :=
  {| name := ""; description := ""; images := Some []; auto_generate_image := false |}.

(** [!createFormData.images || createFormData.images.length === 0]. *)
Definition no_images (form : CreateFormData) : bool :=
  match images form with
  | None => true
  | Some l => bool_decide (length l = 0%nat)
  end.

(** [err.response?.data?.detail || 'Failed to create actor']. *)
Definition create_failure (detail : option string) : string :=
  match detail with
  | Some d => if Js.truthy d then d else "Failed to create actor"
  | None => "Failed to create actor"
  end.

Definition handleCreateSubmit
    (createResponse : Js.outcome unit (option string))
    (actorsResponse : Js.outcome (list Actor) unit)
    (s : State) : State * list Effect :=
  let form := createFormData s in
  if negb (Js.truthy (Js.trim (name form))) then
    (setCreateError (Some "Actor name is required") s, [])
  else if negb (auto_generate_image form) && no_images form then
    (setCreateError (Some "Please either upload images or select auto-generate") s, [])
  else
    let s1 := setCreateError None (setCreateLoading true s) in
    match createResponse with
    | Js.Resolved _ =>
        let s2 := setShowCreateModal false (setCreateFormData empty_form s1) in
        let '(s3, sent) := fetchActors actorsResponse s2 in
        (setCreateLoading false s3, CreateActor form :: sent)
    | Js.Rejected detail =>
        (setCreateLoading false (setCreateError (Some (create_failure detail)) s1),
         [CreateActor form])
    end.

End ActorList.

(** ** The film-school consultation page (FilmSchoolConsultation) *)

Module FilmSchoolConsultation.

Record Question := {
  question : string;
  explanation : string
}.

Record FormattedAnswer := {
  question_id : nat;
  answer : string
}.

(** [response.data] of [submitAnswers]; an absent field is [None]. *)
Record SubmitData := {
  evaluation_of : option string;
  next_questions : option (list Question);
  next_stage : option string
}.

Inductive Effect :=
| SubmitAnswers (projectId : string) (formattedAnswers : list FormattedAnswer).

Record State := {
  questions : list Question;
  answers : gmap nat string;
  evaluation : option string;
  currentStage : string;
  nextStage : option string;
  submitting : bool;
  error : option string;
  stageProgress : Z
}.

Definition setQuestions (v : list Question) (s : State) : State :=
  {| questions := v; answers := answers s; evaluation := evaluation s;
     currentStage := currentStage s; nextStage := nextStage s;
     submitting := submitting s; error := error s;
     stageProgress := stageProgress s |}.

Definition setAnswers (f : gmap nat string → gmap nat string) (s : State) : State :=
  {| questions := questions s; answers := f (answers s); evaluation := evaluation s;
     currentStage := currentStage s; nextStage := nextStage s;
     submitting := submitting s; error := error s;
     stageProgress := stageProgress s |}.

Definition setEvaluation (v : option string) (s : State) : State :=
  {| questions := questions s; answers := answers s; evaluation := v;
     currentStage := currentStage s; nextStage := nextStage s;
     submitting := submitting s; error := error s;
     stageProgress := stageProgress s |}.

Definition setCurrentStage (v : string) (s : State) : State :=
  {| questions := questions s; answers := answers s; evaluation := evaluation s;
     currentStage := v; nextStage := nextStage s;
     submitting := submitting s; error := error s;
     stageProgress := stageProgress s |}.

Definition setNextStage (v : option string) (s : State) : State :=
  {| questions := questions s; answers := answers s; evaluation := evaluation s;
     currentStage := currentStage s; nextStage := v;
     submitting := submitting s; error := error s;
     stageProgress := stageProgress s |}.

Definition setSubmitting (v : bool) (s : State) : State :=
  {| questions := questions s; answers := answers s; evaluation := evaluation s;
     currentStage := currentStage s; nextStage := nextStage s;
     submitting := v; error := error s;
     stageProgress := stageProgress s |}.

Definition setError (v : option string) (s : State) : State :=
  {| questions := questions s; answers := answers s; evaluation := evaluation s;
     currentStage := currentStage s; nextStage := nextStage s;
     submitting := submitting s; error := v;
     stageProgress := stageProgress s |}.

Definition setStageProgress (v : Z) (s : State) : State :=
  {| questions := questions s; answers := answers s; evaluation := evaluation s;
     currentStage := currentStage s; nextStage := nextStage s;
     submitting := submitting s; error := error s;
     stageProgress := v |}.

(** [arr.indexOf(x)]: the first index of [x], or -1. *)
Fixpoint indexOf (arr : list string) (x : string) : Z :=
  match arr with
  | [] => -1
  | y :: arr' =>
      if bool_decide (y = x) then 0
      else let r := indexOf arr' x in if bool_decide (r < 0) then -1 else r + 1
  end.

Definition stages : list string :=
  ["initial"; "character_development"; "plot_structure"; "visual_style"].

Definition updateStageProgress (stage : string) (s : State) : State :=
  let currentIndex := indexOf stages stage in
  if bool_decide (currentIndex >= 0) then
    let progress :=
      Js.Math_round
        ((inject_Z (currentIndex + 1) / inject_Z (Z.of_nat (length stages)))
         * inject_Z 100)%Q in
    setStageProgress progress s
  else s.

Definition handleAnswerChange (questionIndex : nat) (value : string) (s : State)
  : State :=
  setAnswers (insert questionIndex value) s.

(** [err.response?.data?.detail || 'Failed to submit answers']. *)
Definition submit_failure (detail : option string) : string :=
  match detail with
  | Some d => if Js.truthy d then d else "Failed to submit answers"
  | None => "Failed to submit answers"
  end.

Definition formatAnswers (qs : list Question) (ans : gmap nat string)
  : list FormattedAnswer :=
  imap (λ index _,
          {| question_id := index;
             answer := match ans !! index with
                       | Some a => if Js.truthy a then a else ""
                       | None => ""
                       end |})
       qs.

(** What the handler does with a successful response. *)
Definition after_submit (data : SubmitData) (s : State) : State :=
  let s1 :=
    match evaluation_of data with
    | Some ev => if Js.truthy ev then setEvaluation (Some ev) s else s
    | None => s
    end in
  let staged := match next_stage data with
                | Some st => if Js.truthy st then Some st else None
                | None => None
                end in
  match next_questions data with
  | Some qs =>
      let s2 := setQuestions qs s1 in
      let s3 := match staged with
                | Some st => updateStageProgress st (setCurrentStage st s2)
                | None => s2
                end in
      setNextStage None (setAnswers (λ _, ∅) s3)
  | None =>
      match staged with
      | Some st => setQuestions [] (setNextStage (Some st) s1)
      | None => setNextStage None (setQuestions [] s1)
      end
  end.

Definition handleSubmitAnswers (projectId : string)
    (response : Js.outcome SubmitData (option string)) (s : State)
  : State * list Effect :=
  if bool_decide (size (answers s) ≠ length (questions s)) then
    (setError (Some "Please answer all questions before submitting") s, [])
  else
    let s1 := setError None (setSubmitting true s) in
    let formattedAnswers := formatAnswers (questions s) (answers s) in
    let sent := [SubmitAnswers projectId formattedAnswers] in
    match response with
    | Js.Resolved data => (setSubmitting false (after_submit data s1), sent)
    | Js.Rejected detail =>
        (setSubmitting false (setError (Some (submit_failure detail)) s1), sent)
    end.

End FilmSchoolConsultation.

(** ** The shared API helpers (services/api) *)

Module Api.

Section Utils.

(** [process.env.REACT_APP_API_URL]; [None] when the variable is not
    set. *)
Variable REACT_APP_API_URL : option string.

(** [process.env.REACT_APP_API_URL || 'http://localhost:8000']. *)
Definition apiBase : string :=
  match REACT_APP_API_URL with
  | Some u => if Js.truthy u then u else "http://localhost:8000"
  | None => "http://localhost:8000"
  end.

(** [utils.formatImageUrl]; the result [None] is [null]. *)
Definition formatImageUrl (imageUrl : Js.value) : option string :=
  match imageUrl with
  | Js.Null | Js.Undefined => None
  | Js.Str url =>
      if negb (Js.truthy url) then None
      else if Js.startsWith url "http" then Some url
      else
        let baseUrl := apiBase in
        if Js.includes url "actor_images/" then
          Some (baseUrl +:+ "/actor-images/"
                +:+ Js.template_nth (Js.split url "actor_images/") 1)
        else if Js.startsWith url "/actor-images/"
                || Js.startsWith url "actor-images/" then
          Some (baseUrl +:+ (if Js.startsWith url "/" then "" else "/") +:+ url)
        else if Js.includes url "frame_images/" then
          Some (baseUrl +:+ "/frame-images/"
                +:+ Js.template_nth (Js.split url "frame_images/") 1)
        else if Js.startsWith url "/images/"
                || Js.startsWith url "/frame-images/" then
          Some (baseUrl +:+ url)
        else
          let normalizedPath :=
            if Js.startsWith url "/" then url else "/" +:+ url in
          Some (baseUrl +:+ normalizedPath)
  end.

End Utils.

End Api.

(** ** Concrete states used to run the handlers on examples *)

Module Samples.

Definition storyboard_idle : StoryboardView.State :=
  {| StoryboardView.frames := [];
     StoryboardView.loading := false;
     StoryboardView.error := None;
     StoryboardView.selectedFrame := None;
     StoryboardView.showFeedbackModal := false;
     StoryboardView.feedbackText := "";
     StoryboardView.selectedActors := [];
     StoryboardView.submittingFeedback := false;
     StoryboardView.generatingImage := ∅ |}.

Definition frame1 : StoryboardView.Frame :=
  {| StoryboardView.frame_id := "f1";
     StoryboardView.description := "A dog runs on the beach";
     StoryboardView.page := Some 1;
     StoryboardView.frame_on_page := Some 1;
     StoryboardView.is_placeholder := false;
     StoryboardView.image_url := Some "/frame-images/f1-v1.png";
     StoryboardView.actors := Some ["Rex"];
     StoryboardView.feedback_history := None |}.

Definition frame2 : StoryboardView.Frame :=
  {| StoryboardView.frame_id := "f2";
     StoryboardView.description := "A cat sits on a wall";
     StoryboardView.page := Some 1;
     StoryboardView.frame_on_page := Some 2;
     StoryboardView.is_placeholder := false;
     StoryboardView.image_url := Some "/frame-images/f2-v1.png";
     StoryboardView.actors := None;
     StoryboardView.feedback_history := None |}.

(** The feedback modal is open on [frame1] with the given text typed in. *)
Definition giving_feedback (txt : string) : StoryboardView.State :=
  {| StoryboardView.frames := [frame1; frame2];
     StoryboardView.loading := false;
     StoryboardView.error := None;
     StoryboardView.selectedFrame := Some frame1;
     StoryboardView.showFeedbackModal := true;
     StoryboardView.feedbackText := txt;
     StoryboardView.selectedActors := [];
     StoryboardView.submittingFeedback := false;
     StoryboardView.generatingImage := ∅ |}.

Definition regenerated : StoryboardView.FeedbackData :=
  {| StoryboardView.new_image_url := Some "/frame-images/f1-v2.png" |}.

(** A backend world with two frames whose images are file names, and an
    image generator that names the image after its prompt. *)
Definition world : Guide.World unit string :=
  {| Guide.storyboard_frames := ["A dog runs on the beach"; "A cat sits on a wall"];
     Guide.frames_to_actors := Py.getitem [["Rex"]; []];
     Guide.storyboard_images := ["dog-v1"; "cat-v1"];
     Guide.actor_db := {| Guide.vectors := {["Rex" := ()]};
                          Guide.metadata := {["Rex" := "a brown terrier"]} |};
     Guide.current_model := "dalle" |}.

Definition render (desc : string) (cast : list string) (model : string)
    (db : Guide.ActorProfileDB unit) : string :=
  "image of: " +:+ desc.

(** U+00B2, SUPERSCRIPT TWO: a digit for [str.isdigit], not a decimal
    digit. *)
Definition superscript_two : ascii := ascii_of_nat 178.

Definition consultation_start : FilmSchoolConsultation.State :=
  {| FilmSchoolConsultation.questions :=
       [ {| FilmSchoolConsultation.question := "What is the genre?";
            FilmSchoolConsultation.explanation := "Genre sets expectations." |};
         {| FilmSchoolConsultation.question := "Who is the audience?";
            FilmSchoolConsultation.explanation := "Audience shapes tone." |} ];
     FilmSchoolConsultation.answers := ∅;
     FilmSchoolConsultation.evaluation := None;
     FilmSchoolConsultation.currentStage := "initial";
     FilmSchoolConsultation.nextStage := None;
     FilmSchoolConsultation.submitting := false;
     FilmSchoolConsultation.error := None;
     FilmSchoolConsultation.stageProgress := 25 |}.



Definition actor_form_blank : ActorList.State :=
  {| ActorList.actors :=
       [ {| ActorList.actor_name := "Alice";
            ActorList.actor_description := "The lead";
            ActorList.actor_images := Some ["/actor-images/alice.png"];
            ActorList.image_paths := None |} ];
     ActorList.loading := false;
     ActorList.error := None;
     ActorList.showCreateModal := true;
     ActorList.createFormData :=
       {| ActorList.name := "   ";
          ActorList.description := "";
          ActorList.images := Some ["bob.png"];
          ActorList.auto_generate_image := false |};
     ActorList.createLoading := false;
     ActorList.createError := None |}.

End Samples.

(** ** The implementation guide, continued: actor store, consultation agent
    and story pipeline *)

Module GuideStore.

(** [', '.join(parts)] and its like. *)
Fixpoint join (sep : string) (parts : list string) : string :=
  match parts with
  | [] => ""
  | [p] => p
  | p :: rest => p +:+ sep +:+ join sep rest
  end.

Section AddActor.

Context {Vec Image : Type}.

Variable encode_image_to_vector : Image → Vec.

(** [np.zeros(self.vector_dim)], [+=] and division by a count on embedding
    vectors, and the vector [np.random.rand(self.vector_dim)] draws on this
    call. *)
Variable zeros : Vec.
Variable vadd : Vec → Vec → Vec.
Variable vdiv : Vec → nat → Vec.
Variable random_vec : Vec.

Definition add_actor (db : Guide.ActorProfileDB Vec) (name : string)
    (images : list Image) (description : string) : Guide.ActorProfileDB Vec :=
  let vec := foldl (λ v img, vadd v (encode_image_to_vector img)) zeros images in
  let vec :=
    match images with
    | _ :: _ => vdiv vec (length images)
    | [] => random_vec
    end in
  {| Guide.vectors := <[name := vec]> (Guide.vectors db);
     Guide.metadata := <[name := description]> (Guide.metadata db) |}.

End AddActor.

(** *** FilmSchoolAgent *)

Definition question_categories : list (string * list string) :=
  [ ("initial",
     ["genre and inspiration"; "thematic elements"; "core conflict";
      "audience and purpose"]);
    ("character_development",
     ["protagonist motivation"; "character arcs";
      "internal vs external conflicts"; "relationship dynamics"]);
    ("plot_structure",
     ["narrative architecture"; "pacing and tension"; "subplot integration";
      "climax construction"]);
    ("visual_style",
     ["visual motifs"; "color palette and symbolism"; "camera techniques";
      "editing rhythm"]) ].

(** [d.get(key, default)] on a dict written as its items. *)
Fixpoint dict_get {A} (d : list (string * A)) (key : string) (default : A) : A :=
  match d with
  | [] => default
  | (k, v) :: d' => if bool_decide (k = key) then v else dict_get d' key default
  end.

(** [question_categories.get(stage, question_categories["initial"])]. *)
Definition selected_categories (stage : string) : list string :=
  dict_get question_categories stage (dict_get question_categories "initial" []).

(** [evaluate_answers] builds its prompt from an opening line, one block
    per pair of [zip(questions, answers)], and a fixed closing text. *)
Definition evaluation_head : string :=
  "As a film professor, evaluate these answers to screenwriting questions:"
  +:+ Guide.nl +:+ Guide.nl.

Definition evaluation_block (qa : string * string) : string :=
  "Question: " +:+ qa.1 +:+ Guide.nl +:+ "Answer: " +:+ qa.2 +:+ Guide.nl +:+ Guide.nl.

Definition evaluation_closing : string :=
  Guide.nl
  +:+ "        Provide an assessment with:" +:+ Guide.nl
  +:+ "        1. Overall creative strength (1-10)" +:+ Guide.nl
  +:+ "        2. Technical storytelling quality (1-10)" +:+ Guide.nl
  +:+ "        3. Character development depth (1-10)" +:+ Guide.nl
  +:+ "        4. Visual storytelling potential (1-10)" +:+ Guide.nl
  +:+ "        5. Three specific strengths" +:+ Guide.nl
  +:+ "        6. Three areas for improvement with professional guidance" +:+ Guide.nl
  +:+ "        ".

Definition evaluation_prompt (questions answers : list string) : string :=
  foldl (λ prompt qa, prompt +:+ evaluation_block qa) evaluation_head
        (zip questions answers)
  +:+ evaluation_closing.

End GuideStore.

(** *** StoryDevelopmentPipeline *)

Module StoryPipeline.

Definition development_stages : list string :=
  [ "concept_development"; "character_profiles"; "plot_structure";
    "scene_breakdowns"; "visual_approach"; "dialogue_review";
    "thematic_elements" ].

Section Pipeline.

(** The payloads the pipeline stores and passes on without looking inside. *)
Context {Concept Questions Answers Evaluation Character Scene : Type}.

Record ProjectData := {
  concept : Concept;
  stage_data : gmap string (Questions * Answers);
  characters : gmap string Character;
  scenes : list Scene;
  feedback_history : list Evaluation
}.

(** [project_data] is the empty dict until a project is started: [None]. *)
Record Pipeline := {
  current_stage : Z;
  project_data : option ProjectData
}.

(** The agent's two methods. *)
Variable generate_interview_questions : option ProjectData → string → Questions.
Variable evaluate_answers : Questions → Answers → Evaluation.

(** [_extract_character_data]: the (name, character) pairs its loop stores
    before the answer runs out or an exception ends the [try] block. *)
Variable extracted_characters : Answers → list (string * Character).

Definition new_pipeline : Pipeline :=
  {| current_stage := 0; project_data := None |}.

Definition get_next_questions (p : Pipeline) : Guide.result Questions :=
  current_stage_name ←
    Guide.of_option Py.IndexError (Py.getitem development_stages (current_stage p));
  mret (generate_interview_questions (project_data p) current_stage_name).


Definition store_characters (data : ProjectData) (answers : Answers) : ProjectData :=
  {| concept := concept data;
     stage_data := stage_data data;
     characters :=
       foldl (λ chars entry, <[entry.1 := entry.2]> chars) (characters data)
             (extracted_characters answers);
     scenes := scenes data;
     feedback_history := feedback_history data |}.

(** A missing ["stage_data"] key is a KeyError, reported as the LookupError
    it is.  At the scene_breakdowns stage the method calls
    [self._extract_scene_data], which the class does not define: an
    AttributeError, raised before the stage is advanced.  (What a raising
    call has already written to the project data is not kept in the
    result.) *)
Definition process_answers (questions : Questions) (answers : Answers)
    (p : Pipeline) : Guide.result ((option Questions * Evaluation) * Pipeline) :=
  current_stage_name ←
    Guide.of_option Py.IndexError (Py.getitem development_stages (current_stage p));
  data ← Guide.of_option Py.LookupError (project_data p);
  let data1 :=
    {| concept := concept data;
       stage_data := <[current_stage_name := (questions, answers)]> (stage_data data);
       characters := characters data;
       scenes := scenes data;
       feedback_history := feedback_history data |} in
  let evaluation := evaluate_answers questions answers in
  let data2 :=
    {| concept := concept data1;
       stage_data := stage_data data1;
       characters := characters data1;
       scenes := scenes data1;
       feedback_history := feedback_history data1 ++ [evaluation] |} in
  data3 ←
    (if bool_decide (current_stage_name = "character_profiles")
     then mret (store_characters data2 answers)
     else if bool_decide (current_stage_name = "scene_breakdowns")
     then Guide.Raise Py.AttributeError
     else mret data2);
  if bool_decide (current_stage p < Z.of_nat (length development_stages) - 1) then
    let p1 := {| current_stage := current_stage p + 1; project_data := Some data3 |} in
    next ← get_next_questions p1;
    mret ((Some next, evaluation), p1)
  else
    mret ((None, evaluation),
          {| current_stage := current_stage p; project_data := Some data3 |}).


End Pipeline.

Arguments ProjectData : clear implicits.
Arguments Pipeline : clear implicits.

End StoryPipeline.

(** ** The frame card of the storyboard page (renderFrameCard) *)

Module StoryboardCard.

(** [arr.join(sep)]. *)
Fixpoint join (sep : string) (parts : list string) : string :=
  match parts with
  | [] => ""
  | [p] => p
  | p :: rest => p +:+ sep +:+ join sep rest
  end.

(** [`Frame ${frame.frame_on_page || ''}`]: the number 0 is falsy. *)
Definition frameLabel (frame : StoryboardView.Frame) : string :=
  "Frame " +:+
  match StoryboardView.frame_on_page frame with
  | Some n => if bool_decide (n = 0) then "" else pretty n
  | None => ""
  end.

(** The title and the content [renderFrameCard] shows for a frame that is
    not a placeholder. *)
Definition cardText (frame : StoryboardView.Frame) : string * string :=
  let frameDescription :=
    if Js.truthy (StoryboardView.description frame)
    then StoryboardView.description frame
    else "No description available" in
  let split_up :=
    if Js.includes frameDescription Guide.nl then
      let lines := Js.split frameDescription Guide.nl in
      (Js.template_nth lines 0, join Guide.nl (drop 1 lines))
    else if Js.includes frameDescription ":" then
      (* split(':', 2) keeps the first two pieces *)
      let parts := take 2 (Js.split frameDescription ":") in
      (Js.trim (Js.template_nth parts 0),
       if bool_decide (1 < length parts)%nat
       then Js.trim (Js.template_nth parts 1) else "")
    else ("", frameDescription) in
  let frameTitle := split_up.1 in
  let frameContent := split_up.2 in
  if negb (Js.truthy frameContent) && Js.truthy frameTitle
  then (frameLabel frame, frameTitle)
  else (frameTitle, frameContent).

End StoryboardCard.

(** ** The actor form's field handlers (ActorList) *)

Module ActorForm.

(** The two text inputs wired to [handleCreateChange]. *)
Inductive Field :=
| NameField
| DescriptionField.

Definition handleCreateChange (field : Field) (value : string) (s : ActorList.State)
  : ActorList.State :=
  let prev := ActorList.createFormData s in
  ActorList.setCreateFormData
    match field with
    | NameField =>
        {| ActorList.name := value;
           ActorList.description := ActorList.description prev;
           ActorList.images := ActorList.images prev;
           ActorList.auto_generate_image := ActorList.auto_generate_image prev |}
    | DescriptionField =>
        {| ActorList.name := ActorList.name prev;
           ActorList.description := value;
           ActorList.images := ActorList.images prev;
           ActorList.auto_generate_image := ActorList.auto_generate_image prev |}
    end
    s.

Definition handleImageUpload (files : list string) (s : ActorList.State)
  : ActorList.State :=
  let prev := ActorList.createFormData s in
  ActorList.setCreateFormData
    {| ActorList.name := ActorList.name prev;
       ActorList.description := ActorList.description prev;
       ActorList.images := Some files;
       ActorList.auto_generate_image := ActorList.auto_generate_image prev |}
    s.

(** The [onChange] of the auto-generate checkbox. *)
Definition handleAutoGenerateChange (checked : bool) (s : ActorList.State)
  : ActorList.State :=
  let prev := ActorList.createFormData s in
  ActorList.setCreateFormData
    {| ActorList.name := ActorList.name prev;
       ActorList.description := ActorList.description prev;
       ActorList.images := if checked then Some [] else ActorList.images prev;
       ActorList.auto_generate_image := checked |}
    s.

End ActorForm.

(** ** A consultation session (FilmSchoolConsultation) *)

Module ConsultationSession.

(** The user types an answer into every text area, first to last. *)
Definition answerAll (values : list string) (s : FilmSchoolConsultation.State)
  : FilmSchoolConsultation.State :=
  foldl (λ st entry, FilmSchoolConsultation.handleAnswerChange entry.1 entry.2 st)
        s (imap (λ index value, (index, value)) values).

Inductive Effect :=
| GetProjectQuestions (projectId : string)
| ScrollToTop.

Section NextStage.

(** [formatStageName] capitalises the words of a stage name; its result
    only appears inside error messages, so it is kept abstract here. *)
Variable formatStageName : string → string.

(** [proceedToNextStage], called by the button that is rendered when
    [nextStage] is set.  The response carries [project.data.questions], with
    [None] when the data or its questions are missing.  The result is [None]
    when there is no next stage to proceed to (the current stage would then
    become [null]).  The [loading] flag, which the handler raises and lowers
    around all this, is not part of the modelled state. *)
Definition proceedToNextStage (projectId : string)
    (response : Js.outcome (option (list FilmSchoolConsultation.Question)) unit)
    (s : FilmSchoolConsultation.State)
  : option (FilmSchoolConsultation.State * list Effect) :=
  nextStageValue ← FilmSchoolConsultation.nextStage s;
  let s1 := FilmSchoolConsultation.setError None s in
  let s2 := FilmSchoolConsultation.setCurrentStage nextStageValue s1 in
  let s3 := FilmSchoolConsultation.setEvaluation None s2 in
  let s4 := FilmSchoolConsultation.updateStageProgress nextStageValue s3 in
  let s5 :=
    match response with
    | Js.Resolved (Some (q :: qs)) =>
        FilmSchoolConsultation.setQuestions (q :: qs) s4
    | Js.Resolved _ =>
        FilmSchoolConsultation.setQuestions []
          (FilmSchoolConsultation.setError
             (Some ("No questions available for the "
                    +:+ formatStageName nextStageValue +:+ " stage."))
             s4)
    | Js.Rejected _ =>
        FilmSchoolConsultation.setQuestions []
          (FilmSchoolConsultation.setError
             (Some ("Failed to load questions for the "
                    +:+ formatStageName nextStageValue +:+ " stage."))
             s4)
    end in
  Some (FilmSchoolConsultation.setNextStage None s5,
        [GetProjectQuestions projectId; ScrollToTop]).

End NextStage.

End ConsultationSession.

(** ** More of the shared API helpers (services/api) *)

Module ApiUtils.

Definition availableSizes : list Z := [100; 200; 250; 300].

(** [arr.reduce(f)] without an initial value; [None] is the TypeError on an
    empty array. *)
Definition reduce {A} (f : A → A → A) (arr : list A) : option A :=
  match arr with
  | [] => None
  | first :: rest => Some (foldl f first rest)
  end.

(** JavaScript numbers are doubles.  The double nearest to a whole number
    of magnitude below 2^1024 (round to nearest, ties to even); whole
    numbers of magnitude below 2^53 are doubles themselves. *)
Definition to_double (z : Z) : Z :=
  let a := Z.abs z in
  if bool_decide (a < 2 ^ 53) then z
  else
    let e := Z.log2 a - 52 in
    let q := a / 2 ^ e in
    let r := a mod 2 ^ e in
    let half := 2 ^ (e - 1) in
    let q' :=
      if bool_decide (r < half) then q
      else if bool_decide (half < r) then q + 1
      else if Z.even q then q else q + 1 in
    Z.sgn z * (q' * 2 ^ e).

(** [a - b] on whole numbers that are doubles. *)
Definition minus (a b : Z) : Z := to_double (a - b).

(** [utils.getFallbackImage(size = 300, text = 'Image Not Found')], for a
    size that is a whole number (and a finite double). *)
Definition getFallbackImage (size : option Z) (text : option string)
  : option string :=
  let size := default 300 size in
  let text := default "Image Not Found" text in
  closestSize ←
    reduce (λ prev curr,
              if bool_decide (Z.abs (minus curr size) < Z.abs (minus prev size))
              then curr else prev)
           availableSizes;
  Some ("/assets/placeholder-" +:+ pretty closestSize +:+ ".svg").

End ApiUtils.

(** ** The reconnecting WebSocket client (services) *)

Module WebSocketClient.

(** Message handlers are compared by identity ([h !== handler]); a handler
    is named by a number. *)
Definition Handler := nat.

Record Client := {
  ws : bool;                       (* [this.ws] is a socket, not [null] *)
  messageHandlers : list Handler;
  isConnected : bool;
  reconnectAttempts : Z;
  reconnectDelay : Z
}.

Inductive Effect :=
| NewWebSocket (url : string)
| SetTimeout (delay : Z)
| Send (message : string)
| CloseSocket
| ConsoleError (text : string).

Definition maxReconnectAttempts : Z := 5.

Definition setWs (v : bool) (c : Client) : Client :=
  {| ws := v; messageHandlers := messageHandlers c; isConnected := isConnected c;
     reconnectAttempts := reconnectAttempts c; reconnectDelay := reconnectDelay c |}.

Definition setMessageHandlers (v : list Handler) (c : Client) : Client :=
  {| ws := ws c; messageHandlers := v; isConnected := isConnected c;
     reconnectAttempts := reconnectAttempts c; reconnectDelay := reconnectDelay c |}.

Definition setIsConnected (v : bool) (c : Client) : Client :=
  {| ws := ws c; messageHandlers := messageHandlers c; isConnected := v;
     reconnectAttempts := reconnectAttempts c; reconnectDelay := reconnectDelay c |}.

Definition setReconnectAttempts (v : Z) (c : Client) : Client :=
  {| ws := ws c; messageHandlers := messageHandlers c; isConnected := isConnected c;
     reconnectAttempts := v; reconnectDelay := reconnectDelay c |}.

Definition setReconnectDelay (v : Z) (c : Client) : Client :=
  {| ws := ws c; messageHandlers := messageHandlers c; isConnected := isConnected c;
     reconnectAttempts := reconnectAttempts c; reconnectDelay := v |}.

Section Client.

(** [process.env.REACT_APP_WS_URL]. *)
Variable REACT_APP_WS_URL : option string.

(** What a handler does with a message to the application's state;
    [Js.Rejected] is a handler that throws, with the state it leaves. *)
Context {App : Type}.
Variable handle : Handler → string → App → Js.outcome App App.

Definition wsUrl : string :=
  match REACT_APP_WS_URL with
  | Some url => if Js.truthy url then url else "ws://localhost:8000/ws"
  | None => "ws://localhost:8000/ws"
  end.

Definition attemptReconnect (c : Client) : list Effect :=
  if bool_decide (maxReconnectAttempts ≤ reconnectAttempts c) then
    [ConsoleError "Max reconnection attempts reached"]
  else
    [SetTimeout (reconnectDelay c)].

(** [initSocket]; [created] tells whether [new WebSocket(wsUrl)] returned a
    socket or threw. *)
Definition initSocket (created : bool) (c : Client) : Client * list Effect :=
  if created then (setWs true c, [NewWebSocket wsUrl])
  else (c, ConsoleError "Error initializing WebSocket:" :: attemptReconnect c).

Definition constructor (created : bool) : Client * list Effect :=
  initSocket created
    {| ws := false; messageHandlers := []; isConnected := false;
       reconnectAttempts := 0; reconnectDelay := 1000 |}.

Definition onopen (c : Client) : Client :=
  setReconnectDelay 1000 (setReconnectAttempts 0 (setIsConnected true c)).

(** [this.messageHandlers.forEach(handler => handler(message))] inside the
    [try]: the first handler that throws ends the delivery. *)
Fixpoint forEach (handlers : list Handler) (message : string) (app : App)
  : Js.outcome App App :=
  match handlers with
  | [] => Js.Resolved app
  | handler :: rest =>
      match handle handler message app with
      | Js.Resolved app' => forEach rest message app'
      | Js.Rejected app' => Js.Rejected app'
      end
  end.

Definition onmessage (message : string) (c : Client) (app : App)
  : App * list Effect :=
  match forEach (messageHandlers c) message app with
  | Js.Resolved app' => (app', [])
  | Js.Rejected app' => (app', [ConsoleError "Error processing WebSocket message:"])
  end.

Definition onclose (c : Client) : Client * list Effect :=
  let c' := setIsConnected false c in
  (c', attemptReconnect c').

Definition onerror (c : Client) : Client * list Effect :=
  (setIsConnected false c, [ConsoleError "WebSocket error:"]).

(** The callback given to [setTimeout] by [attemptReconnect]. *)
Definition reconnect (created : bool) (c : Client) : Client * list Effect :=
  let c1 := setReconnectAttempts (reconnectAttempts c + 1) c in
  let c2 := setReconnectDelay (reconnectDelay c1 * 2) c1 in
  initSocket created c2.

Definition addMessageHandler (handler : Handler) (c : Client) : Client :=
  setMessageHandlers (messageHandlers c ++ [handler]) c.

Definition removeMessageHandler (handler : Handler) (c : Client) : Client :=
  setMessageHandlers (filter (λ h, h ≠ handler) (messageHandlers c)) c.

(** [sendMessage]; [readyOpen] is [this.ws.readyState === WebSocket.OPEN],
    read only when [isConnected] holds. *)
Definition sendMessage (readyOpen : bool) (message : string) (c : Client)
  : list Effect :=
  if isConnected c && readyOpen then [Send message]
  else [ConsoleError "WebSocket is not connected"].

Definition close (c : Client) : list Effect :=
  if ws c then [CloseSocket] else [].

(** *** The client in its browser

    The browser holds the sockets the client created and the timeouts it
    set.  A socket fires its events until it fires [close], which it does
    once; a timeout fires once. *)

Record System := {
  client : Client;
  app : App;
  sockets : nat;      (* sockets that have not fired [close] yet *)
  timers : list Z     (* the delays of the timeouts still pending *)
}.

Inductive Event :=
| SocketOpens
| SocketMessage (message : string)
| SocketError
| SocketCloses
| TimerFires (created : bool)
| Subscribes (handler : Handler)
| Unsubscribes (handler : Handler)
| Sends (readyOpen : bool) (message : string)
| Closes.

Definition scheduled (effects : list Effect) : list Z :=
  omap (λ e, match e with SetTimeout delay => Some delay | _ => None end) effects.

Definition created_sockets (effects : list Effect) : nat :=
  length (omap (λ e, match e with NewWebSocket url => Some url | _ => None end)
               effects).

(** The browser takes note of the sockets and timeouts of a step. *)
Definition settle (c : Client) (a : App) (effects : list Effect)
    (nsockets : nat) (pending : list Z) : option (System * list Effect) :=
  Some ({| client := c; app := a;
           sockets := nsockets + created_sockets effects;
           timers := pending ++ scheduled effects |}, effects).

Definition boot (created : bool) (a : App) : System * list Effect :=
  let '(c, effects) := constructor created in
  ({| client := c; app := a; sockets := created_sockets effects;
      timers := scheduled effects |}, effects).

(** One event; [None] when the browser cannot produce it in this state. *)
Definition step (e : Event) (s : System) : option (System * list Effect) :=
  match e with
  | SocketOpens =>
      if bool_decide (0 < sockets s)%nat then
        settle (onopen (client s)) (app s) [] (sockets s) (timers s)
      else None
  | SocketMessage message =>
      if bool_decide (0 < sockets s)%nat then
        let '(a, effects) := onmessage message (client s) (app s) in
        settle (client s) a effects (sockets s) (timers s)
      else None
  | SocketError =>
      if bool_decide (0 < sockets s)%nat then
        let '(c, effects) := onerror (client s) in
        settle c (app s) effects (sockets s) (timers s)
      else None
  | SocketCloses =>
      match sockets s with
      | O => None
      | S remaining =>
          let '(c, effects) := onclose (client s) in
          settle c (app s) effects remaining (timers s)
      end
  | TimerFires created =>
      match timers s with
      | [] => None
      | _ :: pending =>
          let '(c, effects) := reconnect created (client s) in
          settle c (app s) effects (sockets s) pending
      end
  | Subscribes handler =>
      settle (addMessageHandler handler (client s)) (app s) [] (sockets s) (timers s)
  | Unsubscribes handler =>
      settle (removeMessageHandler handler (client s)) (app s) [] (sockets s) (timers s)
  | Sends readyOpen message =>
      settle (client s) (app s) (sendMessage readyOpen message (client s))
             (sockets s) (timers s)
  | Closes =>
      settle (client s) (app s) (close (client s)) (sockets s) (timers s)
  end.

Fixpoint run (events : list Event) (s : System) : option (System * list Effect) :=
  match events with
  | [] => Some (s, [])
  | e :: rest =>
      '(s1, effects1) ← step e s;
      '(s2, effects2) ← run rest s1;
      Some (s2, effects1 ++ effects2)
  end.

(** What holds of the client and its browser between any two events. *)
Definition steady (s : System) : Prop :=
  0 ≤ reconnectAttempts (client s) ≤ maxReconnectAttempts ∧
  reconnectDelay (client s) = 1000 * 2 ^ reconnectAttempts (client s) ∧
  (sockets s + length (timers s) ≤ 1)%nat ∧
  ((0 < sockets s)%nat → ws (client s) = true) ∧
  (isConnected (client s) = true →
   sockets s = 1%nat ∧ reconnectAttempts (client s) = 0) ∧
  (∀ delay, delay ∈ timers s →
     delay = reconnectDelay (client s) ∧
     reconnectAttempts (client s) < maxReconnectAttempts).

(** The waits of the exponential backoff, in milliseconds. *)
Definition backoff_delays : list Z := [1000; 2000; 4000; 8000; 16000].

Definition modest (e : Effect) : Prop :=
  match e with
  | SetTimeout delay => delay ∈ backoff_delays
  | _ => True
  end.

(** An effect that reaches nobody: no socket, no timeout, no message. *)
Definition silent (e : Effect) : Prop :=
  match e with
  | NewWebSocket _ | SetTimeout _ | Send _ => False
  | CloseSocket | ConsoleError _ => True
  end.

(** The client has given up: nothing is left that could call it back. *)
Definition abandoned (s : System) : Prop :=
  sockets s = 0%nat ∧ timers s = [] ∧ isConnected (client s) = false.

End Client.

End WebSocketClient.

(** ** The feedback modal (FeedbackModal component) *)

Module FeedbackForm.

Section Modal.

(** [process.env.REACT_APP_API_URL]. *)
Variable REACT_APP_API_URL : option string.

(** The modal's own [formatImageUrl]; a template literal prints an unset
    variable as [undefined]. *)
Definition formatImageUrl (url : Js.value) : string :=
  match url with
  | Js.Null | Js.Undefined => "/placeholder-image.png"
  | Js.Str u =>
      if negb (Js.truthy u) then "/placeholder-image.png"
      else if Js.startsWith u "http" then u
      else default "undefined" REACT_APP_API_URL +:+ u
  end.

(** A feedback record as the server returns it, and whether JavaScript
    takes it for true (what [!response.data] tests). *)
Context {Entry : Type}.
Variable truthy_data : Entry → bool.

Record FeedbackData := {
  frame_id : string;
  feedback_text : string;
  actor_names : option (list string);
  project_id : string
}.

Inductive Effect :=
| SubmitFrameFeedback (frameId : string) (feedbackData : FeedbackData)
| OnFeedbackSubmitted (entry : Entry)
| OnHide.

(** What the [catch] reads from the error: [err.response?.data?.message],
    [err.response?.data?.error] and [err.message]. *)
Record Failure := {
  response_message : option string;
  response_error : option string;
  message : option string
}.

(** The props the parent passes down, and the modal's own state. *)
Record State := {
  frame : option StoryboardView.Frame;
  feedbackText : string;
  selectedActors : list string;
  submitting : bool;
  error : option string;
  feedbackHistory : list Entry
}.

Definition setFeedbackText (v : string) (s : State) : State :=
  {| frame := frame s; feedbackText := v; selectedActors := selectedActors s;
     submitting := submitting s; error := error s;
     feedbackHistory := feedbackHistory s |}.

Definition setSelectedActors (v : list string) (s : State) : State :=
  {| frame := frame s; feedbackText := feedbackText s; selectedActors := v;
     submitting := submitting s; error := error s;
     feedbackHistory := feedbackHistory s |}.

Definition setSubmitting (v : bool) (s : State) : State :=
  {| frame := frame s; feedbackText := feedbackText s;
     selectedActors := selectedActors s;
     submitting := v; error := error s;
     feedbackHistory := feedbackHistory s |}.

Definition setError (v : option string) (s : State) : State :=
  {| frame := frame s; feedbackText := feedbackText s;
     selectedActors := selectedActors s;
     submitting := submitting s; error := v;
     feedbackHistory := feedbackHistory s |}.

Definition setFeedbackHistory (f : list Entry → list Entry) (s : State) : State :=
  {| frame := frame s; feedbackText := feedbackText s;
     selectedActors := selectedActors s;
     submitting := submitting s; error := error s;
     feedbackHistory := f (feedbackHistory s) |}.

(** [a || b] on values that are a string or missing. *)
Definition or_else (a : option string) (b : option string) : option string :=
  match a with
  | Some text => if Js.truthy text then Some text else b
  | None => b
  end.

Definition errorMessage (err : Failure) : string :=
  default "Failed to submit feedback. Please try again."
    (or_else (response_message err)
       (or_else (response_error err) (or_else (message err) None))).

(** [handleSubmit]; [notify] tells whether the parent passed
    [onFeedbackSubmitted].  A response whose data is [undefined] or [null]
    is [Js.Resolved None]. *)
Definition handleSubmit (projectId : string) (notify : bool)
    (response : Js.outcome (option Entry) Failure) (s : State)
  : State * list Effect :=
  match frame s with
  | None => (s, [])
  | Some fr =>
      if negb (Js.truthy (Js.trim (feedbackText s))) then (s, [])
      else
        let s1 := setError None (setSubmitting true s) in
        let feedbackData :=
          {| frame_id := StoryboardView.frame_id fr;
             feedback_text := feedbackText s;
             actor_names :=
               if bool_decide (0 < length (selectedActors s))%nat
               then Some (selectedActors s) else None;
             project_id := projectId |} in
        let request := SubmitFrameFeedback (StoryboardView.frame_id fr) feedbackData in
        (* [throw new Error('No data received from server')], caught below *)
        let no_data :=
          {| response_message := None; response_error := None;
             message := Some "No data received from server" |} in
        let caught (err : Failure) :=
          (setSubmitting false (setError (Some (errorMessage err)) s1), [request]) in
        match response with
        | Js.Resolved (Some entry) =>
            if truthy_data entry then
              let s2 := setFeedbackHistory (λ prev, prev ++ [entry]) s1 in
              let s3 := setSelectedActors [] (setFeedbackText "" s2) in
              (setSubmitting false s3,
               request :: (if notify then [OnFeedbackSubmitted entry] else [])
               ++ [OnHide])
            else caught no_data
        | Js.Resolved None => caught no_data
        | Js.Rejected err => caught err
        end
  end.

End Modal.

End FeedbackForm.

(** ** Further concrete values for running the added code on examples *)

Module MoreSamples.

(** A cast of two in the actor store of [Samples.world], with toy vector
    operations on [unit]. *)
Definition store : Guide.ActorProfileDB unit := Guide.actor_db Samples.world.

(** [Samples.world] after the feedback "Rex should look more alert" on its
    first frame. *)
Definition alerted : Guide.World unit string :=
  match Guide.refine_frame (λ _ : string, ()) (λ _ _, ()) Samples.render 0
          "Rex should look more alert" Samples.world with
  | Guide.Ok (_, w') => w'
  | Guide.Raise _ => Samples.world
  end.






Definition described (id description : string) (slot : Z) : StoryboardView.Frame :=
  {| StoryboardView.frame_id := id;
     StoryboardView.description := description;
     StoryboardView.page := Some 2;
     StoryboardView.frame_on_page := Some slot;
     StoryboardView.is_placeholder := false;
     StoryboardView.image_url := None;
     StoryboardView.actors := None;
     StoryboardView.feedback_history := None |}.

Definition frame_of_lines : StoryboardView.Frame :=
  described "f7"
    ("Opening shot" +:+ Guide.nl +:+ "A train leaves." +:+ Guide.nl +:+ "Night.") 1.

Definition frame_of_colons : StoryboardView.Frame :=
  described "f8" "Scene 3: INT. HOUSE: night, rain" 2.

(** The actor form with a name typed in and one file chosen. *)
Definition actor_form_ready : ActorList.State :=
  ActorForm.handleImageUpload ["mara.png"]
    (ActorForm.handleCreateChange ActorForm.NameField "Mara" Samples.actor_form_blank).

Definition two_actors : list ActorList.Actor :=
  [ {| ActorList.actor_name := "Mara";
       ActorList.actor_description := "The conductor";
       ActorList.actor_images := None;
       ActorList.image_paths := Some ["/actor-images/mara.png"] |};
    {| ActorList.actor_name := "Rex";
       ActorList.actor_description := "A brown terrier";
       ActorList.actor_images := None;
       ActorList.image_paths := None |} ].

(** Both questions of the first stage answered. *)
Definition consultation_answered : FilmSchoolConsultation.State :=
  ConsultationSession.answerAll ["A heist comedy"; "Young adults"]
    Samples.consultation_start.

Definition hero_question : FilmSchoolConsultation.Question :=
  {| FilmSchoolConsultation.question := "Who is the hero?";
     FilmSchoolConsultation.explanation := "Stories need a centre." |}.

Definition wish_question : FilmSchoolConsultation.Question :=
  {| FilmSchoolConsultation.question := "What does the hero want?";
     FilmSchoolConsultation.explanation := "Desire drives plot." |}.

Definition two_questions : list FilmSchoolConsultation.Question :=
  [hero_question; wish_question].

(** An application that keeps a log of the messages it saw; handler 1 is
    broken and throws, every other handler appends to the log. *)
Definition logging (h : WebSocketClient.Handler) (message : string)
    (seen : list string) : Js.outcome (list string) (list string) :=
  if bool_decide (h = 1%nat) then Js.Rejected seen
  else Js.Resolved (seen ++ [message]).

Definition browse (events : list WebSocketClient.Event)
  : option (WebSocketClient.System * list WebSocketClient.Effect) :=
  WebSocketClient.run None logging events (fst (WebSocketClient.boot None true [])).

(** The connection opens, drops, and comes back at the second attempt. *)
Definition flaky_connection : list WebSocketClient.Event :=
  [WebSocketClient.SocketOpens; WebSocketClient.SocketCloses;
   WebSocketClient.TimerFires false; WebSocketClient.TimerFires true].

(** The server is gone: the socket closes and five reconnections in a row
    end the same way, the last one leaving a socket that is yet to close. *)
Definition lost_connection : list WebSocketClient.Event :=
  WebSocketClient.SocketCloses
  :: concat (replicate 4 [WebSocketClient.TimerFires true;
                          WebSocketClient.SocketCloses])
  ++ [WebSocketClient.TimerFires true].

Definition three_handlers : WebSocketClient.Client :=
  {| WebSocketClient.ws := true;
     WebSocketClient.messageHandlers := [0%nat; 1%nat; 2%nat];
     WebSocketClient.isConnected := true;
     WebSocketClient.reconnectAttempts := 0;
     WebSocketClient.reconnectDelay := 1000 |}.

(** The feedback modal open on the first frame, with some text typed. *)
Definition modal_open : FeedbackForm.State (Entry := string) :=
  {| FeedbackForm.frame := Some Samples.frame1;
     FeedbackForm.feedbackText := " brighter sky ";
     FeedbackForm.selectedActors := [];
     FeedbackForm.submitting := false;
     FeedbackForm.error := None;
     FeedbackForm.feedbackHistory := ["earlier note"] |}.

End MoreSamples.

(** * Properties of the embedded program *)

(** ** Actor selection *)

Section ActorSelection.

Implicit Types (prev : list string) (actorName : string).

Lemma toggle_present prev actorName :
  actorName ∈ prev →
  FeedbackModal.handleActorSelection actorName prev
  = filter (λ name, name ≠ actorName) prev.
Proof.
  intros Hin. unfold FeedbackModal.handleActorSelection, Js.array_includes.
  by rewrite bool_decide_eq_true_2.
Qed.

Lemma toggle_absent prev actorName :
  actorName ∉ prev →
  FeedbackModal.handleActorSelection actorName prev = prev ++ [actorName].
Proof.
  intros Hin. unfold FeedbackModal.handleActorSelection, Js.array_includes.
  by rewrite bool_decide_eq_false_2.
Qed.

Lemma filter_other_absent prev actorName :
  actorName ∉ filter (λ name, name ≠ actorName) prev.
Proof. rewrite list_elem_of_filter. tauto. Qed.

Lemma toggle_twice_elem prev actorName x :
  x ∈ FeedbackModal.handleActorSelection actorName
        (FeedbackModal.handleActorSelection actorName prev)
  ↔ x ∈ prev.
Proof.
  destruct (decide (actorName ∈ prev)) as [Hin|Hout].
  - rewrite (toggle_present prev) by done.
    rewrite toggle_absent by apply filter_other_absent.
    rewrite elem_of_app, list_elem_of_filter, list_elem_of_singleton.
    split; [intros [[_ ?]| ->]; done|].
    intros Hx. destruct (decide (x = actorName)); tauto.
  - rewrite (toggle_absent prev) by done.
    rewrite toggle_present by (rewrite elem_of_app, list_elem_of_singleton; tauto).
    rewrite list_elem_of_filter, elem_of_app, list_elem_of_singleton.
    split; [tauto|]. intros Hx. split; [congruence | tauto].
Qed.

End ActorSelection.

(** C8.  One application of the actor-selection toggle (the same updater in
    the storyboard page and in the feedback modal) removes every occurrence
    of the name when it is selected, keeping the other names in order, and
    appends it once at the end when it is not; applying the toggle twice
    gives a list with the same members as the original one. *)
Theorem C8_actor_selection_toggle (prev : list string) (actorName : string) :
  let toggle := FeedbackModal.handleActorSelection actorName in
  (∀ s, StoryboardView.selectedActors (StoryboardView.handleActorSelection actorName s)
        = toggle (StoryboardView.selectedActors s)) ∧
  (actorName ∈ prev →
     toggle prev = filter (λ name, name ≠ actorName) prev ∧
     (actorName ∉ toggle prev) ∧
     (∀ x, x ≠ actorName → (x ∈ toggle prev ↔ x ∈ prev))) ∧
  (actorName ∉ prev → toggle prev = prev ++ [actorName]) ∧
  (∀ x, x ∈ toggle (toggle prev) ↔ x ∈ prev).
Proof.
  intros toggle. subst toggle. split; [done|]. split; [|split].
  - intros Hin. rewrite (toggle_present prev) by done.
    split; [done|]. split; [apply filter_other_absent|].
    intros x Hx. rewrite list_elem_of_filter. tauto.
  - apply toggle_absent.
  - apply toggle_twice_elem.
Qed.

Lemma C8_actor_selection_toggle_witness :
  FeedbackModal.handleActorSelection "Alice" ["Bob"; "Alice"; "Eve"; "Alice"]
  = ["Bob"; "Eve"]
  ∧ FeedbackModal.handleActorSelection "Alice" ["Bob"] = ["Bob"; "Alice"].
Proof.
  split.
  - refine (proj1 (proj1 (proj2 (C8_actor_selection_toggle
              ["Bob"; "Alice"; "Eve"; "Alice"] "Alice")) _)).
    apply (bool_decide_unpack _). vm_compute. exact I.
  - refine (proj1 (proj2 (proj2 (C8_actor_selection_toggle ["Bob"] "Alice"))) _).
    apply (bool_decide_unpack _). vm_compute. exact I.
Defined.

(** ** The generator factory *)

(** C3.  The factory returns the Stable Diffusion generator for
    "stable_diffusion" and the DALL-E generator for "dalle"; for a model name
    that is none of "stable_diffusion", "dalle", "midjourney" it raises
    ValueError("Unsupported model") and returns no generator. *)
Theorem C3_get_image_generator (OPENAI_API_KEY MJ_BOT_TOKEN : string) :
  let get := Guide.get_image_generator OPENAI_API_KEY MJ_BOT_TOKEN in
  get "stable_diffusion"
  = Guide.Ok (Guide.StableDiffusionGenerator "stabilityai/stable-diffusion-XL-base-1.0") ∧
  get "dalle" = Guide.Ok (Guide.DalleGenerator OPENAI_API_KEY) ∧
  ∀ model_name,
    model_name ∉ ["stable_diffusion"; "dalle"; "midjourney"] →
    get model_name = Guide.Raise (Py.ValueError "Unsupported model").
Proof.
  cbn zeta. split; [done|]. split; [done|].
  intros model_name Hout. unfold Guide.get_image_generator.
  rewrite !elem_of_cons in Hout.
  rewrite !bool_decide_eq_false_2; [done| |  |]; intros ->; tauto.
Qed.

Lemma C3_get_image_generator_witness :
  Guide.get_image_generator "sk-test" "mj-test" "imagen"
  = Guide.Raise (Py.ValueError "Unsupported model").
Proof.
  refine (proj2 (proj2 (C3_get_image_generator "sk-test" "mj-test")) "imagen" _).
  apply (bool_decide_unpack _). vm_compute. exact I.
Defined.

(** ** Consultation progress *)

Lemma indexOf_absent (arr : list string) (x : string) :
  x ∉ arr → FilmSchoolConsultation.indexOf arr x = -1.
Proof.
  induction arr as [|y arr IH]; [done|].
  rewrite not_elem_of_cons. intros [Hne Hout]. cbn.
  rewrite bool_decide_eq_false_2 by congruence.
  rewrite IH by done. done.
Qed.

(** C6.  [updateStageProgress] sends the stages "initial",
    "character_development", "plot_structure", "visual_style" (in that
    order) to the progress values 25, 50, 75 and 100, which is
    round(((index + 1) / 4) * 100) for the stage's index, and leaves the
    state, and so the stored progress, as it was for any other stage. *)
Theorem C6_update_stage_progress (s : FilmSchoolConsultation.State) :
  let progress stage :=
    FilmSchoolConsultation.stageProgress
      (FilmSchoolConsultation.updateStageProgress stage s) in
  FilmSchoolConsultation.stages
  = ["initial"; "character_development"; "plot_structure"; "visual_style"] ∧
  progress "initial" = 25 ∧
  progress "character_development" = 50 ∧
  progress "plot_structure" = 75 ∧
  progress "visual_style" = 100 ∧
  (∀ (index : nat) stage,
     FilmSchoolConsultation.stages !! index = Some stage →
     progress stage
     = Js.Math_round ((inject_Z (Z.of_nat index + 1) / inject_Z 4) * inject_Z 100)%Q) ∧
  (∀ stage,
     stage ∉ FilmSchoolConsultation.stages →
     FilmSchoolConsultation.updateStageProgress stage s = s).
Proof.
  cbn zeta. repeat (split; [reflexivity|]). split.
  - intros index stage Hlook.
    do 4 (destruct index as [|index]; [injection Hlook as <-; reflexivity|]).
    discriminate Hlook.
  - intros stage Hout. unfold FilmSchoolConsultation.updateStageProgress.
    rewrite indexOf_absent by done. done.
Qed.

Lemma C6_update_stage_progress_witness :
  FilmSchoolConsultation.updateStageProgress "post_production"
    Samples.consultation_start
  = Samples.consultation_start.
Proof.
  refine (proj2 (proj2 (proj2 (proj2 (proj2 (proj2
            (C6_update_stage_progress Samples.consultation_start))))))
            "post_production" _).
  apply (bool_decide_unpack _). vm_compute. exact I.
Defined.

(** ** Frames of a storyboard page *)

Section FramePage.

Import StoryboardView.

Lemma fill_page_short (pg : Z) (data : list Frame) :
  (length data < framesPerPage)%nat →
  fill_page pg data
  = data ++ imap (λ i _, placeholder pg (length data) i)
                 (replicate (framesPerPage - length data) ()).
Proof. intros H. unfold fill_page. by rewrite bool_decide_eq_true_2. Qed.

Lemma fill_page_full (pg : Z) (data : list Frame) :
  ¬ (length data < framesPerPage)%nat → fill_page pg data = data.
Proof. intros H. unfold fill_page. by rewrite bool_decide_eq_false_2. Qed.

Lemma fill_page_length (pg : Z) (data : list Frame) :
  length (fill_page pg data) = Nat.max (length data) framesPerPage.
Proof.
  destruct (decide (length data < framesPerPage)%nat) as [Hlt|Hge].
  - rewrite fill_page_short by done.
    rewrite length_app, length_imap, length_replicate. lia.
  - rewrite fill_page_full by done. lia.
Qed.

Lemma fill_page_take (pg : Z) (data : list Frame) :
  take (length data) (fill_page pg data) = data.
Proof.
  destruct (decide (length data < framesPerPage)%nat) as [Hlt|Hge].
  - rewrite fill_page_short by done. apply take_app_length.
  - rewrite fill_page_full by done. apply firstn_all.
Qed.

Lemma fill_page_slot (pg : Z) (data : list Frame) (i : nat) (p : Frame) :
  fill_page pg data !! (length data + i)%nat = Some p →
  p = placeholder pg (length data) i ∧ (length data + i < framesPerPage)%nat.
Proof.
  destruct (decide (length data < framesPerPage)%nat) as [Hlt|Hge].
  - rewrite fill_page_short by done.
    rewrite lookup_app_r by lia.
    replace (length data + i - length data)%nat with i by lia.
    rewrite list_lookup_imap.
    destruct (replicate _ _ !! i) as [[]|] eqn:Hrep; [|done].
    apply lookup_replicate in Hrep as [_ Hi].
    intros [= <-]. split; [done | lia].
  - rewrite fill_page_full by done. intros Hlook.
    apply lookup_lt_Some in Hlook. lia.
Qed.

End FramePage.

(** C10.  When the frames of a page have been fetched, the list shown has
    max(n, 6) frames, n being the number of fetched frames: the first n are
    the fetched frames, unchanged and in order, and the 6 - n that follow
    (none when n >= 6) are placeholders, each with [is_placeholder] set, the
    requested page number, and [frame_on_page] running on from n + 1.  A
    placeholder never opens the feedback modal and never sends an image
    generation request: all that [handleGenerateImage] does for it is to
    put its "generating" flag to false. *)
Theorem C10_page_filled_with_placeholders
    (projectId : string) (pg : Z) (fetched : list StoryboardView.Frame)
    (s : StoryboardView.State) :
  let n := length fetched in
  let shown :=
    StoryboardView.frames
      (fst (StoryboardView.fetchFramesForPage projectId pg (Js.Resolved fetched) s)) in
  length shown = Nat.max n 6 ∧
  take n shown = fetched ∧
  length (drop n shown) = (6 - n)%nat ∧
  (∀ (i : nat) p,
     shown !! (n + i)%nat = Some p →
     StoryboardView.is_placeholder p = true ∧
     StoryboardView.page p = Some pg ∧
     StoryboardView.frame_on_page p = Some (Z.of_nat n + Z.of_nat i + 1) ∧
     (∀ s', StoryboardView.openFeedbackModal p s' = s') ∧
     (∀ pid response s',
        StoryboardView.handleGenerateImage pid p response s'
        = (StoryboardView.setGeneratingImage
             (insert (StoryboardView.frame_id p) false) s', []))).
Proof.
  cbn zeta. cbn [StoryboardView.fetchFramesForPage fst StoryboardView.frames
                 StoryboardView.setLoading StoryboardView.setFrames].
  split; [apply fill_page_length|].
  split; [apply fill_page_take|].
  split.
  - rewrite length_drop, fill_page_length.
    unfold StoryboardView.framesPerPage. lia.
  - intros i p Hlook. apply fill_page_slot in Hlook as [-> _].
    repeat split.
Qed.

Lemma C10_page_filled_with_placeholders_witness :
  StoryboardView.openFeedbackModal (StoryboardView.placeholder 2 0 3)
    Samples.storyboard_idle
  = Samples.storyboard_idle.
Proof.
  destruct (C10_page_filled_with_placeholders "p1" 2 [] Samples.storyboard_idle)
    as (_ & _ & _ & H).
  exact (proj1 (proj2 (proj2 (proj2
           (H 3%nat (StoryboardView.placeholder 2 0 3) eq_refl))))
           Samples.storyboard_idle).
Defined.

(** ** The image URL formatter *)

Section FormatImageUrl.

Lemma startsWith_head (s p : string) (c : ascii) :
  Js.startsWith s (String c p) = true → ∃ rest, s = String c rest.
Proof.
  unfold Js.startsWith. destruct s as [|d s]; cbn; [done|].
  destruct (ascii_dec c d) as [->|]; [eauto | done].
Qed.

Lemma startsWith_cons (c : ascii) (rest : string) :
  Js.startsWith (String c rest) (String c "") = true.
Proof.
  unfold Js.startsWith. cbn. destruct (ascii_dec c c); [|done].
  by destruct rest.
Qed.

Lemma truthy_nonempty (s : string) : s ≠ "" → Js.truthy s = true.
Proof. by destruct s. Qed.

Variable REACT_APP_API_URL : option string.

Lemma formatImageUrl_absolute (s : string) :
  Js.startsWith s "http" = true →
  Api.formatImageUrl REACT_APP_API_URL (Js.Str s) = Some s.
Proof.
  intros Hhttp. cbn. rewrite Hhttp.
  apply startsWith_head in Hhttp as [rest ->]. done.
Qed.

Lemma formatImageUrl_relative (s : string) :
  s ≠ "" → Js.startsWith s "http" = false →
  ∃ path,
    Api.formatImageUrl REACT_APP_API_URL (Js.Str s)
    = Some (Api.apiBase REACT_APP_API_URL +:+ "/" +:+ path).
Proof.
  intros Hne Hrel. cbn [Api.formatImageUrl].
  rewrite truthy_nonempty by done. rewrite Hrel. cbn [negb].
  destruct (Js.includes s "actor_images/"); [by eexists|].
  destruct (Js.startsWith s "/actor-images/") eqn:Ha1.
  { apply startsWith_head in Ha1 as [rest ->].
    cbn [orb]. rewrite startsWith_cons. by eexists. }
  destruct (Js.startsWith s "actor-images/") eqn:Ha2.
  { cbn [orb]. destruct (Js.startsWith s "/") eqn:Hs.
    - apply startsWith_head in Hs as [rest ->]. by eexists.
    - by eexists. }
  cbn [orb].
  destruct (Js.includes s "frame_images/"); [by eexists|].
  destruct (Js.startsWith s "/images/") eqn:Hi.
  { apply startsWith_head in Hi as [rest ->]. cbn. by eexists. }
  destruct (Js.startsWith s "/frame-images/") eqn:Hf.
  { apply startsWith_head in Hf as [rest ->]. cbn. by eexists. }
  cbn [orb]. destruct (Js.startsWith s "/") eqn:Hs.
  - apply startsWith_head in Hs as [rest ->]. by eexists.
  - by eexists.
Qed.

End FormatImageUrl.

Example formatImageUrl_samples :
  Api.formatImageUrl None (Js.Str "uploads/actor_images/rex/1.png")
  = Some "http://localhost:8000/actor-images/rex/1.png" ∧
  Api.formatImageUrl None (Js.Str "actor-images/rex.png")
  = Some "http://localhost:8000/actor-images/rex.png" ∧
  Api.formatImageUrl None (Js.Str "/data/frame_images/p1/f1.png")
  = Some "http://localhost:8000/frame-images/p1/f1.png" ∧
  Api.formatImageUrl (Some "https://api.example") (Js.Str "/images/logo.png")
  = Some "https://api.example/images/logo.png" ∧
  Api.formatImageUrl (Some "") (Js.Str "thumb.png")
  = Some "http://localhost:8000/thumb.png".
Proof. repeat split; reflexivity. Qed.

Example split_samples :
  Js.split "a/actor_images/b/actor_images/c" "actor_images/" = ["a/"; "b/"; "c"] ∧
  Js.split "actor_images/" "actor_images/" = [""; ""] ∧
  Js.split "plain" "actor_images/" = ["plain"].
Proof. repeat split; reflexivity. Qed.

(** C9.  [utils.formatImageUrl] answers every input that is null, undefined
    or a string: a string that starts with "http" comes back unchanged;
    null, undefined and the empty string give null; every other non-empty
    string gives the API base URL followed by a path that starts with a
    slash. *)
Theorem C9_format_image_url (REACT_APP_API_URL : option string) :
  let format := Api.formatImageUrl REACT_APP_API_URL in
  let base := Api.apiBase REACT_APP_API_URL in
  (∀ s, Js.startsWith s "http" = true → format (Js.Str s) = Some s) ∧
  format Js.Null = None ∧
  format Js.Undefined = None ∧
  format (Js.Str "") = None ∧
  (∀ s, s ≠ "" → Js.startsWith s "http" = false →
        ∃ path, format (Js.Str s) = Some (base +:+ "/" +:+ path)).
Proof.
  cbn zeta. split; [apply formatImageUrl_absolute|].
  do 3 (split; [reflexivity|]).
  apply formatImageUrl_relative.
Qed.

Lemma C9_format_image_url_witness :
  Api.formatImageUrl None (Js.Str "https://cdn.example/a.png")
  = Some "https://cdn.example/a.png"
  ∧ ∃ path,
      Api.formatImageUrl (Some "https://api.example")
        (Js.Str "uploads/frame_images/p1/f2.png")
      = Some ("https://api.example" +:+ "/" +:+ path).
Proof.
  split.
  - exact (proj1 (C9_format_image_url None) "https://cdn.example/a.png" eq_refl).
  - refine (proj2 (proj2 (proj2 (proj2 (C9_format_image_url (Some "https://api.example")))))
              "uploads/frame_images/p1/f2.png" _ eq_refl).
    discriminate.
Defined.

(** ** Validation of the actor form *)

Section CreateActor.

Import ActorList.

Variable createResponse : Js.outcome unit (option string).
Variable actorsResponse : Js.outcome (list Actor) unit.


Lemma create_no_source (s : State) :
  Js.trim (name (createFormData s)) ≠ "" →
  auto_generate_image (createFormData s) = false →
  images (createFormData s) = None ∨ images (createFormData s) = Some [] →
  handleCreateSubmit createResponse actorsResponse s
  = (setCreateError (Some "Please either upload images or select auto-generate") s,
     []).
Proof.
  intros Hname Hauto Himgs. unfold handleCreateSubmit.
  rewrite truthy_nonempty by done. cbn [negb]. rewrite Hauto.
  unfold no_images. by destruct Himgs as [-> | ->].
Qed.

Lemma create_sends (s : State) :
  Js.trim (name (createFormData s)) ≠ "" →
  auto_generate_image (createFormData s) = true
  ∨ (∃ img rest, images (createFormData s) = Some (img :: rest)) →
  ∃ later,
    snd (handleCreateSubmit createResponse actorsResponse s)
    = CreateActor (createFormData s) :: later.
Proof.
  intros Hname Hsrc. unfold handleCreateSubmit.
  rewrite truthy_nonempty by done. cbn [negb].
  assert (negb (auto_generate_image (createFormData s))
          && no_images (createFormData s) = false) as ->.
  { destruct Hsrc as [-> | (img & rest & Himgs)]; [done|].
    unfold no_images. rewrite Himgs. cbn. apply andb_false_r. }
  destruct createResponse; [|by eexists].
  destruct (fetchActors _ _). by eexists.
Qed.


End CreateActor.



(** ** Validation of the consultation answers *)

Section SubmitAnswers.

Import FilmSchoolConsultation.

(** When every recorded answer belongs to a question of the stage, a
    question without a recorded answer makes the two counts differ. *)
Lemma unanswered_count (ans : gmap nat string) (n i : nat) :
  (∀ k, is_Some (ans !! k) → (k < n)%nat) →
  (i < n)%nat → ans !! i = None → (size ans < n)%nat.
Proof.
  intros Hkeys Hi Hnone.
  rewrite <- (size_dom (D := gset nat)).
  assert (dom ans ⊆ (set_seq 0 n : gset nat) ∖ {[i]}) as Hsub.
  { intros k Hk. apply elem_of_dom in Hk as Hsome.
    apply elem_of_difference. split.
    - apply elem_of_set_seq. specialize (Hkeys k Hsome). lia.
    - rewrite elem_of_singleton. intros ->.
      rewrite Hnone in Hsome. by destruct Hsome. }
  apply subseteq_size in Hsub.
  rewrite size_difference in Hsub.
  - rewrite size_set_seq, size_singleton in Hsub. lia.
  - apply singleton_subseteq_l, elem_of_set_seq. lia.
Qed.

Variable projectId : string.
Variable response : Js.outcome SubmitData (option string).

Lemma submit_refused (s : State) :
  size (answers s) ≠ length (questions s) →
  handleSubmitAnswers projectId response s
  = (setError (Some "Please answer all questions before submitting") s, []).
Proof.
  intros Hne. unfold handleSubmitAnswers. by rewrite bool_decide_eq_true_2.
Qed.

Lemma submit_sent (s : State) :
  size (answers s) = length (questions s) →
  snd (handleSubmitAnswers projectId response s)
  = [SubmitAnswers projectId (formatAnswers (questions s) (answers s))].
Proof.
  intros Heq. unfold handleSubmitAnswers.
  rewrite bool_decide_eq_false_2 by (by intros ?).
  by destruct response.
Qed.

End SubmitAnswers.




(** ** The feedback loop *)

Section RefineFrame.

Context {Vec Image : Type}.
Variable encode_image_to_vector : Image → Vec.
Variable blend : Vec → Vec → Vec.
Variable generate_frame_image :
  string → list string → string → Guide.ActorProfileDB Vec → Image.

Lemma getitem_nat {A} (l : list A) (i : nat) (x : A) :
  l !! i = Some x → Py.getitem l (Z.of_nat i) = Some x.
Proof.
  intros Hlook. pose proof (lookup_lt_Some _ _ _ Hlook).
  unfold Py.getitem. rewrite bool_decide_eq_true_2 by lia.
  by rewrite Nat2Z.id.
Qed.

Lemma setitem_nat {A} (l : list A) (i : nat) (x : A) :
  (i < length l)%nat → Py.setitem l (Z.of_nat i) x = Some (<[i := x]> l).
Proof.
  intros Hlt. unfold Py.setitem. rewrite bool_decide_eq_true_2 by lia.
  by rewrite Nat2Z.id.
Qed.

Lemma refine_frame_run (w : Guide.World Vec Image) (i : nat)
    (d t : string) (actors : list string) :
  Guide.storyboard_frames w !! i = Some d →
  Guide.frames_to_actors w (Z.of_nat i) = Some actors →
  (i < length (Guide.storyboard_images w))%nat →
  let db :=
    foldl (Guide.note_feedback encode_image_to_vector blend t)
          (Guide.actor_db w) actors in
  let new_image :=
    generate_frame_image (d +:+ ". Note: " +:+ t) actors (Guide.current_model w) db in
  Guide.refine_frame encode_image_to_vector blend generate_frame_image
    (Z.of_nat i) t w
  = Guide.Ok (new_image,
              {| Guide.storyboard_frames := Guide.storyboard_frames w;
                 Guide.frames_to_actors := Guide.frames_to_actors w;
                 Guide.storyboard_images := <[i := new_image]> (Guide.storyboard_images w);
                 Guide.actor_db := db;
                 Guide.current_model := Guide.current_model w |}).
Proof.
  intros Hd Ha Hi. cbn zeta. unfold Guide.refine_frame.
  rewrite (getitem_nat _ _ _ Hd). cbn.
  rewrite Ha. cbn.
  rewrite setitem_nat by done. done.
Qed.

End RefineFrame.

Section FeedbackSubmit.

Import StoryboardView.

Lemma feedback_submit_run (data : FeedbackData) (now : string) (s : State)
    (sel : Frame) :
  selectedFrame s = Some sel →
  Js.trim (feedbackText s) ≠ "" →
  handleFeedbackSubmit (Js.Resolved data) now s
  = (setSubmittingFeedback false
       (setSelectedActors (λ _, [])
          (setFeedbackText ""
             (setShowFeedbackModal false
                (setFrames
                   (map (λ frame,
                           if bool_decide (frame_id frame = frame_id sel)
                           then with_feedback data (feedbackText s) now frame
                           else frame)
                        (frames s))
                   (setSubmittingFeedback true s))))),
     [SubmitFrameFeedback (frame_id sel)
        {| fb_frame_id := frame_id sel;
           feedback_text := feedbackText s;
           actor_names :=
             if bool_decide (0 < length (selectedActors s))%nat
             then Some (selectedActors s) else None |}]).
Proof.
  intros Hsel Htext. unfold handleFeedbackSubmit. rewrite Hsel.
  by rewrite truthy_nonempty.
Qed.

Lemma feedback_submit_blank (response : Js.outcome FeedbackData unit)
    (now : string) (s : State) :
  Js.trim (feedbackText s) = "" →
  handleFeedbackSubmit response now s = (s, []).
Proof.
  intros Hblank. unfold handleFeedbackSubmit.
  destruct (selectedFrame s); [|done]. by rewrite Hblank.
Qed.

End FeedbackSubmit.

(** C1 (as amended).  For a storyboard frame with description d and any
    feedback text t, [refine_frame] builds the prompt d + ". Note: " + t,
    generates the new image from that prompt, stores it in the frame's slot
    and leaves every other stored image alone.  On the page, feedback typed
    for the selected frame is submitted when it is not blank after trimming:
    exactly one request carrying the text is sent, and when it succeeds the
    frames with the selected frame's id get the new image URL while all
    other frames stay as they were.  Feedback that is blank after trimming
    is not submitted at all. *)
Theorem C1_feedback_regenerates_frame {Vec Image : Type}
    (encode_image_to_vector : Image → Vec) (blend : Vec → Vec → Vec)
    (generate_frame_image :
       string → list string → string → Guide.ActorProfileDB Vec → Image)
    (w : Guide.World Vec Image) (i : nat) (d t : string) (actors : list string)
    (s : StoryboardView.State) (sel : StoryboardView.Frame)
    (data : StoryboardView.FeedbackData) (now : string) :
  Guide.storyboard_frames w !! i = Some d →
  Guide.frames_to_actors w (Z.of_nat i) = Some actors →
  (i < length (Guide.storyboard_images w))%nat →
  StoryboardView.selectedFrame s = Some sel →
  (∃ new_image w',
     Guide.refine_frame encode_image_to_vector blend generate_frame_image
       (Z.of_nat i) t w = Guide.Ok (new_image, w') ∧
     new_image
     = generate_frame_image (d +:+ ". Note: " +:+ t) actors (Guide.current_model w)
         (Guide.actor_db w') ∧
     Guide.storyboard_images w' !! i = Some new_image ∧
     (∀ j, j ≠ i →
           Guide.storyboard_images w' !! j = Guide.storyboard_images w !! j) ∧
     length (Guide.storyboard_images w') = length (Guide.storyboard_images w) ∧
     Guide.storyboard_frames w' = Guide.storyboard_frames w) ∧
  (Js.trim (StoryboardView.feedbackText s) ≠ "" →
     let result := StoryboardView.handleFeedbackSubmit (Js.Resolved data) now s in
     (∃ body,
        snd result = [StoryboardView.SubmitFrameFeedback (StoryboardView.frame_id sel) body] ∧
        StoryboardView.feedback_text body = StoryboardView.feedbackText s) ∧
     length (StoryboardView.frames (fst result)) = length (StoryboardView.frames s) ∧
     (∀ k frame,
        StoryboardView.frames s !! k = Some frame →
        ∃ frame',
          StoryboardView.frames (fst result) !! k = Some frame' ∧
          (StoryboardView.frame_id frame ≠ StoryboardView.frame_id sel →
             frame' = frame) ∧
          (StoryboardView.frame_id frame = StoryboardView.frame_id sel →
             StoryboardView.image_url frame' = StoryboardView.new_image_url data ∧
             StoryboardView.frame_id frame' = StoryboardView.frame_id frame ∧
             StoryboardView.description frame' = StoryboardView.description frame))) ∧
  (Js.trim (StoryboardView.feedbackText s) = "" →
     ∀ response,
       StoryboardView.handleFeedbackSubmit response now s = (s, [])).
Proof.
  intros Hd Ha Hi Hsel. split; [|split].
  - eexists _, _. split; [by apply refine_frame_run|]. cbn.
    split; [done|]. split; [by apply list_lookup_insert_eq|].
    split; [|split; [apply length_insert | done]].
    intros j Hj. by apply list_lookup_insert_ne.
  - intros Htext. cbn zeta.
    rewrite (feedback_submit_run data now s sel) by done. cbn.
    split; [by eexists|]. split; [apply length_map|].
    intros k frame Hk.
    change (map ?f ?l) with (f <$> l). rewrite list_lookup_fmap, Hk. cbn.
    eexists. split; [done|].
    case_bool_decide; split; done.
  - intros Hblank response. by apply feedback_submit_blank.
Qed.

Lemma C1_feedback_regenerates_frame_witness :
  (∃ new_image w',
     Guide.refine_frame (λ _ : string, ()) (λ _ _, ()) Samples.render 0
       "make it sunset" Samples.world = Guide.Ok (new_image, w') ∧
     new_image = "image of: A dog runs on the beach. Note: make it sunset" ∧
     Guide.storyboard_images w' !! 0%nat = Some new_image ∧
     Guide.storyboard_images w' !! 1%nat = Some "cat-v1") ∧
  snd (StoryboardView.handleFeedbackSubmit
         (Js.Resolved Samples.regenerated) "2025-01-01T00:00:00.000Z"
         (Samples.giving_feedback "make it sunset")) ≠ [].
Proof.
  destruct (C1_feedback_regenerates_frame (λ _ : string, ()) (λ _ _, ())
              Samples.render Samples.world 0 "A dog runs on the beach"
              "make it sunset" ["Rex"]
              (Samples.giving_feedback "make it sunset") Samples.frame1
              Samples.regenerated "2025-01-01T00:00:00.000Z"
              eq_refl eq_refl ltac:(cbn; lia) eq_refl)
    as ((new_image & w' & Hrun & Himage & Hslot & Hrest & _) & Hpage & _).
  split.
  - exists new_image, w'. split; [exact Hrun|].
    split; [exact Himage|]. split; [exact Hslot|].
    rewrite (Hrest 1%nat) by lia. reflexivity.
  - destruct (Hpage ltac:(discriminate)) as ((body & -> & _) & _).
    discriminate.
Defined.

(** C1 in its first wording asks only for a non-empty text.  A single space
    is non-empty, yet the page sends nothing and keeps the old image. *)
Lemma C1_whitespace_feedback_not_submitted :
  let s := Samples.giving_feedback " " in
  StoryboardView.selectedFrame s = Some Samples.frame1 ∧
  StoryboardView.feedbackText s ≠ "" ∧
  StoryboardView.handleFeedbackSubmit
    (Js.Resolved Samples.regenerated) "2025-01-01T00:00:00.000Z" s
  = (s, []).
Proof. cbn zeta. split; [reflexivity|]. split; [discriminate | reflexivity]. Qed.

(** ** Script analysis *)

Section KeyFrames.

Lemma append_cons (c : ascii) (s t : string) :
  String c s +:+ t = String c (s +:+ t).
Proof. reflexivity. Qed.

Lemma append_empty_l (t : string) : "" +:+ t = t.
Proof. reflexivity. Qed.

Lemma append_empty_r (s : string) : s +:+ "" = s.
Proof. induction s as [|c s IH]; [done|]. by rewrite append_cons, IH. Qed.

Lemma append_snoc (s t : string) (c : ascii) :
  (s +:+ String c "") +:+ t = s +:+ String c t.
Proof. induction s as [|d s IH]; [done|]. by rewrite !append_cons, IH. Qed.

Lemma substring_whole (s : string) : String.substring 0 (String.length s) s = s.
Proof. induction s as [|c s IH]; [done|]. cbn. f_equal. exact IH. Qed.

Lemma drop_one (c : ascii) (s : string) : Py.drop 1 (String c s) = s.
Proof.
  unfold Py.drop. cbn [String.length String.substring].
  replace (S (String.length s) - 1)%nat with (String.length s) by lia.
  apply substring_whole.
Qed.

Lemma prefix_empty (s : string) : String.prefix "" s = true.
Proof. by destruct s. Qed.

Lemma dot_prefix (c : ascii) (s : string) :
  String.prefix "." (String c s) = bool_decide (c = "."%char).
Proof.
  cbn [String.prefix]. destruct (ascii_dec "." c) as [<-|Hne].
  - rewrite prefix_empty. by rewrite bool_decide_eq_true_2.
  - by rewrite bool_decide_eq_false_2.
Qed.

(** The text before the first full stop has no full stop in it. *)
Lemma partition_first_dot (before a b : string) :
  Py.contains a "." = false →
  Py.partition_go "." before (a +:+ "." +:+ b) = (before +:+ a, ".", b).
Proof.
  revert before. induction a as [|c a IH]; intros before Hfree.
  - rewrite append_empty_l, append_cons, append_empty_l.
    cbn [Py.partition_go].
    rewrite dot_prefix. rewrite bool_decide_eq_true_2 by done.
    rewrite append_empty_r. cbn [String.length]. by rewrite drop_one.
  - cbn [Py.contains] in Hfree. apply orb_false_iff in Hfree as [Hc Ha].
    rewrite dot_prefix in Hc.
    rewrite append_cons. cbn [Py.partition_go]. rewrite dot_prefix, Hc.
    rewrite IH by done. by rewrite append_snoc.
Qed.

Lemma partition_no_dot (before line : string) :
  Py.contains line "." = false →
  Py.partition_go "." before line = (before +:+ line, "", "").
Proof.
  revert before. induction line as [|c line IH]; intros before Hfree.
  - cbn. by rewrite append_empty_r.
  - cbn [Py.contains] in Hfree. apply orb_false_iff in Hfree as [Hc Ha].
    rewrite dot_prefix in Hc.
    cbn [Py.partition_go]. rewrite dot_prefix, Hc.
    rewrite IH by done. by rewrite append_snoc.
Qed.

Lemma py_truthy_nonempty (s : string) : Py.truthy s = true ↔ s ≠ "".
Proof. destruct s; cbn; split; congruence. Qed.

Lemma numbered_iff (line : string) :
  Guide.numbered line = true
  ↔ Py.strip line ≠ "" ∧ ∃ c rest, line = String c rest ∧ Py.isdigit c = true.
Proof.
  unfold Guide.numbered. rewrite andb_true_iff, py_truthy_nonempty.
  split; intros [Hblank Hdigit]; (split; [done|]).
  - destruct line as [|c rest]; [done|]. eauto.
  - by destruct Hdigit as (c & rest & -> & Hc).
Qed.

End KeyFrames.

(** C2 (as amended).  [extract_key_frames] asks the completion service for
    [frame_count] key visual scenes (6 when the argument is left out),
    strips the answer of surrounding whitespace and reads it line by line.  A line contributes a frame
    exactly when it is not blank and its first character is a digit in the
    sense of [str.isdigit]; the frame's description is the stripped text
    after the first full stop of the line (empty when there is none); the
    result lists these descriptions in the order of the lines. *)
Theorem C2_extract_key_frames (completion : string → string)
    (script_text : string) (frame_count : option Z) :
  let requested := default 6 frame_count in
  let answer := completion (Guide.frames_prompt script_text requested) in
  let lines := Py.splitlines (Py.strip answer) in
  let contributes line :=
    Py.strip line ≠ "" ∧ ∃ c rest, line = String c rest ∧ Py.isdigit c = true in
  let describe line := Py.strip (snd (Py.partition line ".")) in
  (∃ before after,
     Guide.frames_prompt script_text requested
     = before +:+ pretty requested +:+ " key visual scenes" +:+ after +:+ script_text
       +:+ Guide.nl +:+ Guide.nl +:+ "Frames:" +:+ Guide.nl +:+ "1.") ∧
  (∀ line, Guide.numbered line = true ↔ contributes line) ∧
  Guide.extract_key_frames completion script_text frame_count
  = List.map describe (List.filter Guide.numbered lines) ∧
  (∀ a b, Py.contains a "." = false → describe (a +:+ "." +:+ b) = Py.strip b) ∧
  (∀ line, Py.contains line "." = false → describe line = "").
Proof.
  cbn zeta. split; [|split; [|split; [|split]]].
  - exists "You are a film storyboard assistant. Read the script below and divide it into ".
    exists (". Provide a brief description for each of the "
            +:+ "frames, focusing on distinct important moments, with any key characters and actions."
            +:+ Guide.nl +:+ Guide.nl +:+ "Script:" +:+ Guide.nl).
    unfold Guide.frames_prompt. do 2 f_equal.
  - apply numbered_iff.
  - reflexivity.
  - intros a b Hfree. unfold Py.partition.
    by rewrite partition_first_dot.
  - intros line Hfree. unfold Py.partition.
    by rewrite partition_no_dot.
Qed.

Lemma C2_extract_key_frames_witness :
  Py.strip (snd (Py.partition "2. A cat sits. Then it leaps. " ".")) 
  = "A cat sits. Then it leaps.".
Proof.
  exact (proj1 (proj2 (proj2 (proj2 (C2_extract_key_frames (λ _, "") "" None))))
           "2" " A cat sits. Then it leaps. " eq_refl).
Defined.

(** C2 in its first wording reads the lines of the response and lets only
    those that start with a decimal digit contribute.  Two answers show the
    difference.  The first line of an answer that begins with a space starts
    with that space, yet it contributes once the answer has been stripped;
    and a line that starts with a superscript two, which is no decimal
    digit, contributes as well. *)
Lemma C2_stripped_answer_and_superscript_digit :
  let spaced := " 7 riders cross the ridge. They stop at dusk." in
  let raised := String Samples.superscript_two "x. A closing shot" in
  Py.splitlines spaced = [spaced] ∧
  Guide.numbered spaced = false ∧
  Guide.extract_key_frames (λ _, spaced) "EXT. RIDGE - DAY" None
  = ["They stop at dusk."] ∧
  ¬ (48 ≤ Py.code Samples.superscript_two ≤ 57)%nat ∧
  Guide.extract_key_frames (λ _, raised) "INT. HOUSE - DAY" None
  = ["A closing shot"].
Proof.
  cbn zeta. repeat (split; [reflexivity|]).
  split; [vm_compute; lia | reflexivity].
Qed.

Example splitlines_sample :
  Py.splitlines ("1. Dawn" +:+ Guide.nl +:+ Guide.nl
                 +:+ "2. Dusk" +:+ String (ascii_of_nat 13) Guide.nl)
  = ["1. Dawn"; ""; "2. Dusk"].
Proof. reflexivity. Qed.

Example partition_sample :
  Py.partition "12. He waits. She leaves." "." = ("12", ".", " He waits. She leaves.")
  ∧ Py.partition "no stop here" "." = ("no stop here", "", "").
Proof. split; reflexivity. Qed.

Example extract_key_frames_sample :
  Guide.extract_key_frames
    (λ _, " A dog runs on the beach." +:+ Guide.nl
          +:+ "2. A cat sits on a wall. It yawns.  " +:+ Guide.nl
          +:+ "   3. An indented line" +:+ Guide.nl
          +:+ "4 without a stop" +:+ Guide.nl)
    "EXT. BEACH - DAY" (Some 4)
  = ["A cat sits on a wall. It yawns."; ""].
Proof. reflexivity. Qed.

(** ** Character variants *)

Section CharacterVariants.

Context {Vec Image Score : Type}.
Variables OPENAI_API_KEY MJ_BOT_TOKEN : string.
Variable generate : Guide.Generator → string → Image.
Variable calculate_image_quality : Image → Guide.ActorProfile Vec → Score.
Variable score_lt : Score → Score → bool.

Implicit Types (v : Guide.Variant Image Score)
  (l : list (Guide.Variant Image Score)).

Hypothesis lt_asym : ∀ x y, score_lt x y = true → score_lt y x = false.
Hypothesis lt_negtrans :
  ∀ x y z, score_lt x y = false → score_lt y z = false → score_lt x z = false.

Lemma insert_asc_perm v l :
  Permutation (Guide.insert_asc score_lt v l) (v :: l).
Proof.
  induction l as [|y l IH]; [done|]. cbn.
  destruct (score_lt _ _); [|done].
  rewrite IH. apply perm_swap.
Qed.

Lemma sort_asc_perm l :
  Permutation (Guide.sort_asc score_lt l) l.
Proof.
  induction l as [|v l IH]; [done|]. cbn.
  rewrite insert_asc_perm. by rewrite IH.
Qed.

Lemma sort_reverse_perm l :
  Permutation (Guide.sort_reverse score_lt l) l.
Proof.
  unfold Guide.sort_reverse.
  rewrite <- Permutation_rev, sort_asc_perm. symmetry. apply Permutation_rev.
Qed.

Lemma insert_asc_sorted v l :
  StronglySorted (Guide.not_above score_lt) l →
  StronglySorted (Guide.not_above score_lt) (Guide.insert_asc score_lt v l).
Proof.
  induction 1 as [|y l Hsorted IH Hall]; cbn.
  - repeat constructor.
  - destruct (score_lt (Guide.quality_score y) (Guide.quality_score v)) eqn:Hyv.
    + constructor; [done|].
      rewrite insert_asc_perm. constructor; [|done].
      unfold Guide.not_above, Guide.not_below. by apply lt_asym.
    + constructor; [by constructor|].
      constructor; [done|].
      eapply Forall_impl; [exact Hall|].
      intros z Hz. unfold Guide.not_above, Guide.not_below in *.
      by eapply lt_negtrans.
Qed.

Lemma sort_asc_sorted l :
  StronglySorted (Guide.not_above score_lt) (Guide.sort_asc score_lt l).
Proof.
  induction l as [|v l IH]; cbn; [constructor|]. by apply insert_asc_sorted.
Qed.

Lemma sorted_snoc (R : Guide.Variant Image Score → Guide.Variant Image Score → Prop) l
    (x : Guide.Variant Image Score) :
  StronglySorted R l → Forall (λ y, R y x) l → StronglySorted R (l ++ [x]).
Proof.
  induction 1 as [|y l Hsorted IH Hall]; intros Hx; cbn.
  - repeat constructor.
  - apply Forall_cons_iff in Hx as [Hyx Hx].
    constructor; [by apply IH|].
    apply Forall_app. split; [done|]. by constructor.
Qed.

Lemma sorted_rev l :
  StronglySorted (Guide.not_above score_lt) l → StronglySorted (Guide.not_below score_lt) (rev l).
Proof.
  induction 1 as [|y l Hsorted IH Hall]; cbn; [constructor|].
  apply sorted_snoc; [done|].
  apply Forall_rev. exact Hall.
Qed.

Lemma sort_reverse_sorted l :
  StronglySorted (Guide.not_below score_lt) (Guide.sort_reverse score_lt l).
Proof. apply sorted_rev, sort_asc_sorted. Qed.

Lemma append_assoc (s t u : string) : (s +:+ t) +:+ u = s +:+ t +:+ u.
Proof. induction s as [|c s IH]; [done|]. by rewrite !append_cons, IH. Qed.

(** Whatever the index, [i % 5] selects one of the five aspects. *)
Lemma aspect_at (i : Z) :
  ∃ aspect,
    Guide.variant_aspects !! Z.to_nat (i `mod` 5) = Some aspect ∧
    Py.getitem Guide.variant_aspects (i `mod` 5) = Some aspect.
Proof.
  pose proof (Z.mod_pos_bound i 5 ltac:(lia)) as Hbound.
  destruct (lookup_lt_is_Some_2 Guide.variant_aspects (Z.to_nat (i `mod` 5)))
    as [aspect Haspect]; [cbn; lia|].
  exists aspect. split; [done|].
  unfold Py.getitem. by rewrite bool_decide_eq_true_2 by (cbn; lia).
Qed.

Variable current_model : string.
Variable model : Guide.Generator.
Hypothesis model_ok :
  Guide.get_image_generator OPENAI_API_KEY MJ_BOT_TOKEN current_model
  = Guide.Ok model.

Variable base_prompt : string.
Variable actor_profile : Guide.ActorProfile Vec.

Lemma variant_for_run (i : Z) :
  ∃ aspect,
    Guide.variant_aspects !! Z.to_nat (i `mod` 5) = Some aspect ∧
    Guide.variant_for OPENAI_API_KEY MJ_BOT_TOKEN generate calculate_image_quality
      current_model base_prompt actor_profile i
    = Guide.Ok (Guide.variant_of generate calculate_image_quality
                  base_prompt actor_profile model aspect).
Proof.
  destruct (aspect_at i) as (aspect & Hlook & Hget).
  exists aspect. split; [done|].
  unfold Guide.variant_for. cbn [length Guide.variant_aspects Z.of_nat].
  change (Z.of_nat 5) with 5. rewrite Hget. cbn. by rewrite model_ok.
Qed.

Lemma variants_loop_run (indices : list Z) (acc : list (Guide.Variant Image Score)) :
  ∃ made,
    Guide.variants_loop OPENAI_API_KEY MJ_BOT_TOKEN generate
      calculate_image_quality current_model base_prompt actor_profile indices acc
    = Guide.Ok (acc ++ made) ∧
    length made = length indices ∧
    ∀ (k : nat) i,
      indices !! k = Some i →
      ∃ aspect,
        Guide.variant_aspects !! Z.to_nat (i `mod` 5) = Some aspect ∧
        made !! k
        = Some (Guide.variant_of generate calculate_image_quality
                  base_prompt actor_profile model aspect).
Proof.
  revert acc. induction indices as [|i indices IH]; intros acc.
  - exists []. rewrite app_nil_r. repeat split. intros k i Hk. done.
  - destruct (variant_for_run i) as (aspect & Haspect & Hrun).
    destruct (IH (acc ++ [Guide.variant_of generate calculate_image_quality
                            base_prompt actor_profile model aspect]))
      as (made & Hloop & Hlen & Hmade).
    eexists (_ :: made). cbn [Guide.variants_loop]. rewrite Hrun. cbn.
    rewrite Hloop, <- app_assoc. split; [done|]. split; [cbn; lia|].
    intros [|k] j Hk.
    + injection Hk as <-. eauto.
    + apply Hmade. exact Hk.
Qed.

End CharacterVariants.

(** C7.  For an actor with a profile, [generate_character_variants] makes
    [num_variants] variants (5 when left out); the i-th one made
    (counting from 0) has exactly the prompt
    "{actor_name}, {prompt_hint}, in a scene where {scene_desc}, with
    emphasis on {aspect}", where aspect is element i mod 5 of the fixed list
    of five aspects, and carries the image generated from that prompt and
    its quality score.  What is returned is these variants rearranged in
    non-increasing order of quality score. *)
Theorem C7_character_variants {Vec Image Score : Type}
    (OPENAI_API_KEY MJ_BOT_TOKEN : string)
    (generate : Guide.Generator → string → Image)
    (calculate_image_quality : Image → Guide.ActorProfile Vec → Score)
    (score_lt : Score → Score → bool)
    (actor_db : Guide.ActorProfileDB Vec) (current_model : string)
    (actor_name scene_desc : string) (num_variants : option Z)
    (actor_profile : Guide.ActorProfile Vec) (model : Guide.Generator) :
  (∀ x y, score_lt x y = true → score_lt y x = false) →
  (∀ x y z, score_lt x y = false → score_lt y z = false → score_lt x z = false) →
  Guide.get_profile actor_db actor_name = Some actor_profile →
  Guide.get_image_generator OPENAI_API_KEY MJ_BOT_TOKEN current_model = Guide.Ok model →
  ∃ made returned,
    Guide.generate_character_variants OPENAI_API_KEY MJ_BOT_TOKEN generate
      calculate_image_quality score_lt actor_db current_model
      actor_name scene_desc num_variants
    = Guide.Ok returned ∧
    length made = Z.to_nat (default 5 num_variants) ∧
    length Guide.variant_aspects = 5%nat ∧
    (∀ (i : nat) v,
       made !! i = Some v →
       ∃ aspect,
         Guide.variant_aspects !! (i `mod` 5)%nat = Some aspect ∧
         Guide.prompt v
         = actor_name +:+ ", " +:+ Guide.prompt_hint actor_profile
           +:+ ", in a scene where " +:+ scene_desc
           +:+ ", with emphasis on " +:+ aspect ∧
         Guide.image v = generate model (Guide.prompt v) ∧
         Guide.quality_score v = calculate_image_quality (Guide.image v) actor_profile) ∧
    Permutation made returned ∧
    StronglySorted (Guide.not_below score_lt) returned.
Proof.
  intros Hasym Hnegtrans Hprofile Hmodel.
  destruct (variants_loop_run OPENAI_API_KEY MJ_BOT_TOKEN generate
              calculate_image_quality current_model model Hmodel
              (actor_name +:+ ", " +:+ Guide.prompt_hint actor_profile
               +:+ ", in a scene where " +:+ scene_desc)
              actor_profile (Py.range (default 5 num_variants)) [])
    as (made & Hloop & Hlen & Hmade).
  exists made, (Guide.sort_reverse score_lt made).
  split; [|split; [|split; [|split; [|split]]]].
  - unfold Guide.generate_character_variants. rewrite Hprofile. cbn.
    by rewrite Hloop.
  - rewrite Hlen. unfold Py.range. by rewrite length_fmap, length_seq.
  - reflexivity.
  - intros i v Hv.
    assert (i < Z.to_nat (default 5%Z num_variants))%nat as Hi.
    { apply lookup_lt_Some in Hv. rewrite Hlen in Hv.
      unfold Py.range in Hv. by rewrite length_fmap, length_seq in Hv. }
    destruct (Hmade i (Z.of_nat i)) as (aspect & Haspect & Hvi).
    { unfold Py.range. rewrite list_lookup_fmap, lookup_seq_lt by done. done. }
    rewrite Hvi in Hv. injection Hv as <-.
    exists aspect. split; [|split; [|done]].
    + rewrite <- Haspect. f_equal.
      rewrite <- (Nat2Z.id (i `mod` 5)%nat). f_equal.
      rewrite Nat2Z.inj_mod. done.
    + cbn. by rewrite !append_assoc.
  - symmetry. apply sort_reverse_perm.
  - by apply sort_reverse_sorted.
Qed.

(** Equal scores keep the order in which the variants were made. *)
Example sort_reverse_sample :
  Guide.prompt <$>
    Guide.sort_reverse Z.ltb
      [ {| Guide.image := (); Guide.prompt := "a"; Guide.quality_score := 1 |};
        {| Guide.image := (); Guide.prompt := "b"; Guide.quality_score := 3 |};
        {| Guide.image := (); Guide.prompt := "c"; Guide.quality_score := 1 |};
        {| Guide.image := (); Guide.prompt := "d"; Guide.quality_score := 2 |} ]
  = ["b"; "d"; "a"; "c"].
Proof. reflexivity. Qed.

Lemma C7_character_variants_witness :
  ∃ returned,
    Guide.generate_character_variants "sk-test" "mj-test"
      (λ _ prompt, prompt) (λ img _, Z.of_nat (String.length img)) Z.ltb
      (Guide.actor_db Samples.world) "dalle" "Rex" "he chases a ball" (Some 3)
    = Guide.Ok returned ∧
    length returned = 3%nat ∧
    StronglySorted (Guide.not_below Z.ltb) returned.
Proof.
  destruct (C7_character_variants (Vec := unit) "sk-test" "mj-test"
              (λ _ prompt, prompt) (λ img _, Z.of_nat (String.length img)) Z.ltb
              (Guide.actor_db Samples.world) "dalle" "Rex" "he chases a ball"
              (Some 3)
              {| Guide.profile_name := "Rex"; Guide.profile_vec := ();
                 Guide.prompt_hint := "a brown terrier" |}
              (Guide.DalleGenerator "sk-test"))
    as (made & returned & Hrun & Hlen & _ & _ & Hperm & Hsorted).
  - intros x y. rewrite Z.ltb_lt, Z.ltb_ge. lia.
  - intros x y z. rewrite !Z.ltb_ge. lia.
  - reflexivity.
  - reflexivity.
  - exists returned. split; [exact Hrun|].
    split; [|exact Hsorted].
    rewrite <- (Permutation_length Hperm). exact Hlen.
Defined.

(** * Further properties, read off the code *)

(** ** The actor store *)

Section ActorStore.

Context {Vec Image : Type}.
Variable encode_image_to_vector : Image → Vec.
Variable blend : Vec → Vec → Vec.

Lemma hint_of_description (desc : string) :
  (if Py.truthy desc then desc else "") = desc.
Proof. by destruct desc. Qed.

Lemma truthy_append_cons (a b : string) (c : ascii) :
  Py.truthy (a +:+ String c b) = true.
Proof. by destruct a. Qed.

Lemma get_profile_Some (db : Guide.ActorProfileDB Vec) (name : string)
    (p : Guide.ActorProfile Vec) :
  Guide.get_profile db name = Some p ↔
  ∃ vec, Guide.vectors db !! name = Some vec ∧
         p = {| Guide.profile_name := name; Guide.profile_vec := vec;
                Guide.prompt_hint := default "" (Guide.metadata db !! name) |}.
Proof.
  unfold Guide.get_profile. destruct (Guide.vectors db !! name) as [vec|].
  - rewrite hint_of_description. split.
    + intros [= <-]. eauto.
    + intros (vec' & [= <-] & ->). done.
  - split; [done|]. by intros (vec & ? & _).
Qed.

Lemma update_actor_vectors_dom (db : Guide.ActorProfileDB Vec) (name : string)
    (new_image : option Image) (notes : string) (who : string) :
  is_Some (Guide.vectors
             (Guide.update_actor encode_image_to_vector blend db name new_image notes)
           !! who)
  ↔ is_Some (Guide.vectors db !! who).
Proof.
  unfold Guide.update_actor.
  destruct (Guide.vectors db !! name) as [old|] eqn:Hname; [|done].
  destruct new_image as [img|]; cbn; [|done].
  destruct (decide (who = name)) as [->|Hne].
  - rewrite lookup_insert_eq, Hname. split; eauto.
  - by rewrite lookup_insert_ne.
Qed.

Lemma update_actor_other (db : Guide.ActorProfileDB Vec) (name : string)
    (new_image : option Image) (notes : string) (who : string) :
  who ≠ name →
  Guide.get_profile
    (Guide.update_actor encode_image_to_vector blend db name new_image notes) who
  = Guide.get_profile db who.
Proof.
  intros Hne. unfold Guide.update_actor.
  destruct (Guide.vectors db !! name) as [old|]; [|done].
  unfold Guide.get_profile. cbn.
  assert (∀ (m : gmap string Vec) v, <[name := v]> m !! who = m !! who) as Hvec
    by (intros; by apply lookup_insert_ne).
  assert (∀ (m : gmap string string) v, <[name := v]> m !! who = m !! who) as Hmeta
    by (intros; by apply lookup_insert_ne).
  destruct new_image, (Py.truthy notes); by rewrite ?Hvec, ?Hmeta.
Qed.

End ActorStore.

(** X1.  After [add_actor], [get_profile] finds the actor under the name it
    was stored with and gives the description back as the prompt hint (a
    second [add_actor] with the same name replaces the first); the profile
    of every other name is as before. *)
Theorem X1_add_actor_then_get_profile {Vec Image : Type}
    (encode_image_to_vector : Image → Vec) (zeros : Vec)
    (vadd : Vec → Vec → Vec) (vdiv : Vec → nat → Vec) (random_vec : Vec)
    (db : Guide.ActorProfileDB Vec) (name : string) (images : list Image)
    (description : string) :
  let add := GuideStore.add_actor encode_image_to_vector zeros vadd vdiv random_vec in
  (∃ vec,
     Guide.get_profile (add db name images description) name
     = Some {| Guide.profile_name := name; Guide.profile_vec := vec;
               Guide.prompt_hint := description |} ∧
     (images = [] → vec = random_vec)) ∧
  (∀ images' description',
     Guide.prompt_hint <$>
       Guide.get_profile (add (add db name images description)
                              name images' description') name
     = Some description') ∧
  (∀ other, other ≠ name →
     Guide.get_profile (add db name images description) other
     = Guide.get_profile db other).
Proof.
  cbn zeta. split; [|split].
  - eexists. unfold Guide.get_profile, GuideStore.add_actor. cbn.
    rewrite !lookup_insert_eq. cbn. rewrite hint_of_description.
    split; [done|]. by intros ->.
  - intros images' description'.
    unfold Guide.get_profile, GuideStore.add_actor. cbn.
    rewrite !lookup_insert_eq. cbn. by rewrite hint_of_description.
  - intros other Hne. unfold Guide.get_profile, GuideStore.add_actor. cbn.
    by rewrite !lookup_insert_ne.
Qed.

(** X2.  [update_actor] never adds or removes a profile and never touches
    another actor: the names [get_profile] finds are the same before and
    after, the profiles of all other names are unchanged, and an update for
    a name that is not in the store changes nothing at all. *)
Theorem X2_update_actor_keeps_the_cast {Vec Image : Type}
    (encode_image_to_vector : Image → Vec) (blend : Vec → Vec → Vec)
    (db : Guide.ActorProfileDB Vec) (name : string)
    (new_image : option Image) (feedback_notes : string) :
  let db' :=
    Guide.update_actor encode_image_to_vector blend db name new_image feedback_notes in
  (∀ who, is_Some (Guide.get_profile db' who) ↔ is_Some (Guide.get_profile db who)) ∧
  (∀ who, who ≠ name → Guide.get_profile db' who = Guide.get_profile db who) ∧
  (Guide.get_profile db name = None → db' = db).
Proof.
  cbn zeta. split; [|split].
  - intros who.
    pose proof (update_actor_vectors_dom encode_image_to_vector blend db name
                  new_image feedback_notes who) as Hdom.
    unfold Guide.get_profile.
    destruct (Guide.vectors (Guide.update_actor _ _ db name _ _) !! who),
             (Guide.vectors db !! who); split; intros H; try done.
    + destruct Hdom as [Hdom _]. by destruct Hdom.
    + destruct Hdom as [_ Hdom]. by destruct Hdom.
  - intros who. apply update_actor_other.
  - unfold Guide.get_profile, Guide.update_actor.
    by destruct (Guide.vectors db !! name).
Qed.

(** X3.  Feedback notes for a known actor are appended to the actor's
    description after a space, and [get_profile] then returns the longer
    hint with the same vector; a second round of notes is appended after
    the first. *)
Theorem X3_update_actor_appends_notes {Vec Image : Type}
    (encode_image_to_vector : Image → Vec) (blend : Vec → Vec → Vec)
    (db : Guide.ActorProfileDB Vec) (name : string)
    (profile : Guide.ActorProfile Vec) (notes more_notes : string) :
  Guide.get_profile db name = Some profile →
  notes ≠ "" →
  more_notes ≠ "" →
  let update db notes :=
    Guide.update_actor encode_image_to_vector blend db name None notes in
  Guide.get_profile (update db notes) name
  = Some {| Guide.profile_name := name;
            Guide.profile_vec := Guide.profile_vec profile;
            Guide.prompt_hint := Guide.prompt_hint profile +:+ " " +:+ notes |} ∧
  Guide.get_profile (update (update db notes) more_notes) name
  = Some {| Guide.profile_name := name;
            Guide.profile_vec := Guide.profile_vec profile;
            Guide.prompt_hint :=
              (Guide.prompt_hint profile +:+ " " +:+ notes) +:+ " " +:+ more_notes |}.
Proof.
  intros Hprofile Hnotes Hmore. cbn zeta.
  assert (∀ db0 p0 t,
            Guide.get_profile db0 name = Some p0 → t ≠ "" →
            Guide.get_profile
              (Guide.update_actor encode_image_to_vector blend db0 name None t) name
            = Some {| Guide.profile_name := name;
                      Guide.profile_vec := Guide.profile_vec p0;
                      Guide.prompt_hint := Guide.prompt_hint p0 +:+ " " +:+ t |})
    as Hstep.
  { intros db0 p0 t Hp Ht.
    apply get_profile_Some in Hp as (vec & Hvec & ->).
    apply get_profile_Some. exists vec.
    unfold Guide.update_actor. rewrite Hvec.
    rewrite (proj2 (py_truthy_nonempty t)) by done. cbn.
    split; [done|]. by rewrite lookup_insert_eq. }
  split; [by apply Hstep|].
  rewrite (Hstep _ _ more_notes (Hstep _ _ notes Hprofile Hnotes) Hmore). done.
Qed.

Lemma X3_update_actor_appends_notes_witness :
  Guide.prompt_hint <$>
    Guide.get_profile
      (Guide.update_actor (λ _ : string, ()) (λ _ _, ()) MoreSamples.store "Rex" None
         "Rex should look more alert")
      "Rex"
  = Some "a brown terrier Rex should look more alert".
Proof.
  rewrite (proj1 (X3_update_actor_appends_notes (λ _ : string, ()) (λ _ _, ())
                    MoreSamples.store "Rex"
                    {| Guide.profile_name := "Rex"; Guide.profile_vec := ();
                       Guide.prompt_hint := "a brown terrier" |}
                    "Rex should look more alert" "less fur"
                    eq_refl ltac:(discriminate) ltac:(discriminate))).
  reflexivity.
Defined.

(** ** More on the feedback loop *)

Section RefineFrameMore.

Context {Vec Image : Type}.
Variable encode_image_to_vector : Image → Vec.
Variable blend : Vec → Vec → Vec.
Variable generate_frame_image :
  string → list string → string → Guide.ActorProfileDB Vec → Image.

Lemma db_eta (db : Guide.ActorProfileDB Vec) :
  {| Guide.vectors := Guide.vectors db; Guide.metadata := Guide.metadata db |} = db.
Proof. by destruct db. Qed.

(** What one step of the loop over the frame's actors can change. *)
Lemma note_feedback_effect (t : string) (db : Guide.ActorProfileDB Vec)
    (actor : string) :
  let db' := Guide.note_feedback encode_image_to_vector blend t db actor in
  Guide.vectors db' = Guide.vectors db ∧
  (Py.contains t "more" = false → Py.contains t "less" = false → db' = db) ∧
  (∀ who, who ≠ actor ∨ Py.contains t who = false →
          Guide.metadata db' !! who = Guide.metadata db !! who).
Proof.
  cbn zeta. unfold Guide.note_feedback, Guide.update_actor.
  destruct (Py.contains t actor) eqn:Hactor; [|by repeat split].
  destruct (Py.contains t "more" || Py.contains t "less") eqn:Hwords.
  - destruct (Guide.vectors db !! actor); [|by repeat split; intros; congruence].
    destruct (Py.truthy t); cbn.
    + split; [done|]. split.
      * intros Hmore Hless. by rewrite Hmore, Hless in Hwords.
      * intros who [Hne | Hout]; [by rewrite lookup_insert_ne|].
        rewrite lookup_insert_ne; [done|]. intros ->. congruence.
    + split; [done|]. split; [intros _ _; apply db_eta | done].
  - by repeat split.
Qed.

Lemma noted_effect (t : string) (actors : list string)
    (db : Guide.ActorProfileDB Vec) :
  let db' :=
    foldl (Guide.note_feedback encode_image_to_vector blend t) db actors in
  Guide.vectors db' = Guide.vectors db ∧
  (Py.contains t "more" = false → Py.contains t "less" = false → db' = db) ∧
  (∀ who, who ∉ actors ∨ Py.contains t who = false →
          Guide.metadata db' !! who = Guide.metadata db !! who).
Proof.
  cbn zeta. revert db. induction actors as [|actor actors IH]; intros db.
  { by repeat split. }
  cbn [foldl].
  destruct (note_feedback_effect t db actor) as (Hvec & Hsame & Hmeta).
  destruct (IH (Guide.note_feedback encode_image_to_vector blend t db actor))
    as (Hvec' & Hsame' & Hmeta').
  split; [congruence|]. split.
  - intros Hmore Hless. rewrite Hsame' by done. by apply Hsame.
  - intros who Hwho. rewrite Hmeta'.
    + apply Hmeta. destruct Hwho as [Hout | Hno]; [|by right].
      left. intros ->. apply Hout. by left.
    + destruct Hwho as [Hout | Hno]; [|by right].
      left. intros Hin. apply Hout. by right.
Qed.

(** A successful run lays its steps bare. *)
Lemma refine_frame_Ok (idx : Z) (t : string) (w w' : Guide.World Vec Image)
    (img : Image) :
  Guide.refine_frame encode_image_to_vector blend generate_frame_image idx t w
  = Guide.Ok (img, w') →
  ∃ d actors images,
    Py.getitem (Guide.storyboard_frames w) idx = Some d ∧
    Guide.frames_to_actors w idx = Some actors ∧
    Py.setitem (Guide.storyboard_images w) idx img = Some images ∧
    img = generate_frame_image (d +:+ ". Note: " +:+ t) actors
            (Guide.current_model w) (Guide.actor_db w') ∧
    w' = {| Guide.storyboard_frames := Guide.storyboard_frames w;
            Guide.frames_to_actors := Guide.frames_to_actors w;
            Guide.storyboard_images := images;
            Guide.actor_db :=
              foldl (Guide.note_feedback encode_image_to_vector blend t)
                    (Guide.actor_db w) actors;
            Guide.current_model := Guide.current_model w |}.
Proof.
  unfold Guide.refine_frame.
  destruct (Py.getitem (Guide.storyboard_frames w) idx) as [d|]; [|done].
  cbn. destruct (Guide.frames_to_actors w idx) as [actors|]; [|done].
  cbn. destruct (Py.setitem _ idx _) as [images|] eqn:Hset; [|done].
  cbn. intros [= <- <-]. by exists d, actors, images.
Qed.

End RefineFrameMore.

(** X4.  Feedback does not accumulate in the prompt: [refine_frame] never
    writes the revised description back, so a second round of feedback on
    the same frame builds its prompt from the original description and the
    second text alone, and the image of the first round is overwritten. *)
Theorem X4_refine_frame_twice {Vec Image : Type}
    (encode_image_to_vector : Image → Vec) (blend : Vec → Vec → Vec)
    (generate_frame_image :
       string → list string → string → Guide.ActorProfileDB Vec → Image)
    (w : Guide.World Vec Image) (i : nat) (d first second : string)
    (actors : list string) :
  Guide.storyboard_frames w !! i = Some d →
  Guide.frames_to_actors w (Z.of_nat i) = Some actors →
  (i < length (Guide.storyboard_images w))%nat →
  let refine := Guide.refine_frame encode_image_to_vector blend generate_frame_image in
  ∃ image1 w1 image2 w2,
    refine (Z.of_nat i) first w = Guide.Ok (image1, w1) ∧
    refine (Z.of_nat i) second w1 = Guide.Ok (image2, w2) ∧
    image2 = generate_frame_image (d +:+ ". Note: " +:+ second) actors
               (Guide.current_model w) (Guide.actor_db w2) ∧
    Guide.storyboard_frames w2 = Guide.storyboard_frames w ∧
    Guide.storyboard_images w2 = <[i := image2]> (Guide.storyboard_images w).
Proof.
  intros Hd Ha Hi. cbn zeta.
  eexists _, _, _, _. split; [by apply refine_frame_run|].
  split.
  - apply refine_frame_run; cbn; [done | done |]. by rewrite length_insert.
  - cbn. split; [done|]. split; [done|]. apply list_insert_insert_eq.
Qed.

Lemma X4_refine_frame_twice_witness :
  ∃ image1 w1 w2,
    Guide.refine_frame (λ _ : string, ()) (λ _ _, ()) Samples.render 0
      "make it sunset" Samples.world = Guide.Ok (image1, w1) ∧
    Guide.refine_frame (λ _ : string, ()) (λ _ _, ()) Samples.render 0
      "at night" w1
    = Guide.Ok ("image of: A dog runs on the beach. Note: at night", w2).
Proof.
  destruct (X4_refine_frame_twice (λ _ : string, ()) (λ _ _, ()) Samples.render
              Samples.world 0 "A dog runs on the beach" "make it sunset" "at night"
              ["Rex"] eq_refl eq_refl ltac:(cbn; lia))
    as (image1 & w1 & image2 & w2 & Hfirst & Hsecond & Himage & _).
  exists image1, w1, w2. split; [exact Hfirst|].
  rewrite Himage in Hsecond. exact Hsecond.
Defined.

(** X5.  A frame index outside the storyboard raises IndexError: at or
    beyond the number of frame descriptions, or more negative than their
    number. *)
Theorem X5_refine_frame_index_out_of_range {Vec Image : Type}
    (encode_image_to_vector : Image → Vec) (blend : Vec → Vec → Vec)
    (generate_frame_image :
       string → list string → string → Guide.ActorProfileDB Vec → Image)
    (w : Guide.World Vec Image) (frame_index : Z) (feedback_text : string) :
  let n := Z.of_nat (length (Guide.storyboard_frames w)) in
  frame_index < - n ∨ n ≤ frame_index →
  Guide.refine_frame encode_image_to_vector blend generate_frame_image
    frame_index feedback_text w
  = Guide.Raise Py.IndexError.
Proof.
  cbn zeta. intros Hout. unfold Guide.refine_frame, Py.getitem.
  rewrite bool_decide_eq_false_2 by lia.
  rewrite bool_decide_eq_false_2 by lia. done.
Qed.

Lemma X5_refine_frame_index_out_of_range_witness :
  Guide.refine_frame (λ _ : string, ()) (λ _ _, ()) Samples.render 2 "closer"
    Samples.world
  = Guide.Raise Py.IndexError.
Proof.
  apply (X5_refine_frame_index_out_of_range (λ _ : string, ()) (λ _ _, ())
           Samples.render Samples.world 2 "closer").
  right. cbn. lia.
Defined.

(** X6.  A negative frame index counts from the end, as Python list
    indexing does: with n descriptions and n images, index -k (1 <= k <= n)
    refines the frame at position n - k, provided the actor lookup answers
    for -k. *)
Theorem X6_refine_frame_negative_index {Vec Image : Type}
    (encode_image_to_vector : Image → Vec) (blend : Vec → Vec → Vec)
    (generate_frame_image :
       string → list string → string → Guide.ActorProfileDB Vec → Image)
    (w : Guide.World Vec Image) (k : nat) (d t : string) (actors : list string) :
  let n := length (Guide.storyboard_frames w) in
  length (Guide.storyboard_images w) = n →
  (1 ≤ k ≤ n)%nat →
  Guide.storyboard_frames w !! (n - k)%nat = Some d →
  Guide.frames_to_actors w (- Z.of_nat k) = Some actors →
  ∃ new_image w',
    Guide.refine_frame encode_image_to_vector blend generate_frame_image
      (- Z.of_nat k) t w = Guide.Ok (new_image, w') ∧
    new_image = generate_frame_image (d +:+ ". Note: " +:+ t) actors
                  (Guide.current_model w) (Guide.actor_db w') ∧
    Guide.storyboard_images w' = <[(n - k)%nat := new_image]> (Guide.storyboard_images w).
Proof.
  cbn zeta. intros Hlen Hk Hd Ha.
  eexists _, _. unfold Guide.refine_frame, Py.getitem, Py.setitem.
  rewrite Hlen.
  rewrite !(bool_decide_eq_false_2 (0 ≤ _ < _)) by lia.
  rewrite !bool_decide_eq_true_2 by lia.
  replace (Z.to_nat (Z.of_nat (length (Guide.storyboard_frames w)) + - Z.of_nat k))
    with (length (Guide.storyboard_frames w) - k)%nat by lia.
  rewrite Hd. cbn. rewrite Ha. cbn. done.
Qed.

Lemma X6_refine_frame_negative_index_witness :
  ∃ w',
    Guide.refine_frame (λ _ : string, ()) (λ _ _, ()) Samples.render (-1) "at dusk"
      Samples.world
    = Guide.Ok ("image of: A cat sits on a wall. Note: at dusk", w') ∧
    Guide.storyboard_images w'
    = ["dog-v1"; "image of: A cat sits on a wall. Note: at dusk"].
Proof.
  destruct (X6_refine_frame_negative_index (λ _ : string, ()) (λ _ _, ())
              Samples.render Samples.world 1 "A cat sits on a wall" "at dusk" []
              eq_refl ltac:(cbn; lia) eq_refl eq_refl)
    as (new_image & w' & Hrun & Himage & Himages).
  exists w'. rewrite Himage in Hrun. split; [exact Hrun|].
  rewrite Himages, Himage. reflexivity.
Defined.

(** X7.  What [refine_frame] does to the actor store.  It never changes or
    adds a vector.  It changes nothing at all unless the feedback contains
    "more" or "less".  And it leaves alone the notes of every actor who is
    not in the frame, or whose name does not occur in the feedback. *)
Theorem X7_refine_frame_actor_store {Vec Image : Type}
    (encode_image_to_vector : Image → Vec) (blend : Vec → Vec → Vec)
    (generate_frame_image :
       string → list string → string → Guide.ActorProfileDB Vec → Image)
    (w w' : Guide.World Vec Image) (frame_index : Z) (feedback_text : string)
    (new_image : Image) :
  Guide.refine_frame encode_image_to_vector blend generate_frame_image
    frame_index feedback_text w
  = Guide.Ok (new_image, w') →
  Guide.vectors (Guide.actor_db w') = Guide.vectors (Guide.actor_db w) ∧
  (Py.contains feedback_text "more" = false →
   Py.contains feedback_text "less" = false →
   Guide.actor_db w' = Guide.actor_db w) ∧
  (∀ who actors,
     Guide.frames_to_actors w frame_index = Some actors →
     who ∉ actors ∨ Py.contains feedback_text who = false →
     Guide.metadata (Guide.actor_db w') !! who
     = Guide.metadata (Guide.actor_db w) !! who).
Proof.
  intros Hrun.
  apply refine_frame_Ok in Hrun as (d & actors & images & _ & Ha & _ & _ & ->).
  cbn.
  destruct (noted_effect encode_image_to_vector blend feedback_text actors
              (Guide.actor_db w)) as (Hvec & Hsame & Hmeta).
  split; [done|]. split; [done|].
  intros who actors' Ha' Hwho. rewrite Ha in Ha'. injection Ha' as <-.
  by apply Hmeta.
Qed.

Lemma X7_refine_frame_actor_store_witness :
  Guide.vectors (Guide.actor_db MoreSamples.alerted) = Guide.vectors MoreSamples.store ∧
  Guide.metadata (Guide.actor_db MoreSamples.alerted) !! "Rex"
  = Some "a brown terrier Rex should look more alert".
Proof.
  split; [|reflexivity].
  exact (proj1 (X7_refine_frame_actor_store (λ _ : string, ()) (λ _ _, ())
                  Samples.render Samples.world MoreSamples.alerted 0
                  "Rex should look more alert"
                  "image of: A dog runs on the beach. Note: Rex should look more alert"
                  eq_refl)).
Defined.

(** ** The story development pipeline *)

Section StoryPipelineFacts.

Import StoryPipeline.

Context {Concept Questions Answers Evaluation Character Scene : Type}.

Let Data : Type := ProjectData Concept Questions Answers Evaluation Character Scene.

Variable generate_interview_questions : option Data → string → Questions.
Variable evaluate_answers : Questions → Answers → Evaluation.
Variable extracted_characters : Answers → list (string * Character).

Let process :=
  process_answers generate_interview_questions evaluate_answers
    extracted_characters.

(** One round at a stage [k] other than scene_breakdowns: the pipeline
    moves on by one stage, or stays on the last one and hands out no
    further questions. *)
Lemma process_answers_step (questions : Questions) (answers : Answers)
    (k : nat) (data : Data) :
  (k < 7)%nat → k ≠ 3%nat →
  ∃ out data',
    process questions answers
      {| current_stage := Z.of_nat k; project_data := Some data |}
    = Guide.Ok (out, {| current_stage := Z.of_nat (Nat.min (S k) 6);
                        project_data := Some data' |}) ∧
    (fst out = None ↔ k = 6%nat) ∧
    snd out = evaluate_answers questions answers.
Proof.
  intros Hk Hscene. unfold process.
  do 7 (destruct k as [|k];
        [first
           [ done
           | eexists _, _; split; [reflexivity|]; split; [|reflexivity];
             cbn; split; intros; (done || lia) ]|]).
  lia.
Qed.


End StoryPipelineFacts.






(** ** The consultation agent *)

Section AgentFacts.

Lemma zip_ignores_extra_r {A B} (l : list A) (k extra : list B) :
  (length l ≤ length k)%nat → zip l (k ++ extra) = zip l k.
Proof.
  revert k. induction l as [|x l IH]; intros [|y k] Hlen; cbn in *;
    [done | done | lia |].
  f_equal. apply IH. lia.
Qed.

Lemma zip_ignores_extra_l {A B} (l extra : list A) (k : list B) :
  (length k ≤ length l)%nat → zip (l ++ extra) k = zip l k.
Proof.
  revert k. induction l as [|x l IH]; intros [|y k] Hlen; cbn in *;
    [by destruct extra | lia | done |].
  f_equal. apply IH. lia.
Qed.

Lemma zip_take_both {A B} (l : list A) (k : list B) :
  zip (take (Nat.min (length l) (length k)) l)
      (take (Nat.min (length l) (length k)) k)
  = zip l k.
Proof.
  revert k. induction l as [|x l IH]; intros [|y k]; cbn; [done..|].
  f_equal. apply IH.
Qed.

End AgentFacts.

(** X11.  [evaluate_answers] pairs questions with answers by [zip]: only
    the first min(#questions, #answers) of each reach the prompt.  Answers
    beyond the last question, and questions beyond the last answer, leave
    the prompt as it is. *)
Theorem X11_evaluation_prompt_pairs_up (questions answers : list string) :
  let n := Nat.min (length questions) (length answers) in
  GuideStore.evaluation_prompt questions answers
  = GuideStore.evaluation_prompt (take n questions) (take n answers) ∧
  (∀ extra, (length questions ≤ length answers)%nat →
     GuideStore.evaluation_prompt questions (answers ++ extra)
     = GuideStore.evaluation_prompt questions answers) ∧
  (∀ extra, (length answers ≤ length questions)%nat →
     GuideStore.evaluation_prompt (questions ++ extra) answers
     = GuideStore.evaluation_prompt questions answers).
Proof.
  cbn zeta. unfold GuideStore.evaluation_prompt. split; [|split].
  - by rewrite zip_take_both.
  - intros extra Hlen. by rewrite zip_ignores_extra_r.
  - intros extra Hlen. by rewrite zip_ignores_extra_l.
Qed.

Example evaluation_prompt_sample :
  GuideStore.evaluation_prompt ["Why now?"; "Who wants what?"] ["Because."]
  = "As a film professor, evaluate these answers to screenwriting questions:"
    +:+ Guide.nl +:+ Guide.nl
    +:+ "Question: Why now?" +:+ Guide.nl +:+ "Answer: Because." +:+ Guide.nl +:+ Guide.nl
    +:+ GuideStore.evaluation_closing.
Proof. reflexivity. Qed.

(** X12.  The question categories of [generate_interview_questions] fall
    back to those of the "initial" stage for every stage name that is not
    one of its four keys.  Of the seven stages the story pipeline asks for,
    only "plot_structure" is such a key, so the other six get the initial
    categories. *)
Theorem X12_categories_fall_back_to_initial :
  GuideStore.selected_categories "initial"
  = ["genre and inspiration"; "thematic elements"; "core conflict";
     "audience and purpose"] ∧
  (∀ stage,
     stage ∉ ["initial"; "character_development"; "plot_structure"; "visual_style"] →
     GuideStore.selected_categories stage = GuideStore.selected_categories "initial") ∧
  (∀ stage,
     stage ∈ StoryPipeline.development_stages →
     stage ≠ "plot_structure" →
     GuideStore.selected_categories stage = GuideStore.selected_categories "initial").
Proof.
  split; [reflexivity|]. split.
  - intros stage Hout. rewrite !elem_of_cons in Hout.
    assert (∀ fallback,
              GuideStore.dict_get GuideStore.question_categories stage fallback
              = fallback) as Hmiss.
    { intros fallback. cbn [GuideStore.question_categories GuideStore.dict_get].
      rewrite !bool_decide_eq_false_2; [reflexivity|..]; intros <-; tauto. }
    unfold GuideStore.selected_categories at 1. by rewrite Hmiss.
  - intros stage Hin Hne. unfold StoryPipeline.development_stages in Hin.
    rewrite !elem_of_cons in Hin.
    destruct Hin as [->|[->|[->|[->|[->|[->|[->|Hnil]]]]]]];
      try reflexivity; [done | by apply elem_of_nil in Hnil].
Qed.

(** ** More on the storyboard page *)

Section StoryboardMore.

Import StoryboardView.

Lemma generating_flag (f : gmap string bool → gmap string bool) (s : State) :
  generatingImage (setGeneratingImage f s) = f (generatingImage s).
Proof. done. Qed.

(** The frames written by a successful image generation. *)
Lemma map_with_image_lookup (frames0 : list Frame) (id url : string) (k : nat)
    (f : Frame) :
  frames0 !! k = Some f →
  map (λ g, if bool_decide (frame_id g = id) then with_image (Some url) g else g)
      frames0 !! k
  = Some (if bool_decide (frame_id f = id) then with_image (Some url) f else f).
Proof.
  intros Hk. change (map ?h ?l) with (h <$> l). by rewrite list_lookup_fmap, Hk.
Qed.

End StoryboardMore.

(** X13.  Generating the image of a real (non-placeholder) frame sends
    exactly one request, carrying the frame's description and its actors (an
    empty list when it has none), and however the request ends the frame's
    "generating" flag is false afterwards.  A failed request sets the error
    and leaves the frames as they were; an answer without a non-empty image
    URL changes neither.  An answer with a URL stores it in the frames with
    this frame's id and in no other frame. *)
Theorem X13_generate_image_outcomes (projectId : string)
    (frame : StoryboardView.Frame)
    (response : Js.outcome (option StoryboardView.GenerateData) unit)
    (s : StoryboardView.State) :
  StoryboardView.is_placeholder frame = false →
  let result := StoryboardView.handleGenerateImage projectId frame response s in
  let usable :=
    match response with
    | Js.Resolved (Some data) =>
        match StoryboardView.gen_image_url data with
        | Some url => if Js.truthy url then Some url else None
        | None => None
        end
    | _ => None
    end in
  snd result
  = [StoryboardView.GenerateFrameImage projectId (StoryboardView.frame_id frame)
       {| StoryboardView.gen_description := StoryboardView.description frame;
          StoryboardView.gen_actor_names := default [] (StoryboardView.actors frame) |}] ∧
  StoryboardView.generatingImage (fst result) !! StoryboardView.frame_id frame
  = Some false ∧
  StoryboardView.error (fst result)
  = match response with
    | Js.Rejected _ => Some "Failed to generate image. Please try again."
    | Js.Resolved _ => StoryboardView.error s
    end ∧
  (usable = None → StoryboardView.frames (fst result) = StoryboardView.frames s) ∧
  (∀ url (k : nat) f,
     usable = Some url →
     StoryboardView.frames s !! k = Some f →
     StoryboardView.frames (fst result) !! k
     = Some (if bool_decide (StoryboardView.frame_id f = StoryboardView.frame_id frame)
             then StoryboardView.with_image (Some url) f else f)).
Proof.
  intros Hreal. cbn zeta. unfold StoryboardView.handleGenerateImage. rewrite Hreal.
  destruct response as [[[[url|]]|]|e]; cbn;
    try destruct (Js.truthy url) eqn:Hurl; cbn;
    (split; [done|]); (split; [apply lookup_insert_eq|]); (split; [done|]);
    (split; [try done|]); intros url' k f Husable Hk; try done.
  injection Husable as <-. by apply map_with_image_lookup.
Qed.

Lemma X13_generate_image_outcomes_witness :
  StoryboardView.image_url <$>
    StoryboardView.frames
      (fst (StoryboardView.handleGenerateImage "p1" Samples.frame2
              (Js.Resolved (Some {| StoryboardView.gen_image_url :=
                                      Some "/frame-images/f2-v2.png" |}))
              (Samples.giving_feedback "")))
  = [Some "/frame-images/f1-v1.png"; Some "/frame-images/f2-v2.png"] ∧
  StoryboardView.generatingImage
    (fst (StoryboardView.handleGenerateImage "p1" Samples.frame2 (Js.Rejected ())
            (Samples.giving_feedback "")))
  !! "f2" = Some false.
Proof.
  split; [reflexivity|].
  exact (proj1 (proj2 (X13_generate_image_outcomes "p1" Samples.frame2 (Js.Rejected ())
                         (Samples.giving_feedback "") eq_refl))).
Defined.

(** X14.  A feedback submission that fails loses nothing: the frames, the
    selected frame, the open modal, the typed text and the chosen actors
    are as before, the user is alerted once, and the submitting flag is
    off again.  One that succeeds appends the text to the feedback history
    of the frames with the selected frame's id, clears the text and the
    chosen actors, and closes the modal. *)
Theorem X14_feedback_submission_outcomes
    (response : Js.outcome StoryboardView.FeedbackData unit) (now : string)
    (s : StoryboardView.State) (sel : StoryboardView.Frame) :
  StoryboardView.selectedFrame s = Some sel →
  Js.trim (StoryboardView.feedbackText s) ≠ "" →
  let result := StoryboardView.handleFeedbackSubmit response now s in
  StoryboardView.submittingFeedback (fst result) = false ∧
  StoryboardView.selectedFrame (fst result) = Some sel ∧
  match response with
  | Js.Rejected _ =>
      StoryboardView.frames (fst result) = StoryboardView.frames s ∧
      StoryboardView.showFeedbackModal (fst result) = StoryboardView.showFeedbackModal s ∧
      StoryboardView.feedbackText (fst result) = StoryboardView.feedbackText s ∧
      StoryboardView.selectedActors (fst result) = StoryboardView.selectedActors s ∧
      ∃ request, snd result = [request; StoryboardView.Alert "Failed to submit feedback"]
  | Js.Resolved data =>
      StoryboardView.showFeedbackModal (fst result) = false ∧
      StoryboardView.feedbackText (fst result) = "" ∧
      StoryboardView.selectedActors (fst result) = [] ∧
      ∀ (k : nat) f,
        StoryboardView.frames s !! k = Some f →
        StoryboardView.frame_id f = StoryboardView.frame_id sel →
        ∃ f',
          StoryboardView.frames (fst result) !! k = Some f' ∧
          StoryboardView.feedback_history f'
          = Some (default [] (StoryboardView.feedback_history f)
                  ++ [{| StoryboardView.text := StoryboardView.feedbackText s;
                         StoryboardView.timestamp := now |}])
  end.
Proof.
  intros Hsel Htext. cbn zeta. destruct response as [data|e].
  - rewrite (feedback_submit_run data now s sel) by done. cbn.
    repeat (split; [done|]). intros k f Hk Hid.
    change (map ?h ?l) with (h <$> l). rewrite list_lookup_fmap, Hk. cbn.
    rewrite bool_decide_eq_true_2 by done. eauto.
  - unfold StoryboardView.handleFeedbackSubmit. rewrite Hsel.
    rewrite truthy_nonempty by done. cbn. repeat (split; [done|]). eauto.
Qed.

Lemma X14_feedback_submission_outcomes_witness :
  StoryboardView.feedbackText
    (fst (StoryboardView.handleFeedbackSubmit (Js.Rejected ())
            "2025-01-01T00:00:00.000Z" (Samples.giving_feedback "make it sunset")))
  = "make it sunset".
Proof.
  destruct (X14_feedback_submission_outcomes (Js.Rejected ())
              "2025-01-01T00:00:00.000Z" (Samples.giving_feedback "make it sunset")
              Samples.frame1 eq_refl ltac:(discriminate))
    as (_ & _ & _ & _ & Htext & _).
  exact Htext.
Defined.

Section PlaceholderIds.

Import StoryboardView.

Lemma placeholder_id_inj (pg : Z) (n i j : nat) :
  frame_id (placeholder pg n i) = frame_id (placeholder pg n j) → i = j.
Proof.
  cbn. intros Heq.
  apply (inj (String.append "placeholder-")) in Heq.
  apply (inj (String.append (pretty pg))) in Heq.
  apply (inj (String.append "-")) in Heq.
  apply (inj pretty) in Heq. lia.
Qed.

Lemma imap_placeholder_ids (pg : Z) (n m : nat) :
  frame_id <$> imap (λ i _, placeholder pg n i) (replicate m ())
  = (λ i, frame_id (placeholder pg n i)) <$> seq 0 m.
Proof.
  apply list_eq. intros i.
  rewrite !list_lookup_fmap, list_lookup_imap.
  destruct (decide (i < m)%nat) as [Hlt|Hge].
  - rewrite lookup_replicate_2, lookup_seq_lt by done. done.
  - rewrite (proj1 (lookup_replicate_None m () i)) by lia.
    by rewrite lookup_seq_ge by lia.
Qed.

End PlaceholderIds.

(** X15.  The placeholders appended to a page have pairwise different
    frame ids (the keys the grid is rendered with), whatever the page
    number and however many frames were fetched. *)
Theorem X15_placeholder_ids_distinct (pg : Z) (fetched : list StoryboardView.Frame) :
  NoDup (StoryboardView.frame_id <$>
           drop (length fetched) (StoryboardView.fill_page pg fetched)).
Proof.
  destruct (decide (length fetched < StoryboardView.framesPerPage)%nat) as [Hlt|Hge].
  - rewrite fill_page_short by done. rewrite drop_app_length.
    rewrite imap_placeholder_ids.
    apply NoDup_fmap_2_strong; [|apply NoDup_seq].
    intros i j _ _. apply placeholder_id_inj.
  - rewrite fill_page_full by done. rewrite drop_all. constructor.
Qed.

(** ** The frame card *)

Section SplitOnCharacter.

(** Splitting on a separator of one character [c]. *)
Variable c : ascii.

Let sep : string := String c "".

Lemma char_prefix (d : ascii) (s : string) :
  String.prefix sep (String d s) = bool_decide (c = d).
Proof.
  unfold sep. cbn [String.prefix]. destruct (ascii_dec c d) as [<-|Hne].
  - rewrite prefix_empty. by rewrite bool_decide_eq_true_2.
  - by rewrite bool_decide_eq_false_2.
Qed.

Lemma includes_cons (d : ascii) (s : string) :
  Js.includes (String d s) sep = bool_decide (c = d) || Js.includes s sep.
Proof. cbn [Js.includes]. by rewrite char_prefix. Qed.

Lemma includes_app_sep (a rest : string) :
  Js.includes (a +:+ String c rest) sep = true.
Proof.
  induction a as [|d a IH].
  - rewrite append_empty_l, includes_cons.
    rewrite bool_decide_eq_true_2 by done. apply orb_true_l.
  - rewrite append_cons, includes_cons, IH. apply orb_true_r.
Qed.

Lemma split_go_free (cur a : string) :
  Js.includes a sep = false → Js.split_go sep 0 cur a = [cur +:+ a].
Proof.
  revert cur. induction a as [|d a IH]; intros cur Hfree.
  - cbn. by rewrite append_empty_r.
  - rewrite includes_cons in Hfree. apply orb_false_iff in Hfree as [Hd Ha].
    cbn [Js.split_go]. rewrite char_prefix, Hd.
    rewrite IH by done. by rewrite append_snoc.
Qed.

Lemma split_go_segment (cur a rest : string) :
  Js.includes a sep = false →
  Js.split_go sep 0 cur (a +:+ String c rest)
  = (cur +:+ a) :: Js.split_go sep 0 "" rest.
Proof.
  revert cur. induction a as [|d a IH]; intros cur Hfree.
  - rewrite append_empty_l, append_empty_r. cbn [Js.split_go].
    rewrite char_prefix. by rewrite bool_decide_eq_true_2.
  - rewrite includes_cons in Hfree. apply orb_false_iff in Hfree as [Hd Ha].
    rewrite append_cons. cbn [Js.split_go]. rewrite char_prefix, Hd.
    rewrite IH by done. by rewrite append_snoc.
Qed.

Lemma split_go_nonempty (skip : nat) (cur s : string) :
  Js.split_go sep skip cur s ≠ [].
Proof.
  revert skip cur. induction s as [|d s IH]; intros skip cur;
    cbn [Js.split_go]; [discriminate|].
  destruct skip; [|apply IH]. destruct (String.prefix _ _); [discriminate | apply IH].
Qed.

Lemma join_cons (x : string) (l : list string) :
  l ≠ [] → StoryboardCard.join sep (x :: l) = x +:+ sep +:+ StoryboardCard.join sep l.
Proof. by destruct l. Qed.

(** Joining the pieces with the separator gives the string back. *)
Lemma join_split_go (cur s : string) :
  StoryboardCard.join sep (Js.split_go sep 0 cur s) = cur +:+ s.
Proof.
  revert cur. induction s as [|d s IH]; intros cur.
  - cbn. by rewrite append_empty_r.
  - cbn [Js.split_go]. rewrite char_prefix.
    destruct (decide (c = d)) as [<-|Hne].
    + rewrite bool_decide_eq_true_2 by done.
      change (String.length sep - 1)%nat with 0%nat.
      rewrite join_cons by apply split_go_nonempty.
      rewrite IH. by rewrite append_empty_l.
    + rewrite bool_decide_eq_false_2 by done. rewrite IH. apply append_snoc.
Qed.

End SplitOnCharacter.

(** [split] and [join] are inverse on a one-character separator:
    joining the pieces of [s.split(c)] with [c] gives [s] back, and a
    string without [c] is its own single piece. *)
Lemma join_after_split (c : ascii) (s : string) :
  StoryboardCard.join (String c "") (Js.split s (String c "")) = s ∧
  (Js.includes s (String c "") = false → Js.split s (String c "") = [s]).
Proof.
  split.
  - unfold Js.split. by rewrite join_split_go.
  - intros Hfree. unfold Js.split. by rewrite split_go_free.
Qed.

Section CardText.

Import StoryboardView.

Lemma nl_is_char : Guide.nl = String (ascii_of_nat 10) "".
Proof. reflexivity. Qed.

Lemma append_nonempty_r (a b : string) : b ≠ "" → a +:+ b ≠ "".
Proof. destruct a, b; done. Qed.

End CardText.

(** X16.  A frame card shows a description of several lines in full: the
    first line is the title and everything after the first line break is
    the content, so title, line break and content put together are the
    description again.  Only when nothing follows the first line break does
    the first line become the content, under the title "Frame N". *)
Theorem X16_card_shows_multiline_description (frame : StoryboardView.Frame)
    (first rest : string) :
  StoryboardView.description frame = first +:+ Guide.nl +:+ rest →
  Js.includes first Guide.nl = false →
  (rest ≠ "" → StoryboardCard.cardText frame = (first, rest)) ∧
  (rest = "" → first ≠ "" →
   StoryboardCard.cardText frame = (StoryboardCard.frameLabel frame, first)) ∧
  (rest = "" → first = "" → StoryboardCard.cardText frame = ("", "")).
Proof.
  intros Hdesc Hfirst.
  assert (Js.truthy (StoryboardView.description frame) = true) as Htruthy.
  { rewrite Hdesc. apply truthy_nonempty. by apply append_nonempty_r. }
  assert (StoryboardCard.cardText frame
          = if negb (Js.truthy rest) && Js.truthy first
            then (StoryboardCard.frameLabel frame, first) else (first, rest)) as ->.
  { unfold StoryboardCard.cardText. rewrite Htruthy, Hdesc.
    rewrite nl_is_char in *. rewrite append_cons, append_empty_l.
    rewrite includes_app_sep. unfold Js.split.
    rewrite split_go_segment by done. rewrite append_empty_l.
    cbn [drop Js.template_nth nth fst snd]. rewrite drop_0.
    by rewrite join_split_go, append_empty_l. }
  split; [|split].
  - intros Hrest. rewrite (truthy_nonempty rest) by done. reflexivity.
  - intros -> Hne. rewrite (truthy_nonempty first) by done. reflexivity.
  - by intros -> ->.
Qed.

Lemma X16_card_shows_multiline_description_witness :
  StoryboardCard.cardText MoreSamples.frame_of_lines
  = ("Opening shot", "A train leaves." +:+ Guide.nl +:+ "Night.").
Proof.
  refine (proj1 (X16_card_shows_multiline_description MoreSamples.frame_of_lines
                   "Opening shot" ("A train leaves." +:+ Guide.nl +:+ "Night.")
                   eq_refl eq_refl) _).
  discriminate.
Defined.

(** X17.  For a one-line description with a colon, the card takes the
    trimmed text before the first colon as title and the trimmed text
    between the first and the second colon as content: whatever follows a
    second colon is not shown. *)
Theorem X17_card_drops_text_after_second_colon (frame : StoryboardView.Frame)
    (before between after : string) :
  StoryboardView.description frame = before +:+ ":" +:+ between +:+ ":" +:+ after →
  Js.includes (StoryboardView.description frame) Guide.nl = false →
  Js.includes before ":" = false →
  Js.includes between ":" = false →
  Js.trim between ≠ "" →
  StoryboardCard.cardText frame = (Js.trim before, Js.trim between).
Proof.
  intros Hdesc Hline Hbefore Hbetween Hcontent.
  unfold StoryboardCard.cardText.
  assert (Js.truthy (StoryboardView.description frame) = true) as ->.
  { rewrite Hdesc. apply truthy_nonempty. by apply append_nonempty_r. }
  rewrite Hline. rewrite Hdesc.
  change ":" with (String ":"%char "") in *.
  rewrite !append_cons, !append_empty_l.
  rewrite includes_app_sep. unfold Js.split.
  rewrite split_go_segment by done. rewrite split_go_segment by done.
  rewrite !append_empty_l.
  cbn [take length Js.template_nth nth fst snd].
  rewrite bool_decide_eq_true_2 by lia.
  by rewrite (truthy_nonempty (Js.trim between)).
Qed.

Lemma X17_card_drops_text_after_second_colon_witness :
  StoryboardCard.cardText MoreSamples.frame_of_colons = ("Scene 3", "INT. HOUSE").
Proof.
  exact (X17_card_drops_text_after_second_colon MoreSamples.frame_of_colons
           "Scene 3" " INT. HOUSE" " night, rain"
           eq_refl eq_refl eq_refl eq_refl ltac:(discriminate)).
Defined.

(** ** The actor list and its form *)

(** X18.  After the actors have been fetched, every actor in the list has
    an images array: an actor that came with one keeps it, one that came
    without gets its image paths, or an empty array when it has neither.
    Number, order and names of the actors are those of the response. *)
Theorem X18_fetched_actors_have_images (data : list ActorList.Actor)
    (s : ActorList.State) :
  let s' := fst (ActorList.fetchActors (Js.Resolved data) s) in
  length (ActorList.actors s') = length data ∧
  Forall (λ actor, is_Some (ActorList.actor_images actor)) (ActorList.actors s') ∧
  (∀ (k : nat) actor,
     data !! k = Some actor →
     ∃ shown,
       ActorList.actors s' !! k = Some shown ∧
       ActorList.actor_name shown = ActorList.actor_name actor ∧
       ActorList.actor_images shown
       = Some match ActorList.actor_images actor with
              | Some imgs => imgs
              | None => default [] (ActorList.image_paths actor)
              end) ∧
  ActorList.loading s' = false ∧
  ActorList.error s' = None.
Proof.
  cbn zeta. cbn [ActorList.fetchActors fst ActorList.actors ActorList.setLoading
                 ActorList.setActors ActorList.setError ActorList.loading
                 ActorList.error].
  split; [apply length_map|]. split; [|split; [|done]].
  - apply Forall_forall. intros actor Hin.
    change (map ?h ?l) with (h <$> l) in Hin.
    apply list_elem_of_fmap in Hin as (a & -> & _).
    unfold ActorList.process_actor. destruct (ActorList.actor_images a) eqn:Himgs.
    + rewrite Himgs. eauto.
    + cbn. eauto.
  - intros k actor Hk. change (map ?h ?l) with (h <$> l).
    rewrite list_lookup_fmap, Hk. cbn. eexists. split; [done|].
    unfold ActorList.process_actor.
    destruct (ActorList.actor_images actor) eqn:Himgs; cbn; by rewrite ?Himgs.
Qed.

(** X19.  What becomes of a valid actor form.  When the create request
    succeeds the form is emptied, the modal closed and the actor list
    fetched again.  When it fails everything the user entered is kept, the
    modal stays open, the actor list is untouched and the error shown is the
    server's detail, or 'Failed to create actor' when there is none.  Either
    way the form is no longer loading. *)
Theorem X19_create_actor_outcomes
    (createResponse : Js.outcome unit (option string))
    (actorsResponse : Js.outcome (list ActorList.Actor) unit)
    (s : ActorList.State) :
  Js.trim (ActorList.name (ActorList.createFormData s)) ≠ "" →
  ActorList.auto_generate_image (ActorList.createFormData s) = true
  ∨ (∃ img rest, ActorList.images (ActorList.createFormData s) = Some (img :: rest)) →
  let result := ActorList.handleCreateSubmit createResponse actorsResponse s in
  ActorList.createLoading (fst result) = false ∧
  match createResponse with
  | Js.Resolved _ =>
      snd result = [ActorList.CreateActor (ActorList.createFormData s); ActorList.GetActors] ∧
      ActorList.createFormData (fst result) = ActorList.empty_form ∧
      ActorList.showCreateModal (fst result) = false ∧
      ActorList.createError (fst result) = None ∧
      ActorList.actors (fst result)
      = match actorsResponse with
        | Js.Resolved data => ActorList.process_actor <$> data
        | Js.Rejected _ => ActorList.actors s
        end
  | Js.Rejected detail =>
      snd result = [ActorList.CreateActor (ActorList.createFormData s)] ∧
      ActorList.createFormData (fst result) = ActorList.createFormData s ∧
      ActorList.showCreateModal (fst result) = ActorList.showCreateModal s ∧
      ActorList.actors (fst result) = ActorList.actors s ∧
      ActorList.createError (fst result)
      = Some match detail with
             | Some d => if Js.truthy d then d else "Failed to create actor"
             | None => "Failed to create actor"
             end
  end.
Proof.
  intros Hname Hsrc. cbn zeta. unfold ActorList.handleCreateSubmit.
  rewrite truthy_nonempty by done. cbn [negb].
  assert (negb (ActorList.auto_generate_image (ActorList.createFormData s))
          && ActorList.no_images (ActorList.createFormData s) = false) as ->.
  { destruct Hsrc as [-> | (img & rest & Himgs)]; [done|].
    unfold ActorList.no_images. rewrite Himgs. cbn. apply andb_false_r. }
  destruct createResponse as [[]|detail]; [|done].
  by destruct actorsResponse.
Qed.

Lemma X19_create_actor_outcomes_witness :
  ActorList.createFormData
    (fst (ActorList.handleCreateSubmit (Js.Rejected (Some "Actor already exists"))
            (Js.Resolved []) MoreSamples.actor_form_ready))
  = ActorList.createFormData MoreSamples.actor_form_ready ∧
  ActorList.createError
    (fst (ActorList.handleCreateSubmit (Js.Rejected (Some "Actor already exists"))
            (Js.Resolved []) MoreSamples.actor_form_ready))
  = Some "Actor already exists".
Proof.
  destruct (X19_create_actor_outcomes (Js.Rejected (Some "Actor already exists"))
              (Js.Resolved []) MoreSamples.actor_form_ready
              ltac:(discriminate) ltac:(right; by eexists _, _))
    as (_ & _ & Hform & _ & _ & Herror).
  exact (conj Hform Herror).
Defined.

(** X20.  Ticking the auto-generate box discards the chosen files for
    good.  With a name entered, a form with the box ticked is submitted with
    an empty image list; and when the box is ticked and then cleared again,
    the files chosen before are gone, so the submission is refused with
    'Please either upload images or select auto-generate'. *)
Theorem X20_auto_generate_discards_files (files : list string)
    (createResponse : Js.outcome unit (option string))
    (actorsResponse : Js.outcome (list ActorList.Actor) unit)
    (s : ActorList.State) :
  Js.trim (ActorList.name (ActorList.createFormData s)) ≠ "" →
  let chosen := ActorForm.handleImageUpload files s in
  let ticked := ActorForm.handleAutoGenerateChange true chosen in
  let cleared := ActorForm.handleAutoGenerateChange false ticked in
  (∃ sent later,
     snd (ActorList.handleCreateSubmit createResponse actorsResponse ticked)
     = ActorList.CreateActor sent :: later ∧
     ActorList.images sent = Some [] ∧
     ActorList.auto_generate_image sent = true ∧
     ActorList.name sent = ActorList.name (ActorList.createFormData s)) ∧
  ActorList.images (ActorList.createFormData cleared) = Some [] ∧
  ActorList.handleCreateSubmit createResponse actorsResponse cleared
  = (ActorList.setCreateError
       (Some "Please either upload images or select auto-generate") cleared, []).
Proof.
  intros Hname. cbn zeta. split; [|split; [done|]].
  - destruct (create_sends createResponse actorsResponse
                (ActorForm.handleAutoGenerateChange true
                   (ActorForm.handleImageUpload files s)))
      as (later & Hsent); [done | by left |].
    eexists _, later. split; [exact Hsent|]. done.
  - apply create_no_source; cbn; [done | done | by right].
Qed.

Lemma X20_auto_generate_discards_files_witness :
  snd (ActorList.handleCreateSubmit (Js.Resolved ()) (Js.Resolved [])
         (ActorForm.handleAutoGenerateChange false
            (ActorForm.handleAutoGenerateChange true MoreSamples.actor_form_ready)))
  = [].
Proof.
  destruct (X20_auto_generate_discards_files ["mara.png"] (Js.Resolved ())
              (Js.Resolved [])
              (ActorForm.handleCreateChange ActorForm.NameField "Mara"
                 Samples.actor_form_blank) ltac:(discriminate))
    as (_ & _ & Hrefused).
  exact (f_equal snd Hrefused).
Defined.

(** ** A consultation session *)

Lemma answerAll_snoc (values : list string) (value : string)
    (s : FilmSchoolConsultation.State) :
  ConsultationSession.answerAll (values ++ [value]) s
  = FilmSchoolConsultation.handleAnswerChange (length values) value
      (ConsultationSession.answerAll values s).
Proof.
  unfold ConsultationSession.answerAll.
  rewrite imap_app, foldl_app. cbn. by rewrite Nat.add_0_r.
Qed.

Lemma answerAll_questions (values : list string) (s : FilmSchoolConsultation.State) :
  FilmSchoolConsultation.questions (ConsultationSession.answerAll values s)
  = FilmSchoolConsultation.questions s.
Proof.
  induction values as [|value values IH] using rev_ind; [done|].
  by rewrite answerAll_snoc.
Qed.

Lemma answerAll_lookup (values : list string) (s : FilmSchoolConsultation.State)
    (k : nat) :
  FilmSchoolConsultation.answers (ConsultationSession.answerAll values s) !! k
  = match values !! k with
    | Some value => Some value
    | None => FilmSchoolConsultation.answers s !! k
    end.
Proof.
  induction values as [|value values IH] using rev_ind; [done|].
  rewrite answerAll_snoc. cbn.
  destruct (decide (k = length values)) as [->|Hne].
  - by rewrite lookup_insert_eq, list_lookup_middle.
  - rewrite lookup_insert_ne by done. rewrite IH.
    destruct (decide (k < length values)%nat) as [Hlt|Hge].
    + by rewrite lookup_app_l.
    + rewrite (lookup_ge_None_2 values) by lia.
      by rewrite (lookup_ge_None_2 (values ++ [value])) by (rewrite length_app; cbn; lia).
Qed.

Lemma size_map_seq_0 {A} (xs : list A) :
  size (map_seq (M := gmap nat A) 0 xs) = length xs.
Proof.
  induction xs as [|x xs IH] using rev_ind; [done|].
  rewrite map_seq_snoc, length_app. cbn.
  rewrite map_size_insert_None by (apply lookup_map_seq_None; lia). lia.
Qed.

Lemma answerAll_answers (values : list string) (s : FilmSchoolConsultation.State) :
  (∀ k, is_Some (FilmSchoolConsultation.answers s !! k) → (k < length values)%nat) →
  FilmSchoolConsultation.answers (ConsultationSession.answerAll values s)
  = map_seq 0 values.
Proof.
  intros Hkeys. apply map_eq. intros k.
  rewrite answerAll_lookup, lookup_map_seq_0.
  destruct (values !! k) eqn:Hk; [done|].
  apply lookup_ge_None in Hk.
  destruct (FilmSchoolConsultation.answers s !! k) eqn:Hold; [|done].
  specialize (Hkeys k (mk_is_Some _ _ Hold)). lia.
Qed.

Lemma stale_answer_count (ans : gmap nat string) (n k : nat) :
  (∀ i, (i < n)%nat → is_Some (ans !! i)) →
  (n ≤ k)%nat → is_Some (ans !! k) → (n < size ans)%nat.
Proof.
  intros Hall Hk Hstale.
  rewrite <- (size_dom (D := gset nat)).
  assert ((set_seq 0 n : gset nat) ∪ {[k]} ⊆ dom ans) as Hsub.
  { intros i Hi. apply elem_of_dom. apply elem_of_union in Hi as [Hi|Hi].
    - apply elem_of_set_seq in Hi. apply Hall. lia.
    - apply elem_of_singleton in Hi as ->. exact Hstale. }
  apply subseteq_size in Hsub.
  rewrite size_union in Hsub.
  - rewrite size_set_seq, size_singleton in Hsub. lia.
  - intros i Hi Hi'. apply elem_of_set_seq in Hi.
    apply elem_of_singleton in Hi'. lia.
Qed.

(** X21.  Something is entered for every question of the stage, first to
    last.  When every answer recorded before belongs to a question of the
    stage (as on a stage that starts with no answers), the submission goes
    through and carries exactly what was entered, each answer under the
    index of its question: earlier entries are overwritten, and an answer
    that is the empty string (text typed and deleted again) counts as an
    answer and is sent as such.  When an answer is recorded under an index
    that is not a question of the stage, the submission is refused with
    'Please answer all questions before submitting' although every
    question has its answer. *)
Theorem X21_answers_sent_as_entered (projectId : string) (values : list string)
    (response : Js.outcome FilmSchoolConsultation.SubmitData (option string))
    (s : FilmSchoolConsultation.State) :
  length values = length (FilmSchoolConsultation.questions s) →
  let asked := length (FilmSchoolConsultation.questions s) in
  let entered := ConsultationSession.answerAll values s in
  ((∀ k, is_Some (FilmSchoolConsultation.answers s !! k) → (k < asked)%nat) →
   snd (FilmSchoolConsultation.handleSubmitAnswers projectId response entered)
   = [FilmSchoolConsultation.SubmitAnswers projectId
        (imap (λ index value,
                 {| FilmSchoolConsultation.question_id := index;
                    FilmSchoolConsultation.answer := value |})
              values)]) ∧
  ((∃ k, is_Some (FilmSchoolConsultation.answers s !! k) ∧ (asked ≤ k)%nat) →
   FilmSchoolConsultation.handleSubmitAnswers projectId response entered
   = (FilmSchoolConsultation.setError
        (Some "Please answer all questions before submitting") entered, [])).
Proof.
  intros Hlen. cbn zeta. split.
  - intros Hkeys.
    assert (FilmSchoolConsultation.answers (ConsultationSession.answerAll values s)
            = map_seq 0 values) as Hanswers.
    { apply answerAll_answers. intros k Hk. rewrite Hlen. by apply Hkeys. }
    rewrite submit_sent
      by (by rewrite Hanswers, size_map_seq_0, answerAll_questions).
    do 2 f_equal. rewrite Hanswers, answerAll_questions.
    unfold FilmSchoolConsultation.formatAnswers.
    apply list_eq. intros k. rewrite !list_lookup_imap.
    destruct (values !! k) as [value|] eqn:Hk.
    + destruct (lookup_lt_is_Some_2 (FilmSchoolConsultation.questions s) k) as [q Hq].
      { rewrite <- Hlen. by eapply lookup_lt_Some. }
      rewrite Hq. cbn. rewrite lookup_map_seq_0, Hk. do 2 f_equal.
      destruct value; [done|]. by rewrite truthy_nonempty.
    + apply lookup_ge_None in Hk.
      by rewrite (lookup_ge_None_2 (FilmSchoolConsultation.questions s)) by lia.
  - intros (k & Hstale & Hk). apply submit_refused.
    rewrite answerAll_questions.
    assert (length (FilmSchoolConsultation.questions s)
            < size (FilmSchoolConsultation.answers
                      (ConsultationSession.answerAll values s)))%nat; [|lia].
    apply (stale_answer_count _ _ k); [|done|].
    + intros i Hi. rewrite answerAll_lookup.
      destruct (lookup_lt_is_Some_2 values i) as [value ->]; [lia | eauto].
    + rewrite answerAll_lookup.
      by rewrite (lookup_ge_None_2 values) by lia.
Qed.

Lemma X21_answers_sent_as_entered_witness :
  snd (FilmSchoolConsultation.handleSubmitAnswers "p1" (Js.Rejected None)
         (ConsultationSession.answerAll ["A heist comedy"; ""]
            Samples.consultation_start))
  = [FilmSchoolConsultation.SubmitAnswers "p1"
       [ {| FilmSchoolConsultation.question_id := 0;
            FilmSchoolConsultation.answer := "A heist comedy" |};
         {| FilmSchoolConsultation.question_id := 1;
            FilmSchoolConsultation.answer := "" |} ]].
Proof.
  apply (X21_answers_sent_as_entered "p1" ["A heist comedy"; ""] (Js.Rejected None)
           Samples.consultation_start eq_refl).
  intros k [value Hk]. change ((∅ : gmap nat string) !! k = Some value) in Hk.
  by rewrite lookup_empty in Hk.
Defined.

Lemma updateStageProgress_fields (stage : string) (s : FilmSchoolConsultation.State) :
  FilmSchoolConsultation.questions (FilmSchoolConsultation.updateStageProgress stage s)
  = FilmSchoolConsultation.questions s ∧
  FilmSchoolConsultation.answers (FilmSchoolConsultation.updateStageProgress stage s)
  = FilmSchoolConsultation.answers s ∧
  FilmSchoolConsultation.currentStage (FilmSchoolConsultation.updateStageProgress stage s)
  = FilmSchoolConsultation.currentStage s ∧
  FilmSchoolConsultation.evaluation (FilmSchoolConsultation.updateStageProgress stage s)
  = FilmSchoolConsultation.evaluation s.
Proof.
  unfold FilmSchoolConsultation.updateStageProgress.
  by destruct (bool_decide _).
Qed.



(** X23.  When the response to a submission names a next stage without
    bringing its questions, the stage is entered with the button that calls
    proceedToNextStage, and this path never clears the recorded answers.
    After proceeding, the page shows the fetched questions of the new stage
    with the answers of the previous stage still recorded; so when the new
    stage has as many questions as the previous one, a submission made
    before anything is entered is accepted and sends the previous stage's
    answers. *)
Theorem X23_manual_advance_keeps_answers (formatStageName : string → string)
    (projectId st : string) (data : FilmSchoolConsultation.SubmitData)
    (q : FilmSchoolConsultation.Question) (qs : list FilmSchoolConsultation.Question)
    (again : Js.outcome FilmSchoolConsultation.SubmitData (option string))
    (s : FilmSchoolConsultation.State) :
  size (FilmSchoolConsultation.answers s) = length (FilmSchoolConsultation.questions s) →
  FilmSchoolConsultation.next_questions data = None →
  FilmSchoolConsultation.next_stage data = Some st →
  st ≠ "" →
  let submitted := fst (FilmSchoolConsultation.handleSubmitAnswers projectId
                          (Js.Resolved data) s) in
  FilmSchoolConsultation.questions submitted = [] ∧
  FilmSchoolConsultation.nextStage submitted = Some st ∧
  ∃ s',
    ConsultationSession.proceedToNextStage formatStageName projectId
      (Js.Resolved (Some (q :: qs))) submitted
    = Some (s', [ConsultationSession.GetProjectQuestions projectId;
                 ConsultationSession.ScrollToTop]) ∧
    FilmSchoolConsultation.questions s' = q :: qs ∧
    FilmSchoolConsultation.currentStage s' = st ∧
    FilmSchoolConsultation.nextStage s' = None ∧
    FilmSchoolConsultation.answers s' = FilmSchoolConsultation.answers s ∧
    (length (q :: qs) = length (FilmSchoolConsultation.questions s) →
     snd (FilmSchoolConsultation.handleSubmitAnswers projectId again s')
     = [FilmSchoolConsultation.SubmitAnswers projectId
          (FilmSchoolConsultation.formatAnswers (q :: qs)
             (FilmSchoolConsultation.answers s))]).
Proof.
  intros Hcount Hnext Hstage Hst. cbn zeta.
  unfold FilmSchoolConsultation.handleSubmitAnswers at 1 2 3.
  rewrite bool_decide_eq_false_2 by (by intros ?). cbn [fst].
  unfold FilmSchoolConsultation.after_submit. rewrite Hnext, Hstage.
  assert (Js.truthy st = true) as -> by (by destruct st).
  unfold ConsultationSession.proceedToNextStage.
  destruct (FilmSchoolConsultation.evaluation_of data) as [ev|];
    try destruct (Js.truthy ev).
  all: split; [done|]; split; [done|].
  all: eexists; split; [reflexivity|].
  all: match goal with
       | |- context [FilmSchoolConsultation.updateStageProgress ?st ?x] =>
           pose proof (updateStageProgress_fields st x) as (Hq & Ha & Hc & He)
       end.
  all: cbn [FilmSchoolConsultation.questions FilmSchoolConsultation.answers
            FilmSchoolConsultation.currentStage FilmSchoolConsultation.nextStage
            FilmSchoolConsultation.setQuestions FilmSchoolConsultation.setNextStage].
  all: rewrite Hc, Ha; split_and!; try done.
  all: intros Hsame; rewrite submit_sent.
  all: cbn [FilmSchoolConsultation.questions FilmSchoolConsultation.answers
            FilmSchoolConsultation.setQuestions FilmSchoolConsultation.setNextStage].
  all: rewrite ?Ha; try done.
  all: by rewrite Hsame, <- Hcount.
Qed.

Lemma X23_manual_advance_keeps_answers_witness :
  ∃ s',
    ConsultationSession.proceedToNextStage (λ stage, stage) "p1"
      (Js.Resolved (Some MoreSamples.two_questions))
      (fst (FilmSchoolConsultation.handleSubmitAnswers "p1"
              (Js.Resolved
                 {| FilmSchoolConsultation.evaluation_of := None;
                    FilmSchoolConsultation.next_questions := None;
                    FilmSchoolConsultation.next_stage := Some "plot_structure" |})
              MoreSamples.consultation_answered))
    = Some (s', [ConsultationSession.GetProjectQuestions "p1";
                 ConsultationSession.ScrollToTop]) ∧
    FilmSchoolConsultation.answers s'
    = FilmSchoolConsultation.answers MoreSamples.consultation_answered.
Proof.
  destruct (X23_manual_advance_keeps_answers (λ stage, stage) "p1" "plot_structure"
              {| FilmSchoolConsultation.evaluation_of := None;
                 FilmSchoolConsultation.next_questions := None;
                 FilmSchoolConsultation.next_stage := Some "plot_structure" |}
              MoreSamples.hero_question [MoreSamples.wish_question]
              (Js.Rejected None) MoreSamples.consultation_answered
              eq_refl eq_refl eq_refl ltac:(discriminate))
    as (_ & _ & s' & Hrun & _ & _ & _ & Hanswers & _).
  exists s'. exact (conj Hrun Hanswers).
Defined.

(** ** The fallback image (services/api) *)

Lemma to_double_small (z : Z) :
  Z.abs z < 2 ^ 53 → ApiUtils.to_double z = z.
Proof. intros Hsmall. unfold ApiUtils.to_double. by rewrite bool_decide_eq_true_2. Qed.

(** X24.  For a whole-number size of magnitude below 2^53 - 300, where the
    arithmetic of doubles is exact, the fallback image is one of the four
    placeholder files, the one whose size is nearest to the size asked for
    (300 when none is given); of two sizes equally near, the smaller is
    taken.  The text argument has no influence. *)
Theorem X24_fallback_image_nearest_size (size : option Z) (text : option string) :
  Z.abs (default 300 size) < 2 ^ 53 - 300 →
  ∃ closest,
    ApiUtils.getFallbackImage size text
    = Some ("/assets/placeholder-" +:+ pretty closest +:+ ".svg") ∧
    closest ∈ ApiUtils.availableSizes ∧
    ∀ other, other ∈ ApiUtils.availableSizes →
      Z.abs (closest - default 300 size) ≤ Z.abs (other - default 300 size) ∧
      (Z.abs (other - default 300 size) = Z.abs (closest - default 300 size) →
       closest ≤ other).
Proof.
  unfold ApiUtils.getFallbackImage, ApiUtils.reduce, ApiUtils.availableSizes.
  generalize (default 300 size). intros wanted Hsafe.
  change (2 ^ 53) with 9007199254740992 in Hsafe.
  assert (∀ c, 100 ≤ c ≤ 300 → ApiUtils.minus c wanted = c - wanted) as Hexact.
  { intros c Hc. apply to_double_small.
    change (2 ^ 53) with 9007199254740992. lia. }
  cbn [foldl mbind option_bind].
  repeat
    (rewrite ?(Hexact 100), ?(Hexact 200), ?(Hexact 250), ?(Hexact 300) by lia;
     match goal with
     | |- context [bool_decide (Z.abs (?c - wanted) < Z.abs (?p - wanted))] =>
         let Hcmp := fresh "Hcmp" in
         destruct (decide (Z.abs (c - wanted) < Z.abs (p - wanted))) as [Hcmp|Hcmp];
         [ rewrite (bool_decide_eq_true_2 _ Hcmp)
         | rewrite (bool_decide_eq_false_2 _ Hcmp) ]
     end);
    (eexists; split; [reflexivity|]; split; [set_solver|];
     intros other Hother;
     repeat (apply elem_of_cons in Hother as [-> | Hother]);
     [lia | lia | lia | lia | by apply elem_of_nil in Hother]).
Qed.

Lemma X24_fallback_image_nearest_size_witness :
  ∃ closest,
    ApiUtils.getFallbackImage (Some 225) None
    = Some ("/assets/placeholder-" +:+ pretty closest +:+ ".svg") ∧
    closest ∈ ApiUtils.availableSizes.
Proof.
  destruct (X24_fallback_image_nearest_size (Some 225) None)
    as (closest & Hrun & Hin & _).
  - vm_compute. reflexivity.
  - exists closest. exact (conj Hrun Hin).
Defined.

Example fallback_image_samples :
  ApiUtils.getFallbackImage (Some 225) None = Some "/assets/placeholder-200.svg" ∧
  ApiUtils.getFallbackImage None (Some "gone") = Some "/assets/placeholder-300.svg" ∧
  ApiUtils.getFallbackImage (Some (10 ^ 19)) None = Some "/assets/placeholder-100.svg".
Proof. by vm_compute. Qed.

(** ** The reconnecting WebSocket client *)

Section ReconnectingClient.

Import WebSocketClient.

Variable REACT_APP_WS_URL : option string.
Context {App : Type}.
Variable handle : Handler → string → App → Js.outcome App App.

Lemma backoff_range (attempts : Z) :
  0 ≤ attempts < 5 → 1000 * 2 ^ attempts ∈ backoff_delays.
Proof.
  intros Hrange. unfold backoff_delays.
  assert (attempts = 0 ∨ attempts = 1 ∨ attempts = 2 ∨ attempts = 3 ∨ attempts = 4)
    as Hcases by lia.
  clear Hrange. destruct Hcases as [-> | [-> | [-> | [-> | ->]]]]; cbn; set_solver.
Qed.

Lemma backoff_double (attempts : Z) :
  0 ≤ attempts → 1000 * 2 ^ attempts * 2 = 1000 * 2 ^ (attempts + 1).
Proof. intros H. rewrite Z.pow_add_r by lia. lia. Qed.

Lemma boot_steady (created : bool) (a : App) :
  steady (fst (boot REACT_APP_WS_URL created a)) ∧
  Forall modest (snd (boot REACT_APP_WS_URL created a)).
Proof.
  unfold boot, constructor, initSocket, attemptReconnect, maxReconnectAttempts.
  destruct created; cbn.
  - split; [|by repeat constructor].
    unfold steady, maxReconnectAttempts. cbn. split_and!; try done; try lia.
    intros delay Hin. by apply elem_of_nil in Hin.
  - case_bool_decide; [lia|]. cbn.
    split; [|repeat constructor; cbn; unfold backoff_delays; set_solver].
    unfold steady, maxReconnectAttempts. cbn. split_and!; try done; try lia.
    intros delay Hin. apply list_elem_of_singleton in Hin as ->. lia.
Qed.

Ltac pending_timers :=
  cbn;
  let Hin := fresh in
  intros ? Hin;
  first [ by apply elem_of_nil in Hin
        | apply list_elem_of_singleton in Hin as ->; lia ].

Lemma none_pending (n : nat) (pending : list Z) :
  (n + length pending ≤ 1)%nat → (0 < n)%nat → n = 1%nat ∧ pending = [].
Proof. destruct pending; cbn; [|lia]. split; [lia | done]. Qed.

Lemma step_steady (e : Event) (s s' : System) (effects : list Effect) :
  steady s →
  step REACT_APP_WS_URL handle e s = Some (s', effects) →
  steady s' ∧ Forall modest effects.
Proof.
  destruct s as [[socket handlers connected attempts delay] a n pending].
  unfold steady, maxReconnectAttempts. cbn.
  intros (Hatt & Hdelay & Hcount & Hws & Hconn & Htimers) Hstep.
  destruct e; cbn in Hstep.
  - (* open *)
    case_bool_decide as Hlive; [|done]. injection Hstep as <- <-. cbn.
    destruct (none_pending _ _ Hcount Hlive) as [-> ->].
    split; [|constructor]. split_and!; auto; try done; try lia; pending_timers.
  - (* message *)
    case_bool_decide; [|done]. unfold onmessage in Hstep. cbn in Hstep.
    destruct (forEach handle handlers message a); injection Hstep as <- <-; cbn;
      rewrite app_nil_r, Nat.add_0_r; (split; [done | by repeat constructor]).
  - (* error *)
    case_bool_decide; [|done]. injection Hstep as <- <-. cbn.
    rewrite app_nil_r, Nat.add_0_r. split; [|by repeat constructor].
    split_and!; try done; lia.
  - (* close *)
    destruct n as [|remaining]; [done|].
    destruct (none_pending _ _ Hcount ltac:(lia)) as [[= ->] ->].
    unfold onclose, attemptReconnect, maxReconnectAttempts in Hstep. cbn in Hstep.
    case_bool_decide; injection Hstep as <- <-; cbn.
    + split; [|by repeat constructor]. split_and!; auto; try done; try lia; pending_timers.
    + split.
      * split_and!; try done; try lia; pending_timers.
      * constructor; [|constructor]. cbn. rewrite Hdelay. apply backoff_range. lia.
  - (* timer *)
    destruct pending as [|d pending]; [done|].
    destruct (Htimers d) as [_ Hless]; [by left|].
    assert (n = 0%nat ∧ pending = []) as [-> ->].
    { destruct pending; cbn in Hcount; [|lia]. split; [lia | done]. }
    assert (connected = false) as ->.
    { destruct connected; [|done]. destruct Hconn as [Hlive _]; done. }
    pose proof (backoff_double attempts ltac:(lia)) as Hdouble.
    unfold reconnect, initSocket, attemptReconnect, maxReconnectAttempts in Hstep.
    cbn in Hstep. destruct created.
    + injection Hstep as <- <-. cbn. split; [|by repeat constructor].
      split_and!; auto; try done; try lia; pending_timers.
    + case_bool_decide; injection Hstep as <- <-; cbn.
      * split; [|by repeat constructor].
        split_and!; auto; try done; try lia; pending_timers.
      * split.
        -- split_and!; try done; try lia; pending_timers.
        -- constructor; [done|]. constructor; [|constructor].
           cbn. rewrite Hdelay, Hdouble.
           apply backoff_range. lia.
  - (* subscribe *)
    injection Hstep as <- <-. cbn. rewrite app_nil_r, Nat.add_0_r.
    split; [done | constructor].
  - (* unsubscribe *)
    injection Hstep as <- <-. cbn. rewrite app_nil_r, Nat.add_0_r.
    split; [done | constructor].
  - (* send *)
    unfold sendMessage in Hstep. cbn in Hstep.
    destruct (connected && readyOpen); injection Hstep as <- <-; cbn;
      rewrite app_nil_r, Nat.add_0_r; (split; [done | by repeat constructor]).
  - (* close() *)
    unfold close in Hstep. cbn in Hstep.
    destruct socket; injection Hstep as <- <-; cbn;
      rewrite app_nil_r, Nat.add_0_r; (split; [done | by repeat constructor]).
Qed.

Lemma run_steady (events : list Event) (s s' : System) (effects : list Effect) :
  steady s →
  run REACT_APP_WS_URL handle events s = Some (s', effects) →
  steady s' ∧ Forall modest effects.
Proof.
  revert s effects. induction events as [|e events IH]; intros s effects Hs Hrun.
  - injection Hrun as <- <-. by split.
  - cbn in Hrun.
    destruct (step REACT_APP_WS_URL handle e s) as [[s1 effects1]|] eqn:Hstep;
      [|done].
    cbn in Hrun.
    destruct (run REACT_APP_WS_URL handle events s1) as [[s2 effects2]|] eqn:Hrest;
      [|done].
    cbn in Hrun. injection Hrun as <- <-.
    destruct (step_steady _ _ _ _ Hs Hstep) as [Hs1 Hmodest1].
    destruct (IH _ _ Hs1 Hrest) as [Hs2 Hmodest2].
    split; [done|]. by apply Forall_app.
Qed.

Lemma forEach_app (before after : list Handler) (message : string) (a : App) :
  forEach handle (before ++ after) message a
  = match forEach handle before message a with
    | Js.Resolved a' => forEach handle after message a'
    | Js.Rejected a' => Js.Rejected a'
    end.
Proof.
  revert a. induction before as [|h before IH]; intros a; [done|].
  cbn. destruct (handle h message a); [apply IH | done].
Qed.

Lemma step_abandoned (e : Event) (s s' : System) (effects : list Effect) :
  abandoned s →
  step REACT_APP_WS_URL handle e s = Some (s', effects) →
  abandoned s' ∧ Forall silent effects.
Proof.
  destruct s as [[socket handlers connected attempts delay] a n pending].
  unfold abandoned. cbn. intros (-> & -> & ->) Hstep.
  destruct e; cbn in Hstep; try done.
  - injection Hstep as <- <-. by split.
  - injection Hstep as <- <-. by split.
  - injection Hstep as <- <-. cbn. split; [done|]. by repeat constructor.
  - unfold close in Hstep. cbn in Hstep.
    destruct socket; injection Hstep as <- <-; cbn;
      (split; [done | by repeat constructor]).
Qed.

Lemma run_abandoned (events : list Event) (s s' : System) (effects : list Effect) :
  abandoned s →
  run REACT_APP_WS_URL handle events s = Some (s', effects) →
  abandoned s' ∧ Forall silent effects.
Proof.
  revert s effects. induction events as [|e events IH]; intros s effects Hs Hrun.
  - injection Hrun as <- <-. by split.
  - cbn in Hrun.
    destruct (step REACT_APP_WS_URL handle e s) as [[s1 effects1]|] eqn:Hstep;
      [|done].
    cbn in Hrun.
    destruct (run REACT_APP_WS_URL handle events s1) as [[s2 effects2]|] eqn:Hrest;
      [|done].
    cbn in Hrun. injection Hrun as <- <-.
    destruct (step_abandoned _ _ _ _ Hs Hstep) as [Hs1 Hsilent1].
    destruct (IH _ _ Hs1 Hrest) as [Hs2 Hsilent2].
    split; [done|]. by apply Forall_app.
Qed.

End ReconnectingClient.


(** X25.  However the connection behaves, the client keeps its
    reconnection in bounds.  After any sequence of socket events, timeouts
    and calls, the attempt counter lies between 0 and 5, the delay is
    1000 ms doubled once per attempt (so at most 32 seconds), there is never
    more than one socket or pending reconnection at a time, a client that
    believes to be connected has a live socket and a counter of 0, and every
    timeout that was set waits 1, 2, 4, 8 or 16 seconds. *)
Theorem X25_reconnection_stays_in_bounds (REACT_APP_WS_URL : option string)
    {App : Type}
    (handle : WebSocketClient.Handler → string → App → Js.outcome App App)
    (created : bool) (a : App) (events : list WebSocketClient.Event)
    (s : WebSocketClient.System) (effects : list WebSocketClient.Effect) :
  WebSocketClient.run REACT_APP_WS_URL handle events
    (fst (WebSocketClient.boot REACT_APP_WS_URL created a)) = Some (s, effects) →
  let c := WebSocketClient.client s in
  0 ≤ WebSocketClient.reconnectAttempts c ≤ 5 ∧
  WebSocketClient.reconnectDelay c = 1000 * 2 ^ WebSocketClient.reconnectAttempts c ∧
  WebSocketClient.reconnectDelay c ≤ 32000 ∧
  (WebSocketClient.sockets s + length (WebSocketClient.timers s) ≤ 1)%nat ∧
  (WebSocketClient.isConnected c = true →
   WebSocketClient.sockets s = 1%nat ∧ WebSocketClient.reconnectAttempts c = 0) ∧
  ∀ delay,
    WebSocketClient.SetTimeout delay
    ∈ snd (WebSocketClient.boot REACT_APP_WS_URL created a) ++ effects →
    delay ∈ [1000; 2000; 4000; 8000; 16000].
Proof.
  intros Hrun. cbn zeta.
  destruct (boot_steady REACT_APP_WS_URL created a) as [Hboot Hfirst].
  destruct (run_steady REACT_APP_WS_URL handle _ _ _ _ Hboot Hrun)
    as [(Hatt & Hdelay & Hcount & _ & Hconn & _) Hlater].
  split; [done|]. split; [done|]. split.
  { rewrite Hdelay. unfold WebSocketClient.maxReconnectAttempts in Hatt.
    change 32000 with (1000 * 2 ^ 5).
    apply Z.mul_le_mono_nonneg_l; [lia|].
    apply Z.pow_le_mono_r; lia. }
  split; [done|]. split; [done|].
  intros delay Hin.
  assert (Forall WebSocketClient.modest
            (snd (WebSocketClient.boot REACT_APP_WS_URL created a) ++ effects))
    as Hall by (by apply Forall_app).
  rewrite Forall_forall in Hall. exact (Hall _ Hin).
Qed.

Lemma X25_reconnection_stays_in_bounds_witness :
  ∃ s effects,
    MoreSamples.browse MoreSamples.flaky_connection = Some (s, effects) ∧
    WebSocketClient.reconnectAttempts (WebSocketClient.client s) = 2 ∧
    WebSocketClient.reconnectDelay (WebSocketClient.client s) ≤ 32000.
Proof.
  eexists _, _. split; [reflexivity|]. split; [reflexivity|].
  exact (proj1 (proj2 (proj2
           (X25_reconnection_stays_in_bounds None MoreSamples.logging true []
              MoreSamples.flaky_connection _ _ eq_refl)))).
Defined.

(** X26.  When a socket closes while the attempt counter stands at 5, the
    client logs 'Max reconnection attempts reached' and sets no timeout;
    from then on it never creates a socket or sets a timeout again, never
    reports itself connected, and sends no message: every sendMessage only
    logs an error. *)
Theorem X26_client_gives_up_for_good (REACT_APP_WS_URL : option string)
    {App : Type}
    (handle : WebSocketClient.Handler → string → App → Js.outcome App App)
    (created : bool) (a : App) (events later : list WebSocketClient.Event)
    (s s' s'' : WebSocketClient.System)
    (effects closing effects' : list WebSocketClient.Effect) :
  WebSocketClient.run REACT_APP_WS_URL handle events
    (fst (WebSocketClient.boot REACT_APP_WS_URL created a)) = Some (s, effects) →
  WebSocketClient.reconnectAttempts (WebSocketClient.client s) = 5 →
  WebSocketClient.step REACT_APP_WS_URL handle WebSocketClient.SocketCloses s
  = Some (s', closing) →
  WebSocketClient.run REACT_APP_WS_URL handle later s' = Some (s'', effects') →
  closing = [WebSocketClient.ConsoleError "Max reconnection attempts reached"] ∧
  WebSocketClient.isConnected (WebSocketClient.client s'') = false ∧
  WebSocketClient.sockets s'' = 0%nat ∧
  WebSocketClient.timers s'' = [] ∧
  Forall WebSocketClient.silent effects'.
Proof.
  intros Hrun Hfive Hclose Hlater.
  destruct (boot_steady REACT_APP_WS_URL created a) as [Hboot _].
  destruct (run_steady REACT_APP_WS_URL handle _ _ _ _ Hboot Hrun)
    as [(_ & _ & Hcount & _ & _ & _) _].
  assert (closing = [WebSocketClient.ConsoleError "Max reconnection attempts reached"]
          ∧ WebSocketClient.abandoned s') as [-> Hgone].
  { destruct s as [[socket handlers connected attempts delay] a0 n pending].
    cbn in Hfive, Hcount, Hclose. subst attempts.
    destruct n as [|remaining]; [done|].
    destruct (none_pending _ _ Hcount ltac:(lia)) as [[= ->] ->].
    injection Hclose as <- <-. by split. }
  split; [done|].
  destruct (run_abandoned REACT_APP_WS_URL handle _ _ _ _ Hgone Hlater)
    as [(Hsockets & Htimers & Hconn) Hsilent].
  by split_and!.
Qed.

Lemma X26_client_gives_up_for_good_witness :
  ∃ s effects s' closing s'' effects',
    MoreSamples.browse MoreSamples.lost_connection = Some (s, effects) ∧
    WebSocketClient.step None MoreSamples.logging WebSocketClient.SocketCloses s
    = Some (s', closing) ∧
    WebSocketClient.run None MoreSamples.logging
      [WebSocketClient.Sends true "hello"; WebSocketClient.Closes] s'
    = Some (s'', effects') ∧
    Forall WebSocketClient.silent effects'.
Proof.
  eexists _, _, _, _, _, _.
  split; [vm_compute; reflexivity|].
  split; [vm_compute; reflexivity|].
  split; [vm_compute; reflexivity|].
  refine (proj2 (proj2 (proj2 (proj2
            (X26_client_gives_up_for_good None MoreSamples.logging true []
               MoreSamples.lost_connection
               [WebSocketClient.Sends true "hello"; WebSocketClient.Closes]
               _ _ _ _ _ _ _ _ _ _)))));
    vm_compute; reflexivity.
Defined.

(** X27.  Calling close() on a connected client does not stop it.  The
    socket is closed, its close event schedules a reconnection after one
    second, and when that timeout fires the client opens a new socket to
    the same address. *)
Theorem X27_close_is_followed_by_a_reconnection (REACT_APP_WS_URL : option string)
    {App : Type}
    (handle : WebSocketClient.Handler → string → App → Js.outcome App App)
    (created : bool) (a : App) (events : list WebSocketClient.Event)
    (s : WebSocketClient.System) (effects : list WebSocketClient.Effect) :
  WebSocketClient.run REACT_APP_WS_URL handle events
    (fst (WebSocketClient.boot REACT_APP_WS_URL created a)) = Some (s, effects) →
  WebSocketClient.isConnected (WebSocketClient.client s) = true →
  ∃ s',
    WebSocketClient.run REACT_APP_WS_URL handle
      [WebSocketClient.Closes; WebSocketClient.SocketCloses;
       WebSocketClient.TimerFires true] s
    = Some (s', [WebSocketClient.CloseSocket;
                 WebSocketClient.SetTimeout 1000;
                 WebSocketClient.NewWebSocket
                   (WebSocketClient.wsUrl REACT_APP_WS_URL)]) ∧
    WebSocketClient.sockets s' = 1%nat ∧
    WebSocketClient.reconnectAttempts (WebSocketClient.client s') = 1 ∧
    WebSocketClient.messageHandlers (WebSocketClient.client s')
    = WebSocketClient.messageHandlers (WebSocketClient.client s).
Proof.
  intros Hrun Hconnected.
  destruct (boot_steady REACT_APP_WS_URL created a) as [Hboot _].
  destruct (run_steady REACT_APP_WS_URL handle _ _ _ _ Hboot Hrun)
    as [(_ & Hdelay & Hcount & Hws & Hconn & _) _].
  destruct s as [[socket handlers connected attempts delay] a0 n pending].
  cbn in *. subst connected.
  destruct (Hconn eq_refl) as [-> ->].
  destruct (none_pending _ _ Hcount ltac:(lia)) as [_ ->].
  rewrite (Hws ltac:(lia)). subst delay.
  eexists. split; [reflexivity|]. done.
Qed.

Lemma X27_close_is_followed_by_a_reconnection_witness :
  ∃ s effects s',
    MoreSamples.browse [WebSocketClient.SocketOpens] = Some (s, effects) ∧
    WebSocketClient.run None MoreSamples.logging
      [WebSocketClient.Closes; WebSocketClient.SocketCloses;
       WebSocketClient.TimerFires true] s
    = Some (s', [WebSocketClient.CloseSocket;
                 WebSocketClient.SetTimeout 1000;
                 WebSocketClient.NewWebSocket "ws://localhost:8000/ws"]).
Proof.
  eexists _, _. 
  destruct (X27_close_is_followed_by_a_reconnection None MoreSamples.logging true []
              [WebSocketClient.SocketOpens] _ _ eq_refl eq_refl)
    as (s' & Hrun & _).
  exists s'. split; [reflexivity | exact Hrun].
Defined.

(** X28.  A message is handed to the handlers in the order of their
    registration, and the first handler that throws ends the delivery: the
    handlers registered after it do not see the message, the error is
    logged, and what the earlier handlers did stays done. *)
Theorem X28_throwing_handler_ends_delivery {App : Type}
    (handle : WebSocketClient.Handler → string → App → Js.outcome App App)
    (c : WebSocketClient.Client) (before after : list WebSocketClient.Handler)
    (h : WebSocketClient.Handler) (message : string) (a a1 a2 : App) :
  WebSocketClient.messageHandlers c = before ++ h :: after →
  WebSocketClient.forEach handle before message a = Js.Resolved a1 →
  handle h message a1 = Js.Rejected a2 →
  WebSocketClient.onmessage handle message c a
  = (a2, [WebSocketClient.ConsoleError "Error processing WebSocket message:"]).
Proof.
  intros Hhandlers Hbefore Hthrows. unfold WebSocketClient.onmessage.
  rewrite Hhandlers, forEach_app, Hbefore. cbn. by rewrite Hthrows.
Qed.

Lemma X28_throwing_handler_ends_delivery_witness :
  WebSocketClient.onmessage MoreSamples.logging "frame ready"
    MoreSamples.three_handlers []
  = (["frame ready"],
     [WebSocketClient.ConsoleError "Error processing WebSocket message:"]).
Proof.
  exact (X28_throwing_handler_ends_delivery MoreSamples.logging
           MoreSamples.three_handlers [0%nat] [2%nat] 1%nat "frame ready"
           [] ["frame ready"] ["frame ready"] eq_refl eq_refl eq_refl).
Defined.

(** ** The feedback modal *)

(** X29.  The feedback modal formats image addresses with a helper of its
    own.  When REACT_APP_API_URL is set, it agrees with the shared
    formatter on every absolute (http...) address and on every path that
    starts with a slash and mentions neither actor_images/ nor
    frame_images/. *)
Theorem X29_modal_formatter_agrees_with_shared (base url : string) :
  base ≠ "" →
  Js.startsWith url "http" = true
  ∨ (Js.startsWith url "/" = true ∧
     Js.includes url "actor_images/" = false ∧
     Js.includes url "frame_images/" = false) →
  Api.formatImageUrl (Some base) (Js.Str url)
  = Some (FeedbackForm.formatImageUrl (Some base) (Js.Str url)).
Proof.
  intros Hbase [Hhttp | (Hslash & Hactor & Hframe)].
  - rewrite formatImageUrl_absolute by done.
    cbn. rewrite Hhttp.
    apply startsWith_head in Hhttp as [rest ->]. done.
  - apply startsWith_head in Hslash as [rest ->].
    cbn [Api.formatImageUrl FeedbackForm.formatImageUrl Js.truthy negb].
    assert (Js.startsWith (String "/" rest) "http" = false) as -> by done.
    rewrite Hactor, Hframe.
    assert (Js.startsWith (String "/" rest) "/" = true) as ->
      by apply startsWith_cons.
    assert (Js.startsWith (String "/" rest) "actor-images/" = false) as -> by done.
    unfold Api.apiBase. rewrite truthy_nonempty by done. cbn [default].
    rewrite orb_false_r, append_empty_l.
    destruct (Js.startsWith (String "/" rest) "/actor-images/"); [done|].
    by destruct (Js.startsWith (String "/" rest) "/images/"
                 || Js.startsWith (String "/" rest) "/frame-images/").
Qed.

Lemma X29_modal_formatter_agrees_with_shared_witness :
  Api.formatImageUrl (Some "https://api.example.org") (Js.Str "/frame-images/f1.png")
  = Some (FeedbackForm.formatImageUrl (Some "https://api.example.org")
            (Js.Str "/frame-images/f1.png")).
Proof.
  apply (X29_modal_formatter_agrees_with_shared "https://api.example.org"
           "/frame-images/f1.png"); [discriminate|].
  right. by split_and!.
Defined.

(** X30.  Submitting the feedback modal with a frame and a non-blank text
    sends one request, carrying the text exactly as typed and no actor list
    when no actor is selected.  A response whose data JavaScript takes for
    true appends the data to the history, clears the text and the
    selection, notifies the parent when it asked for it, and hides the
    modal.  A response without such data (missing or falsy), and a failed
    request, hide nothing and lose nothing: the text, the selection and the
    history are kept and an error is shown, which is 'No data received from
    server' in the first case and in the second the first non-empty one of
    the server's message, the server's error and the error's own message,
    or else 'Failed to submit feedback. Please try again.'.  In every case
    the form ends up no longer submitting. *)
Theorem X30_modal_submit_outcomes {Entry : Type} (truthy_data : Entry → bool)
    (projectId : string) (notify : bool)
    (response : Js.outcome (option Entry) FeedbackForm.Failure)
    (s : FeedbackForm.State) (fr : StoryboardView.Frame) :
  FeedbackForm.frame s = Some fr →
  Js.trim (FeedbackForm.feedbackText s) ≠ "" →
  let result := FeedbackForm.handleSubmit truthy_data projectId notify response s in
  let request :=
    FeedbackForm.SubmitFrameFeedback (StoryboardView.frame_id fr)
      {| FeedbackForm.frame_id := StoryboardView.frame_id fr;
         FeedbackForm.feedback_text := FeedbackForm.feedbackText s;
         FeedbackForm.actor_names :=
           match FeedbackForm.selectedActors s with
           | [] => None
           | chosen => Some chosen
           end;
         FeedbackForm.project_id := projectId |} in
  let accepted (entry : Entry) :=
    snd result
    = request :: (if notify then [FeedbackForm.OnFeedbackSubmitted entry] else [])
      ++ [FeedbackForm.OnHide] ∧
    FeedbackForm.feedbackHistory (fst result)
    = FeedbackForm.feedbackHistory s ++ [entry] ∧
    FeedbackForm.feedbackText (fst result) = "" ∧
    FeedbackForm.selectedActors (fst result) = [] ∧
    FeedbackForm.error (fst result) = None in
  let kept (shown : string) :=
    snd result = [request] ∧
    FeedbackForm.feedbackHistory (fst result) = FeedbackForm.feedbackHistory s ∧
    FeedbackForm.feedbackText (fst result) = FeedbackForm.feedbackText s ∧
    FeedbackForm.selectedActors (fst result) = FeedbackForm.selectedActors s ∧
    FeedbackForm.error (fst result) = Some shown in
  let present (text : option string) :=
    match text with
    | Some t => negb (String.eqb t "")
    | None => false
    end in
  FeedbackForm.submitting (fst result) = false ∧
  match response with
  | Js.Resolved (Some entry) =>
      if truthy_data entry then accepted entry
      else kept "No data received from server"
  | Js.Resolved None => kept "No data received from server"
  | Js.Rejected err =>
      kept (if present (FeedbackForm.response_message err)
            then default "" (FeedbackForm.response_message err)
            else if present (FeedbackForm.response_error err)
            then default "" (FeedbackForm.response_error err)
            else if present (FeedbackForm.message err)
            then default "" (FeedbackForm.message err)
            else "Failed to submit feedback. Please try again.")
  end.
Proof.
  intros Hframe Htext. cbn zeta. unfold FeedbackForm.handleSubmit.
  rewrite Hframe, truthy_nonempty by done. cbn [negb].
  assert ((if bool_decide (0 < length (FeedbackForm.selectedActors s))%nat
           then Some (FeedbackForm.selectedActors s) else None)
          = match FeedbackForm.selectedActors s with
            | [] => None
            | chosen => Some chosen
            end) as -> by (by destruct (FeedbackForm.selectedActors s)).
  destruct response as [[entry|]|err]; [destruct (truthy_data entry)| |]; cbn;
    [done | done | done |].
  split_and!; try done. f_equal. unfold FeedbackForm.errorMessage.
  destruct err as [[[|c1 t1]|] [[|c2 t2]|] [[|c3 t3]|]]; done.
Qed.

Lemma X30_modal_submit_outcomes_witness :
  FeedbackForm.feedbackText
    (fst (FeedbackForm.handleSubmit Js.truthy "p1" true (Js.Resolved (Some ""))
            MoreSamples.modal_open))
  = " brighter sky " ∧
  FeedbackForm.error
    (fst (FeedbackForm.handleSubmit Js.truthy "p1" true (Js.Resolved (Some ""))
            MoreSamples.modal_open))
  = Some "No data received from server".
Proof.
  destruct (X30_modal_submit_outcomes Js.truthy "p1" true (Js.Resolved (Some ""))
              MoreSamples.modal_open Samples.frame1 eq_refl ltac:(discriminate))
    as (_ & _ & _ & Htext & _ & Herror).
  exact (conj Htext Herror).
Defined.
